(** * GitHub Projects v2 tools: a shallow embedding of pkg/github/projects.go

    The Go functions of [projects.go] that resolve owner scope, list
    projects, scan project items, resolve single-select options and
    mutate items are translated into a small free monad over the calls
    of the two client libraries (the REST client of go-github and the
    GraphQL client of githubv4).  A program is run against an arbitrary
    deterministic client, and the run records every call it issued.

    Conventions.  A function returning (value, error) whose value is the
    zero value on every error return is a sum; where the pair itself
    matters it is kept as a pair with an [option error].  Closing a
    response body has no effect on any result and is left out.
    [json.Marshal] cannot fail on the values this file gives it, so its
    error returns are left out as well. *)

From Stdlib Require Import ZArith Lia.
From Stdlib Require Import Floats.SpecFloat.
From stdpp Require Import base option list strings gmap pretty.

Set Warnings "-register-all".
Local Open Scope Z_scope.

(** ** The structs of go-github this file reads

    Only the fields the package looks at are kept.  Every pointer field
    of the library is an [option]: [None] is Go's nil. *)

Record ProjectV2 : Type := {
  project_ID : option Z;
  project_Number : option Z;
  project_Title : option string;
}.

Record User : Type := { Login : option string }.

Record Repository : Type := {
  repo_Name : option string;
  repo_Owner : option User;
}.

Record Issue : Type := {
  issue_Number : option Z;
  issue_Repository : option Repository;
}.

Record ProjectV2ItemContent : Type := { content_Issue : option Issue }.

Record ProjectV2Item : Type := {
  item_ID : option Z;
  item_Content : option ProjectV2ItemContent;
}.

Record ProjectV2TextContent : Type := { Raw : option string }.

Record ProjectV2FieldOption : Type := {
  option_ID : option string;
  option_Name : option ProjectV2TextContent;
}.

Record ProjectV2Field : Type := {
  field_ID : option Z;
  field_Name : option string;
  field_Options : list (option ProjectV2FieldOption);
}.

(** Modelled from the spec: MinimalProject is declared in another file
    of the package.  The listing code only assigns its [OwnerType]
    field, the source scope a listed project is tagged with; the
    project the entry was converted from stands for the other fields. *)
Record MinimalProject : Type := {
  mp_Project : ProjectV2;
  OwnerType : string;
}.

(** ** Go strings built by [fmt] and [encoding/json]

    A string produced by [fmt.Sprintf], [fmt.Errorf] or [json.Marshal] is kept
    as the sequence of its pieces: the literal parts of the format and
    the formatted operands, in order.  Nothing is rendered, so no
    quoting or number formatting rule has to be guessed. *)

Inductive piece : Type :=
| Str (s : string)             (* format text, or a %s / %v string operand *)
| Dec (n : Z)                  (* %d *)
| Quoted (s : string)          (* %q *)
| Float (f : spec_float)       (* %v of a float64 *)
| Sub (t : list piece)         (* %v / %w of an error, %s of a built string *)
| Json (j : json)              (* string(r) for r from json.Marshal *)
with json : Type :=
| JNull
| JBool (b : bool)
| JNumber (n : Z)
| JString (t : list piece)
| JArray (l : list json)
| JObject (kv : list (string * json))
| JProject (p : MinimalProject)       (* a MinimalProject, encoded as is *)
| JItem (i : option ProjectV2Item).   (* a *ProjectV2Item, encoded as is *)

Definition text : Type := list piece.

(** A Go [error] is identified with its message; a nil error is [None]
    in an [option error]. *)
Definition error : Type := text.

(** The first byte of a built string, as far as the code looks at it:
    [assignIssueToOrgProjectWithFields] only asks whether a text is
    empty and whether it starts with an opening brace. *)
Inductive lead : Type := Empty | OpenBrace | OtherByte.

Definition lead_of_string (s : string) : lead :=
  match s with
  | EmptyString => Empty
  | String c _ => if Ascii.eqb c (Ascii.ascii_of_nat 123) then OpenBrace else OtherByte
  end.

Definition lead_of_json (j : json) : lead :=
  match j with
  | JObject _ | JProject _ | JItem (Some _) => OpenBrace
  | _ => OtherByte
  end.

Fixpoint lead_of_piece (p : piece) : lead :=
  match p with
  | Str s => lead_of_string s
  | Dec _ | Quoted _ | Float _ => OtherByte
  | Json j => lead_of_json j
  | Sub t =>
      (fix go (l : list piece) : lead :=
         match l with
         | [] => Empty
         | q :: l' =>
             match lead_of_piece q with
             | Empty => go l'
             | b => b
             end
         end) t
  end.

Definition lead_of_text (t : text) : lead := lead_of_piece (Sub t).

(** Does the message carry the string [s] as one of its operands (at any
    depth of wrapping)? *)
Fixpoint piece_names (s : string) (p : piece) : bool :=
  match p with
  | Str s' | Quoted s' => String.eqb s s'
  | Sub t =>
      (fix go (l : list piece) : bool :=
         match l with
         | [] => false
         | q :: l' => piece_names s q || go l'
         end) t
  | _ => false
  end.

Definition names (s : string) (t : text) : bool := piece_names s (Sub t).

Fixpoint piece_names_number (n : Z) (p : piece) : bool :=
  match p with
  | Dec m => Z.eqb n m
  | Sub t =>
      (fix go (l : list piece) : bool :=
         match l with
         | [] => false
         | q :: l' => piece_names_number n q || go l'
         end) t
  | _ => false
  end.

Definition names_number (n : Z) (t : text) : bool := piece_names_number n (Sub t).

(** ** Dynamic values ([any]) *)

Inductive any : Type :=
| AnyNil
| AnyBool (b : bool)
| AnyString (s : text)
| AnyInt (n : Z)
| AnyInt64 (n : Z)
| AnyFloat64 (f : spec_float)
| AnyStrings (l : option (list text))     (* []string; None is the nil slice *)
| AnySlice (l : list any)                 (* []any *)
| AnyMap (m : list (string * any)).       (* map[string]any *)

(** ** Responses and options of the REST client *)

Record Response : Type := {
  StatusCode : Z;
  After : string;
  Before : string;
  Body : string + error;       (* what io.ReadAll(resp.Body) returns *)
}.

Record ListProjectsPaginationOptions : Type := {
  PerPage : option Z;
  opt_After : option string;
  opt_Before : option string;
}.

Record ListProjectsOptions : Type := {
  Pagination : ListProjectsPaginationOptions;
  Query : option string;
}.

Record ListProjectItemsOptions : Type := {
  ListOptions : ListProjectsOptions;
  opt_Fields : list Z;
}.

Record UpdateProjectV2Field : Type := {
  update_ID : Z;
  update_Value : any;
}.

Record UpdateProjectItemOptions : Type := {
  Fields : list UpdateProjectV2Field;
}.

(** githubv4.ID is an opaque node identifier. *)
Definition ID : Type := string.

(** ** The calls of the two clients *)

Inductive Call : Type :=
| GetUserProject (owner : string) (project : Z)
| GetOrganizationProject (org : string) (project : Z)
| ListUserProjects (owner : string) (opts : ListProjectsOptions)
| ListOrganizationProjects (org : string) (opts : ListProjectsOptions)
| ListUserProjectFields (owner : string) (project : Z) (opts : ListProjectsOptions)
| ListOrganizationProjectFields (org : string) (project : Z) (opts : ListProjectsOptions)
| ListUserProjectItems (owner : string) (project : Z) (opts : ListProjectItemsOptions)
| ListOrganizationProjectItems (org : string) (project : Z) (opts : ListProjectItemsOptions)
| UpdateUserProjectItem (owner : string) (project itemID : Z) (payload : UpdateProjectItemOptions)
| UpdateOrganizationProjectItem (org : string) (project itemID : Z) (payload : UpdateProjectItemOptions)
| DeleteUserProjectItem (owner : string) (project itemID : Z)
| DeleteOrganizationProjectItem (org : string) (project itemID : Z)
(* GraphQL: repository(owner, name) { issue(number) { id } } *)
| QueryIssueID (owner repo : string) (issueNumber : Z)
(* GraphQL: repository(owner, name) { pullRequest(number) { id } } *)
| QueryPullRequestID (owner repo : string) (prNumber : Z)
(* GraphQL: user(login) { projectV2(number) { id } } *)
| QueryUserProjectID (owner : string) (projectNumber : Z)
(* GraphQL: organization(login) { projectV2(number) { id } } *)
| QueryOrganizationProjectID (owner : string) (projectNumber : Z)
(* GraphQL: addProjectV2ItemById(input) { item { id } } *)
| MutateAddProjectV2ItemById (projectID contentID : ID).

(** A REST method returns a triple (value, response, error); a GraphQL call
    fills its query struct and returns an error. *)
Definition rest (A : Type) : Type := (A * option Response * option error)%type.
Definition gql : Type := (ID * option error)%type.

Definition Reply (c : Call) : Type :=
  match c with
  | GetUserProject _ _ | GetOrganizationProject _ _ => rest (option ProjectV2)
  | ListUserProjects _ _ | ListOrganizationProjects _ _ => rest (list ProjectV2)
  | ListUserProjectFields _ _ _ | ListOrganizationProjectFields _ _ _ =>
      rest (list ProjectV2Field)
  | ListUserProjectItems _ _ _ | ListOrganizationProjectItems _ _ _ =>
      rest (list ProjectV2Item)
  | UpdateUserProjectItem _ _ _ _ | UpdateOrganizationProjectItem _ _ _ _ =>
      rest (option ProjectV2Item)
  | DeleteUserProjectItem _ _ _ | DeleteOrganizationProjectItem _ _ _ =>
      (option Response * option error)%type
  | QueryIssueID _ _ _ | QueryPullRequestID _ _ _
  | QueryUserProjectID _ _ | QueryOrganizationProjectID _ _
  | MutateAddProjectV2ItemById _ _ => gql
  end.

(** ** Programs

    A program either returns, panics (a nil pointer dereference), or
    issues a call and continues with its reply. *)

Inductive Prog (A : Type) : Type :=
| Ret (a : A)
| Panic
| Do (c : Call) (k : Reply c -> Prog A).

Arguments Ret {A} a.
Arguments Panic {A}.
Arguments Do {A} c k.

Fixpoint bind {A B : Type} (p : Prog A) (f : A -> Prog B) : Prog B :=
  match p with
  | Ret a => f a
  | Panic => Panic
  | Do c k => Do c (fun r => bind (k r) f)
  end.

#[export] Instance Prog_ret : MRet Prog := @Ret.
#[export] Instance Prog_bind : MBind Prog := fun A B f p => bind p f.

Definition call (c : Call) : Prog (Reply c) := Do c Ret.

Inductive outcome (A : Type) : Type :=
| Returned (a : A)
| Panicked.

Arguments Returned {A} a.
Arguments Panicked {A}.

(** A client is any deterministic machine answering calls. *)
Definition Client (S : Type) : Type := forall c : Call, S -> Reply c * S.

Fixpoint run {S A : Type} (client : Client S) (p : Prog A) (s : S)
  : outcome A * list Call * S :=
  match p with
  | Ret a => (Returned a, [], s)
  | Panic => (Panicked, [], s)
  | Do c k =>
      let '(r, s1) := client c s in
      let '(o, tr, s2) := run client (k r) s1 in
      (o, c :: tr, s2)
  end.

Definition result {S A : Type} (x : outcome A * list Call * S) : outcome A := x.1.1.
Definition trace {S A : Type} (x : outcome A * list Call * S) : list Call := x.1.2.

(** [err == nil && resp.StatusCode == code]: the status is read only
    when the error is nil, and reading it through a nil response
    panics. *)
Definition succeeded (err : option error) (resp : option Response) (code : Z)
  : Prog bool :=
  match err, resp with
  | Some _, _ => Ret false
  | None, Some r => Ret (Z.eqb (StatusCode r) code)
  | None, None => Panic
  end.

(** ** detectOwnerType *)

Definition StatusOK : Z := 200.
Definition StatusNoContent : Z := 204.

Definition detectOwnerType (owner : string) (projectNumber : Z)
  : Prog (string * option error) :=
  '(_, resp, err) ← call (GetUserProject owner projectNumber);
  ok ← succeeded err resp StatusOK;
  if ok : bool then Ret ("user", None)
  else
    '(_, resp, err) ← call (GetOrganizationProject owner projectNumber);
    ok ← succeeded err resp StatusOK;
    if ok : bool then Ret ("org", None)
    else
      Ret (EmptyString,
           Some [Str "could not determine owner type for "; Str owner;
                 Str " with project "; Dec projectNumber;
                 Str ": owner is neither a user nor an org with this project"]).

(** ** Tool results

    The result type of the MCP SDK: a list of contents and an error
    flag.  Only text contents are built in this file. *)

Inductive content : Type :=
| TextContent (Text : text)
| OtherContent.

Record CallToolResult : Type := {
  Content : list content;
  IsError : bool;
}.

(** Modelled from the spec: utils.NewToolResultText is declared in
    pkg/utils.  Success and error responses are distinct structured
    payloads; this is the success, one text content. *)
Definition NewToolResultText (t : text) : CallToolResult :=
  {| Content := [TextContent t]; IsError := false |}.

(** Modelled from the spec: utils.NewToolResultError is declared in
    pkg/utils.  The error payload carries the message. *)
Definition NewToolResultError (t : text) : CallToolResult :=
  {| Content := [TextContent t]; IsError := true |}.

(** Modelled from the spec: NewGitHubAPIErrorResponse is declared in
    pkg/errors.  An error payload carries the message plus, when
    available, the upstream status code; the cause is kept as well.
    The layout of the text is not fixed by the spec: the parts are
    separate pieces. *)
Definition NewGitHubAPIErrorResponse (message : string)
    (resp : option Response) (err : error) : CallToolResult :=
  NewToolResultError
    ([Str message; Str ": "; Sub err]
     ++ match resp with
        | Some r => [Str " (status "; Dec (StatusCode r); Str ")"]
        | None => []
        end).

(** Modelled from the spec: NewGitHubAPIStatusErrorResponse is declared
    in pkg/errors.  An error payload carries the message plus the
    upstream status code and body, here as separate pieces. *)
Definition NewGitHubAPIStatusErrorResponse (message : string)
    (resp : Response) (body : string) : CallToolResult :=
  NewToolResultError
    [Str message; Str ": "; Str body;
     Str " (status "; Dec (StatusCode resp); Str ")"].

(** A handler returns a triple (result, any, error); the middle
    component is nil at every return of this file and is left out. *)
Definition tool_result : Type := (option CallToolResult * option error)%type.

Definition ProjectUpdateFailedError : string := "failed to update a project item".
Definition ProjectAddFailedError : string := "failed to add a project item".
Definition ProjectDeleteFailedError : string := "failed to delete a project item".
Definition ProjectListFailedError : string := "failed to list project items".
Definition MaxProjectsPerPage : Z := 50.

(** ** Slices

    A Go slice variable declared without a value is nil; [append] makes
    it non-nil.  encoding/json writes a nil slice as null. *)
Definition slice (A : Type) : Type := option (list A).

Definition append {A : Type} (s : slice A) (x : A) : slice A :=
  Some (default [] s ++ [x]).

Definition elems {A : Type} (s : slice A) : list A := default [] s.

Definition marshal_slice {A : Type} (enc : A -> json) (s : slice A) : json :=
  match s with
  | None => JNull
  | Some l => JArray (map enc l)
  end.

(** ** pageInfo and buildPageInfo *)

Record pageInfo : Type := {
  HasNextPage : bool;          (* json:"hasNextPage" *)
  HasPreviousPage : bool;      (* json:"hasPreviousPage" *)
  NextCursor : string;         (* json:"nextCursor,omitempty" *)
  PrevCursor : string;         (* json:"prevCursor,omitempty" *)
}.

Definition buildPageInfo (resp : Response) : pageInfo :=
  {| HasNextPage := negb (String.eqb (After resp) "");
     HasPreviousPage := negb (String.eqb (Before resp) "");
     NextCursor := After resp;
     PrevCursor := Before resp |}.

(** encoding/json on a struct: the fields in declaration order under
    their tag names; a string field tagged omitempty is left out when it
    is the empty string. *)
Definition omitempty (key value : string) : list (string * json) :=
  if String.eqb value "" then [] else [(key, JString [Str value])].

Definition marshal_pageInfo (p : pageInfo) : json :=
  JObject ([("hasNextPage", JBool (HasNextPage p));
            ("hasPreviousPage", JBool (HasPreviousPage p))]
           ++ omitempty "nextCursor" (NextCursor p)
           ++ omitempty "prevCursor" (PrevCursor p)).

(** ** listProjectsFromBothOwnerTypes *)

(** Modelled from the spec: convertToMinimalProject is declared in
    another file of the package.  It gives the entry of a project
    before its source scope is tagged. *)
Definition convertToMinimalProject (project : ProjectV2) : MinimalProject :=
  {| mp_Project := project; OwnerType := "" |}.

Definition with_OwnerType (mp : MinimalProject) (ownerType : string)
  : MinimalProject :=
  {| mp_Project := mp_Project mp; OwnerType := ownerType |}.

(** for _, project := range projects { mp := convert(project);
    mp.OwnerType = ownerType; minimalProjects = append(minimalProjects, *mp) } *)
Definition append_tagged (ownerType : string) (minimalProjects : slice MinimalProject)
    (projects : list ProjectV2) : slice MinimalProject :=
  foldl (fun acc project =>
           append acc (with_OwnerType (convertToMinimalProject project) ownerType))
        minimalProjects projects.

(** [err != nil || resp == nil || resp.StatusCode != http.StatusOK] *)
Definition not_ok (err : option error) (resp : option Response) : bool :=
  match err, resp with
  | Some _, _ => true
  | None, None => true
  | None, Some r => negb (Z.eqb (StatusCode r) StatusOK)
  end.

Definition both_owner_types_note : string :=
  "Results include both user and org projects. Each project includes 'owner_type' field. Pagination is limited when owner_type is not specified - specify 'owner_type' for full pagination support.".

(** The response map is written with its keys in the order
    encoding/json gives a map (sorted). *)
Definition listProjectsFromBothOwnerTypes (owner : string)
    (opts : ListProjectsOptions) : Prog tool_result :=
  let minimalProjects : slice MinimalProject := None in
  '(userProjects, userResp, userErr) ← call (ListUserProjects owner opts);
  userOK ← succeeded userErr userResp StatusOK;
  let minimalProjects :=
    if userOK : bool then append_tagged "user" minimalProjects userProjects
    else minimalProjects in
  '(orgProjects, orgResp, orgErr) ← call (ListOrganizationProjects owner opts);
  orgOK ← succeeded orgErr orgResp StatusOK;
  let minimalProjects :=
    if orgOK : bool then append_tagged "org" minimalProjects orgProjects
    else minimalProjects in
  let resp : option Response :=
    if orgOK : bool then orgResp
    else match userResp with Some r => Some r | None => None end in
  if not_ok userErr userResp && not_ok orgErr orgResp then
    Ret (Some (NewToolResultError
                 [Str "failed to list projects for owner '"; Str owner;
                  Str "': not found as user or organization"]), None)
  else
    let response :=
      JObject ([("note", JString [Str both_owner_types_note])]
               ++ match resp with
                  | Some r => [("pageInfo", marshal_pageInfo (buildPageInfo r))]
                  | None => []
                  end
               ++ [("projects", marshal_slice JProject minimalProjects)]) in
    Ret (Some (NewToolResultText [Json response]), None).

(** ** deleteProjectItem *)

Definition deleteProjectItem (owner ownerType : string)
    (projectNumber itemID : Z) : Prog tool_result :=
  '(resp, err) ←
    (if String.eqb ownerType "org"
     then call (DeleteOrganizationProjectItem owner projectNumber itemID)
     else call (DeleteUserProjectItem owner projectNumber itemID)
     : Prog (option Response * option error));
  match err with
  | Some e =>
      Ret (Some (NewGitHubAPIErrorResponse ProjectDeleteFailedError resp e), None)
  | None =>
      match resp with
      | None => Panic
      | Some r =>
          if negb (Z.eqb (StatusCode r) StatusNoContent) then
            match Body r with
            | inr e =>
                Ret (None, Some [Str "failed to read response body: "; Sub e])
            | inl body =>
                Ret (Some (NewGitHubAPIStatusErrorResponse
                             ProjectDeleteFailedError r body), None)
            end
          else
            Ret (Some (NewToolResultText [Str "project item successfully deleted"]),
                 None)
      end
  end.

(** ** validateAndConvertToInt64 and buildUpdateProjectItem *)

Definition min_int64 : Z := - 2 ^ 63.
Definition max_int64 : Z := 2 ^ 63 - 1.

(** int64(v) for a float64 v: the fraction is discarded.  Go leaves the
    result for a value outside int64 (and for NaN and the infinities)
    to the implementation; the amd64 conversion gives the least int64. *)
Definition int64_of_float64 (v : spec_float) : Z :=
  match v with
  | S754_zero _ => 0
  | S754_finite s m e =>
      let magnitude := Z.shiftl (Z.pos m) e in
      let z := if s then - magnitude else magnitude in
      if (min_int64 <=? z) && (z <=? max_int64) then z else min_int64
  | S754_infinity _ | S754_nan => min_int64
  end.

(** float64(n) for an int64 n: rounded to nearest, ties to even. *)
Definition float64_of_int64 (n : Z) : spec_float :=
  binary_normalize 53 1024 n 0 false.

(** The dynamic type as %T prints it. *)
Definition type_name (value : any) : string :=
  match value with
  | AnyNil => "<nil>"
  | AnyBool _ => "bool"
  | AnyString _ => "string"
  | AnyInt _ => "int"
  | AnyInt64 _ => "int64"
  | AnyFloat64 _ => "float64"
  | AnyStrings _ => "[]string"
  | AnySlice _ => "[]interface {}"
  | AnyMap _ => "map[string]interface {}"
  end.

Definition validateAndConvertToInt64 (value : any) : Z + error :=
  match value with
  | AnyFloat64 v =>
      let intVal := int64_of_float64 v in
      if negb (SFeqb (float64_of_int64 intVal) v) then
        inr [Str "value must be a valid integer (got "; Float v; Str ")"]
      else inl intVal
  | AnyInt64 v => inl v
  | AnyInt v => inl v
  | _ => inr [Str "value must be a number (got "; Str (type_name value); Str ")"]
  end.

(** The argument is a map[string]any; [None] is the nil map. *)
Definition buildUpdateProjectItem (input : option (gmap string any))
  : UpdateProjectItemOptions + error :=
  match input with
  | None => inr [Str "updated_field must be an object"]
  | Some input =>
      match input !! "id" with
      | None => inr [Str "updated_field.id is required"]
      | Some idField =>
          match validateAndConvertToInt64 idField with
          | inr err => inr [Str "updated_field.id: "; Sub err]
          | inl fieldID =>
              match input !! "value" with
              | None => inr [Str "updated_field.value is required"]
              | Some valueField =>
                  inl {| Fields := [{| update_ID := fieldID;
                                       update_Value := valueField |}] |}
              end
          end
      end
  end.

(** ** updateProjectItem *)

Definition updateProjectItem (owner ownerType : string)
    (projectNumber itemID : Z) (fieldValue : option (gmap string any))
  : Prog tool_result :=
  match buildUpdateProjectItem fieldValue with
  | inr err => Ret (Some (NewToolResultError err), None)
  | inl updatePayload =>
      '(updatedItem, resp, err) ←
        (if String.eqb ownerType "org"
         then call (UpdateOrganizationProjectItem owner projectNumber itemID updatePayload)
         else call (UpdateUserProjectItem owner projectNumber itemID updatePayload)
         : Prog (rest (option ProjectV2Item)));
      match err with
      | Some e =>
          Ret (Some (NewGitHubAPIErrorResponse ProjectUpdateFailedError resp e), None)
      | None =>
          match resp with
          | None => Panic
          | Some r =>
              if negb (Z.eqb (StatusCode r) StatusOK) then
                match Body r with
                | inr e =>
                    Ret (None, Some [Str "failed to read response body: "; Sub e])
                | inl body =>
                    Ret (Some (NewGitHubAPIStatusErrorResponse
                                 ProjectUpdateFailedError r body), None)
                end
              else
                Ret (Some (NewToolResultText [Json (JItem updatedItem)]), None)
          end
      end
  end.

(** ** addProjectItem *)

(** int32(n): the low 32 bits, read as a signed number. *)
Definition int32 (n : Z) : Z := (n + 2 ^ 31) mod 2 ^ 32 - 2 ^ 31.

Definition resolveIssueNodeID (owner repo : string) (issueNumber : Z)
  : Prog (ID * option error) :=
  '(id, err) ← call (QueryIssueID owner repo (int32 issueNumber));
  match err with
  | Some e =>
      Ret ("", Some [Str "failed to resolve issue "; Str owner; Str "/"; Str repo;
                     Str "#"; Dec issueNumber; Str ": "; Sub e])
  | None => Ret (id, None)
  end.

Definition resolvePullRequestNodeID (owner repo : string) (prNumber : Z)
  : Prog (ID * option error) :=
  '(id, err) ← call (QueryPullRequestID owner repo (int32 prNumber));
  match err with
  | Some e =>
      Ret ("", Some [Str "failed to resolve pull request "; Str owner; Str "/";
                     Str repo; Str "#"; Dec prNumber; Str ": "; Sub e])
  | None => Ret (id, None)
  end.

Definition addProjectItem (owner ownerType : string) (projectNumber : Z)
    (itemOwner itemRepo : string) (itemNumber : Z) (itemType : string)
  : Prog tool_result :=
  if negb (String.eqb itemType "issue") && negb (String.eqb itemType "pull_request")
  then Ret (Some (NewToolResultError
                    [Str "item_type must be either 'issue' or 'pull_request'"]), None)
  else
    '(nodeID, err) ←
      (if String.eqb itemType "issue"
       then resolveIssueNodeID itemOwner itemRepo itemNumber
       else resolvePullRequestNodeID itemOwner itemRepo itemNumber);
    match err with
    | Some e =>
        Ret (Some (NewToolResultError
                     [Str "failed to resolve "; Str itemType; Str ": "; Sub e]), None)
    | None =>
        '(projectID, err) ←
          (if String.eqb ownerType "org"
           then call (QueryOrganizationProjectID owner (int32 projectNumber))
           else call (QueryUserProjectID owner (int32 projectNumber))
           : Prog gql);
        match err with
        | Some e =>
            Ret (Some (NewToolResultError
                         [Str "failed to get project ID: "; Sub e]), None)
        | None =>
            '(itemID, err) ← call (MutateAddProjectV2ItemById projectID nodeID);
            match err with
            | Some e =>
                Ret (Some (NewToolResultError
                             [Str ProjectAddFailedError; Str ": "; Sub e]), None)
            | None =>
                let result :=
                  JObject
                    [("id", JString [Str itemID]);
                     ("message",
                      JString [Str "Successfully added "; Str itemType; Str " ";
                               Str itemOwner; Str "/"; Str itemRepo; Str "#";
                               Dec itemNumber; Str " to project "; Str owner;
                               Str "/"; Dec projectNumber])] in
                Ret (Some (NewToolResultText [Json result]), None)
            end
        end
    end.

(** ** resolveSingleSelectOptionByName *)

Definition per_page (n : Z) : ListProjectsOptions :=
  {| Pagination := {| PerPage := Some n; opt_After := None; opt_Before := None |};
     Query := None |}.

(** The scan of one field's options: the ID of the first option that
    has an ID and whose name is [optionName]. *)
Fixpoint find_option (optionName : string)
    (options : list (option ProjectV2FieldOption)) : option string :=
  match options with
  | [] => None
  | None :: rest => find_option optionName rest
  | Some opt :: rest =>
      match option_ID opt with
      | None => find_option optionName rest
      | Some id =>
          let optName :=
            match option_Name opt with
            | Some name => match Raw name with Some raw => raw | None => "" end
            | None => ""
            end in
          if String.eqb optName optionName then Some id
          else find_option optionName rest
      end
  end.

(** The loop over the listed fields, with the three returns it has. *)
Fixpoint scan_fields (fieldName optionName : string)
    (fields : list ProjectV2Field) : string * Z * option error :=
  match fields with
  | [] =>
      ("", 0, Some [Str "field "; Quoted fieldName; Str " not found in project"])
  | f :: rest =>
      let name := match field_Name f with Some n => n | None => "" end in
      if negb (String.eqb name fieldName) then scan_fields fieldName optionName rest
      else
        match field_ID f with
        | None => scan_fields fieldName optionName rest
        | Some fieldID =>
            match find_option optionName (field_Options f) with
            | Some optionID => (optionID, fieldID, None)
            | None =>
                ("", 0, Some [Str "option "; Quoted optionName;
                              Str " not found in field "; Quoted fieldName])
            end
        end
  end.

Definition resolveSingleSelectOptionByName (owner ownerType : string)
    (projectNumber : Z) (fieldName optionName : string)
  : Prog (string * Z * option error) :=
  let opts := per_page 100 in
  '(fields, resp, err) ←
    (if String.eqb ownerType "org"
     then call (ListOrganizationProjectFields owner projectNumber opts)
     else call (ListUserProjectFields owner projectNumber opts)
     : Prog (rest (list ProjectV2Field)));
  match err with
  | Some e => Ret ("", 0, Some e)
  | None =>
      match resp with
      | None => Panic
      | Some _ => Ret (scan_fields fieldName optionName fields)
      end
  end.

(** ** findProjectItemIDByIssue *)

(** One pass of the inner loop's body: [Some id] when the body reaches
    [return *item.ID, nil], [None] when it reaches a [continue]. *)
Definition item_matches (repoOwner repoName : string) (issueNumber : Z)
    (item : ProjectV2Item) : option Z :=
  match item_ID item with
  | None => None
  | Some id =>
      match item_Content item with
      | None => None
      | Some content =>
          match content_Issue content with
          | None => None
          | Some issue =>
              match issue_Number issue with
              | None => None
              | Some number =>
                  if negb (Z.eqb number issueNumber) then None
                  else
                    match issue_Repository issue with
                    | None => Some id
                    | Some repo =>
                        if match repo_Name repo with
                           | Some name => negb (String.eqb name repoName)
                           | None => false
                           end
                        then None
                        else if match repo_Owner repo with
                                | Some o =>
                                    match Login o with
                                    | Some login => negb (String.eqb login repoOwner)
                                    | None => false
                                    end
                                | None => false
                                end
                        then None
                        else Some id
                    end
              end
          end
      end
  end.

Fixpoint scan_items (repoOwner repoName : string) (issueNumber : Z)
    (items : list ProjectV2Item) : option Z :=
  match items with
  | [] => None
  | item :: rest =>
      match item_matches repoOwner repoName issueNumber item with
      | Some id => Some id
      | None => scan_items repoOwner repoName issueNumber rest
      end
  end.

Definition items_options (perPage : Z) (after : option string)
  : ListProjectItemsOptions :=
  {| ListOptions :=
       {| Pagination := {| PerPage := Some perPage; opt_After := after;
                           opt_Before := None |};
          Query := None |};
     opt_Fields := [] |}.

Definition item_not_found (repoOwner repoName : string) (issueNumber : Z) : error :=
  [Str "project item for issue "; Str repoOwner; Str "/"; Str repoName; Str "#";
   Dec issueNumber; Str " not found (list may be paginated)"].

(** The loop [for page := 0; page < 5; page++], with [pages] the number
    of iterations still allowed and [after] the cursor held by opts. *)
Fixpoint find_pages (pages : nat) (owner ownerType : string) (projectNumber : Z)
    (repoOwner repoName : string) (issueNumber : Z) (perPage : Z)
    (after : option string) : Prog (Z * option error) :=
  match pages with
  | O => Ret (0, Some (item_not_found repoOwner repoName issueNumber))
  | S pages' =>
      let opts := items_options perPage after in
      '(items, resp, err) ←
        (if String.eqb ownerType "org"
         then call (ListOrganizationProjectItems owner projectNumber opts)
         else call (ListUserProjectItems owner projectNumber opts)
         : Prog (rest (list ProjectV2Item)));
      match err with
      | Some e => Ret (0, Some e)
      | None =>
          match resp with
          | None => Panic
          | Some r =>
              match scan_items repoOwner repoName issueNumber items with
              | Some id => Ret (id, None)
              | None =>
                  if String.eqb (After r) "" then
                    Ret (0, Some (item_not_found repoOwner repoName issueNumber))
                  else
                    find_pages pages' owner ownerType projectNumber
                      repoOwner repoName issueNumber perPage (Some (After r))
              end
          end
      end
  end.

Definition findProjectItemIDByIssue (owner ownerType : string) (projectNumber : Z)
    (repoOwner repoName : string) (issueNumber : Z) : Prog (Z * option error) :=
  let perPage := 50 in
  find_pages 5 owner ownerType projectNumber repoOwner repoName issueNumber
    perPage None.

(** ** setPriorityAndSize *)

Definition field_update (fieldID : Z) (optionID : string) : option (gmap string any) :=
  Some (<["id" := AnyInt64 fieldID]> (<["value" := AnyString [Str optionID]]> ∅)).

(** The update of one single-select field, as both blocks of
    setPriorityAndSize call it: only the error is looked at. *)
Definition update_field (owner ownerType : string) (projectNumber itemID : Z)
    (fieldID : Z) (optionID : string) : Prog (option error) :=
  '(_, err) ← updateProjectItem owner ownerType projectNumber itemID
                (field_update fieldID optionID);
  Ret err.

Definition setPriorityAndSize (owner ownerType : string)
    (projectNumber itemID : Z) (priority size : string)
  : Prog (slice text * option error) :=
  let updates : slice text := None in
  (* if priority != "" { ... } *)
  r ← (if negb (String.eqb priority "") then
         '(optionID, fieldID, err) ←
           resolveSingleSelectOptionByName owner ownerType projectNumber
             "Priority" priority;
         match err with
         | Some e => Ret (inr [Str "Priority: "; Sub e])
         | None =>
             err ← update_field owner ownerType projectNumber itemID fieldID optionID;
             match err with
             | Some e => Ret (inr [Str "set Priority: "; Sub e])
             | None => Ret (inl (append updates [Str "Priority="; Str priority]))
             end
         end
       else Ret (inl updates));
  match r with
  | inr e => Ret (None, Some e)
  | inl updates =>
      (* if size != "" { ... } *)
      r ← (if negb (String.eqb size "") then
             '(optionID, fieldID, err) ←
               resolveSingleSelectOptionByName owner ownerType projectNumber
                 "Size" size;
             match err with
             | Some e => Ret (inr [Str "Size: "; Sub e])
             | None =>
                 err ← update_field owner ownerType projectNumber itemID fieldID optionID;
                 match err with
                 | Some e => Ret (inr [Str "set Size: "; Sub e])
                 | None => Ret (inl (append updates [Str "Size="; Str size]))
                 end
             end
           else Ret (inl updates));
      match r with
      | inr e => Ret (None, Some e)
      | inl updates => Ret (updates, None)
      end
  end.

(** ** assignIssueToOrgProjectWithFields *)

Definition assignIssueToOrgProjectWithFields (org : string) (projectNumber : Z)
    (itemOwner itemRepo : string) (issueNumber : Z) (priority size : string)
  : Prog (option (gmap string any) * option error) :=
  '(addResult, _) ← addProjectItem org "org" projectNumber itemOwner itemRepo
                      issueNumber "issue";
  match addResult with
  | None => Ret (None, Some [Str "add issue to project: no result"])
  | Some addResult =>
      match Content addResult with
      | [] => Ret (None, Some [Str "add issue to project: no result"])
      | OtherContent :: _ =>
          Ret (None, Some [Str "add issue to project: unexpected result type"])
      | TextContent addText :: _ =>
          match lead_of_text addText with
          | OtherByte => Ret (None, Some [Str "add issue to project: "; Sub addText])
          | Empty | OpenBrace =>
              '(numericID, err) ←
                findProjectItemIDByIssue org "org" projectNumber itemOwner itemRepo
                  issueNumber;
              match err with
              | Some e => Ret (None, Some [Str "find project item id: "; Sub e])
              | None =>
                  let result : gmap string any :=
                    <["item_id" := AnyInt64 numericID]>
                      (<["message" :=
                           AnyString [Str "Added issue "; Str itemOwner; Str "/";
                                      Str itemRepo; Str "#"; Dec issueNumber;
                                      Str " to project "; Str org; Str "/";
                                      Dec projectNumber]]>
                         (<["updates" := AnyStrings (Some [])]> ∅)) in
                  if negb (String.eqb priority "") || negb (String.eqb size "") then
                    '(updates, err) ←
                      setPriorityAndSize org "org" projectNumber numericID
                        priority size;
                    match err with
                    | Some e => Ret (None, Some e)
                    | None =>
                        Ret (Some (<["updates" := AnyStrings updates]> result), None)
                    end
                  else Ret (Some result, None)
              end
          end
      end
  end.

(** ** What the replies of a client say

    The readings of a reply the statements below are phrased with. *)

(** [err == nil && resp != nil && resp.StatusCode == code] *)
Definition reply_ok {A : Type} (code : Z) (r : rest A) : bool :=
  match r with
  | (_, Some resp, None) => Z.eqb (StatusCode resp) code
  | _ => false
  end.

(** A reply with neither an error nor a response: go-github never
    produces one, and reading its status panics. *)
Definition reply_void {A : Type} (r : rest A) : bool :=
  match r with
  | (_, None, None) => true
  | _ => false
  end.

Definition reply_value {A : Type} (r : rest A) : A := r.1.1.
Definition reply_resp {A : Type} (r : rest A) : option Response := r.1.2.
Definition reply_err {A : Type} (r : rest A) : option error := r.2.

(** The text of a tool result with a single text content. *)
Definition result_text (r : CallToolResult) : text :=
  match Content r with
  | [TextContent t] => t
  | _ => []
  end.

Definition json_lookup (key : string) (j : json) : option json :=
  match j with
  | JObject kv => snd <$> List.find (fun e => String.eqb key (fst e)) kv
  | _ => None
  end.

(** The projects a listing result carries under its projects key. *)
Definition listed_projects (r : CallToolResult) : list MinimalProject :=
  match result_text r with
  | [Json response] =>
      match json_lookup "projects" response with
      | Some (JArray l) =>
          omap (fun j => match j with JProject p => Some p | _ => None end) l
      | _ => []
      end
  | _ => []
  end.

Definition listed_note (r : CallToolResult) : option json :=
  match result_text r with
  | [Json response] => json_lookup "note" response
  | _ => None
  end.

Definition tag_all (ownerType : string) (projects : list ProjectV2)
  : list MinimalProject :=
  map (fun p => {| mp_Project := p; OwnerType := ownerType |}) projects.




(** The pages a client serves to a reader of a project's items that
    follows the forward cursors from [after], [n] pages at most: the
    listing ends with the first reply that carries an error, no
    response, or no forward cursor. *)
Fixpoint served {S : Type} (client : Client S) (n : nat)
    (owner ownerType : string) (projectNumber perPage : Z)
    (after : option string) (s : S) : list (rest (list ProjectV2Item)) :=
  match n with
  | O => []
  | S n' =>
      let opts := items_options perPage after in
      let '(r, s1) :=
        (if String.eqb ownerType "org"
         then client (ListOrganizationProjectItems owner projectNumber opts) s
         else client (ListUserProjectItems owner projectNumber opts) s
         : rest (list ProjectV2Item) * S) in
      r :: match r with
           | (_, Some resp, None) =>
               if String.eqb (After resp) "" then []
               else served client n' owner ownerType projectNumber perPage
                      (Some (After resp)) s1
           | _ => []
           end
  end.

(** A page that was read without error and holds no item for the issue. *)
Definition page_without (repoOwner repoName : string) (issueNumber : Z)
    (r : rest (list ProjectV2Item)) : Prop :=
  exists resp, reply_resp r = Some resp /\ reply_err r = None /\
    scan_items repoOwner repoName issueNumber (reply_value r) = None.

(** A call listing the items of the project with the given page size. *)
Definition lists_items (owner ownerType : string) (projectNumber perPage : Z)
    (c : Call) : Prop :=
  exists after,
    c = if String.eqb ownerType "org"
        then ListOrganizationProjectItems owner projectNumber
               (items_options perPage after)
        else ListUserProjectItems owner projectNumber (items_options perPage after).

(** The name the scan compares: a nil name reads as the empty string. *)
Definition field_name (f : ProjectV2Field) : string :=
  match field_Name f with Some n => n | None => "" end.

Definition option_name (o : ProjectV2FieldOption) : string :=
  match option_Name o with
  | Some name => match Raw name with Some raw => raw | None => "" end
  | None => ""
  end.

(** The call listing the fields of a project and the client's reply. *)
Definition fields_call (owner ownerType : string) (projectNumber perPage : Z)
  : Call :=
  if String.eqb ownerType "org"
  then ListOrganizationProjectFields owner projectNumber (per_page perPage)
  else ListUserProjectFields owner projectNumber (per_page perPage).

Definition fields_reply {S : Type} (client : Client S)
    (owner ownerType : string) (projectNumber perPage : Z) (s : S)
  : rest (list ProjectV2Field) * S :=
  if String.eqb ownerType "org"
  then client (ListOrganizationProjectFields owner projectNumber (per_page perPage)) s
  else client (ListUserProjectFields owner projectNumber (per_page perPage)) s.

Definition field_not_found (fieldName : string) : error :=
  [Str "field "; Quoted fieldName; Str " not found in project"].

Definition option_not_found (optionName fieldName : string) : error :=
  [Str "option "; Quoted optionName; Str " not found in field "; Quoted fieldName].

(** The delete call of a project item and the client's reply. *)
Definition delete_call (owner ownerType : string) (projectNumber itemID : Z)
  : Call :=
  if String.eqb ownerType "org"
  then DeleteOrganizationProjectItem owner projectNumber itemID
  else DeleteUserProjectItem owner projectNumber itemID.

Definition delete_reply {S : Type} (client : Client S)
    (owner ownerType : string) (projectNumber itemID : Z) (s : S)
  : option Response * option error * S :=
  if String.eqb ownerType "org"
  then client (DeleteOrganizationProjectItem owner projectNumber itemID) s
  else client (DeleteUserProjectItem owner projectNumber itemID) s.

Definition deleted : CallToolResult :=
  NewToolResultText [Str "project item successfully deleted"].

Definition is_success (out : outcome tool_result) : Prop :=
  exists r, out = Returned (Some r, None) /\ IsError r = false.

(** The update call of a project item. *)
Definition update_call (owner ownerType : string) (projectNumber itemID : Z)
    (payload : UpdateProjectItemOptions) : Call :=
  if String.eqb ownerType "org"
  then UpdateOrganizationProjectItem owner projectNumber itemID payload
  else UpdateUserProjectItem owner projectNumber itemID payload.

(** The values validateAndConvertToInt64 takes for an integer: an int,
    an int64, or a float64 that the conversion to int64 and back leaves
    unchanged (a float64 is read in its canonical form, as binary64
    values are). *)
Definition is_integer (value : any) : Prop :=
  match value with
  | AnyInt _ | AnyInt64 _ => True
  | AnyFloat64 v => SFeqb (float64_of_int64 (int64_of_float64 v)) v = true
  | _ => False
  end.

(** A JSON number as the decoder gives it: the float64 of an integer. *)
Definition number (n : Z) : any := AnyFloat64 (float64_of_int64 n).

(** The float64 1.5. *)
Definition one_and_a_half : spec_float := S754_finite false 6755399441055744 (-52).

(** The float64 2^63, the least integer above the int64 range. *)
Definition two_to_the_63 : spec_float := S754_finite false 4503599627370496 11.

(** The call listing one page of a project's items and the client's
    reply. *)
Definition items_call (owner ownerType : string) (projectNumber perPage : Z)
    (after : option string) : Call :=
  if String.eqb ownerType "org"
  then ListOrganizationProjectItems owner projectNumber (items_options perPage after)
  else ListUserProjectItems owner projectNumber (items_options perPage after).

Definition items_reply {S : Type} (client : Client S)
    (owner ownerType : string) (projectNumber perPage : Z)
    (after : option string) (s : S) : rest (list ProjectV2Item) * S :=
  if String.eqb ownerType "org"
  then client (ListOrganizationProjectItems owner projectNumber
                 (items_options perPage after)) s
  else client (ListUserProjectItems owner projectNumber
                 (items_options perPage after)) s.

(** An issue whose repository, or whose repository's name and owner
    login, the API left out. *)
Definition lacks_repository (issue : Issue) : Prop :=
  match issue_Repository issue with
  | None => True
  | Some repo =>
      repo_Name repo = None /\
      match repo_Owner repo with
      | None => True
      | Some o => Login o = None
      end
  end.

(** How one field step of the tagging ends: the step resolves the
    option of the field by name and updates the item with it. *)
Inductive step_end : Type :=
| StepSkipped                      (* the argument is the empty string *)
| ResolutionFailed (e : error)     (* the option was not resolved *)
| UpdateErrored (e : error)        (* updateProjectItem returned an error *)
| UpdateApplied                    (* it returned a success result *)
| UpdateRefused                    (* it returned an error result, nil error *)
| StepPanicked.

Definition field_step {S : Type} (client : Client S) (owner ownerType : string)
    (projectNumber itemID : Z) (name value : string) (s : S)
  : step_end * list Call * S :=
  if String.eqb value "" then (StepSkipped, [], s)
  else
    match run client (resolveSingleSelectOptionByName owner ownerType
                        projectNumber name value) s with
    | (Panicked, tr, s1) => (StepPanicked, tr, s1)
    | (Returned (_, _, Some e), tr, s1) => (ResolutionFailed e, tr, s1)
    | (Returned (optionID, fieldID, None), tr, s1) =>
        match run client (updateProjectItem owner ownerType projectNumber itemID
                            (field_update fieldID optionID)) s1 with
        | (Panicked, tr', s2) => (StepPanicked, tr ++ tr', s2)
        | (Returned (_, Some e), tr', s2) => (UpdateErrored e, tr ++ tr', s2)
        | (Returned (Some r, None), tr', s2) =>
            (if IsError r then UpdateRefused else UpdateApplied, tr ++ tr', s2)
        | (Returned (None, None), tr', s2) => (UpdateRefused, tr ++ tr', s2)
        end
    end.




(** The combined failure of the dual listing. *)
Definition both_not_found (owner : string) : CallToolResult :=
  NewToolResultError
    [Str "failed to list projects for owner '"; Str owner;
     Str "': not found as user or organization"].

(** The block setPriorityAndSize runs for one field: [failed] and
    [unset] are the prefixes of its two errors, [entry] the update it
    records. *)
Definition field_block (owner ownerType : string) (projectNumber itemID : Z)
    (failed unset name value : string) (updates : slice text) (entry : text)
  : Prog (slice text + error) :=
  '(optionID, fieldID, err) ←
    resolveSingleSelectOptionByName owner ownerType projectNumber name value;
  match err with
  | Some e => Ret (inr [Str failed; Sub e])
  | None =>
      err ← update_field owner ownerType projectNumber itemID fieldID optionID;
      match err with
      | Some e => Ret (inr [Str unset; Sub e])
      | None => Ret (inl (append updates entry))
      end
  end.

(** ** Clients for the examples

    A fixture fixes the reply to each kind of call, whatever the owner
    and project asked for; the items of a project are served by cursor. *)

Record Fixture : Type := {
  user_project : rest (option ProjectV2);
  org_project : rest (option ProjectV2);
  user_projects : rest (list ProjectV2);
  org_projects : rest (list ProjectV2);
  project_fields : rest (list ProjectV2Field);
  project_items : option string -> rest (list ProjectV2Item);
  updated_item : rest (option ProjectV2Item);
  deleted_item : option Response * option error;
  node_id : gql;
  added_item : gql;
}.

Definition serve (f : Fixture) : Client unit :=
  fun c s =>
    (match c return Reply c with
     | GetUserProject _ _ => user_project f
     | GetOrganizationProject _ _ => org_project f
     | ListUserProjects _ _ => user_projects f
     | ListOrganizationProjects _ _ => org_projects f
     | ListUserProjectFields _ _ _ | ListOrganizationProjectFields _ _ _ =>
         project_fields f
     | ListUserProjectItems _ _ opts | ListOrganizationProjectItems _ _ opts =>
         project_items f (opt_After (Pagination (ListOptions opts)))
     | UpdateUserProjectItem _ _ _ _ | UpdateOrganizationProjectItem _ _ _ _ =>
         updated_item f
     | DeleteUserProjectItem _ _ _ | DeleteOrganizationProjectItem _ _ _ =>
         deleted_item f
     | QueryIssueID _ _ _ | QueryPullRequestID _ _ _
     | QueryUserProjectID _ _ | QueryOrganizationProjectID _ _ => node_id f
     | MutateAddProjectV2ItemById _ _ => added_item f
     end, s).

Definition refused : error := [Str "dial tcp: connection refused"].

Definition response (status : Z) (after : string) (body : string) : Response :=
  {| StatusCode := status; After := after; Before := ""; Body := inl body |}.

Definition offline : Fixture :=
  {| user_project := (None, None, Some refused);
     org_project := (None, None, Some refused);
     user_projects := ([], None, Some refused);
     org_projects := ([], None, Some refused);
     project_fields := ([], None, Some refused);
     project_items := fun _ => ([], None, Some refused);
     updated_item := (None, None, Some refused);
     deleted_item := (None, Some refused);
     node_id := ("", Some refused);
     added_item := ("", Some refused) |}.

Definition roadmap : ProjectV2 :=
  {| project_ID := Some 11; project_Number := Some 7;
     project_Title := Some "Roadmap" |}.

Definition backlog : ProjectV2 :=
  {| project_ID := Some 12; project_Number := Some 8;
     project_Title := Some "Backlog" |}.

Definition sprint : ProjectV2 :=
  {| project_ID := Some 13; project_Number := Some 9;
     project_Title := Some "Sprint" |}.

(** The issue [number] of the repository octo/app, as item 1000 + number. *)
Definition issue_item (number : Z) : ProjectV2Item :=
  {| item_ID := Some (1000 + number);
     item_Content :=
       Some {| content_Issue :=
                 Some {| issue_Number := Some number;
                         issue_Repository :=
                           Some {| repo_Name := Some "app";
                                   repo_Owner := Some {| Login := Some "octo" |} |}
                      |} |} |}.

(** The same item as the API gives it without repository metadata. *)
Definition bare_item (number : Z) : ProjectV2Item :=
  {| item_ID := Some (1000 + number);
     item_Content :=
       Some {| content_Issue :=
                 Some {| issue_Number := Some number;
                         issue_Repository := None |} |} |}.

(** Cursors of the paged board: the cursor of page p is p letters. *)
Fixpoint cursor (p : nat) : string :=
  match p with
  | O => ""
  | S p' => String (Ascii.ascii_of_nat 99) (cursor p')
  end.

Definition page_of (after : option string) : nat :=
  match after with
  | None => 0
  | Some c => String.length c
  end.

(** A board of [pages] pages of 50 items: page p (from 0) holds the
    issues 50 p + 1 to 50 p + 50 and, unless it is the last one, the
    cursor of page p + 1. *)
Definition paged_items (pages : nat) (after : option string)
  : rest (list ProjectV2Item) :=
  let p := page_of after in
  if decide (p < pages)%nat then
    (map (fun i => issue_item (Z.of_nat (50 * p + i))) (seq 1 50),
     Some (response 200 (if decide (S p < pages)%nat then cursor (S p) else "") ""),
     None)
  else ([], Some (response 200 "" ""), None).

Definition priority_field : ProjectV2Field :=
  {| field_ID := Some 42;
     field_Name := Some "Priority";
     field_Options :=
       [Some {| option_ID := Some "opt1";
                option_Name := Some {| Raw := Some "High" |} |};
        Some {| option_ID := Some "opt2";
                option_Name := Some {| Raw := Some "Low" |} |}] |}.

(** An organization board of six pages with a Priority field and no
    Size field; every call succeeds. *)
Definition board : Fixture :=
  {| user_project := (None, None, Some refused);
     org_project := (Some roadmap, Some (response 200 "" ""), None);
     user_projects := ([], Some (response 404 "" "Not Found"), Some [Str "404 Not Found"]);
     org_projects := ([roadmap], Some (response 200 "" ""), None);
     project_fields := ([priority_field], Some (response 200 "" ""), None);
     project_items := paged_items 6;
     updated_item := (Some (issue_item 73), Some (response 200 "" ""), None);
     deleted_item := (Some (response 204 "" ""), None);
     node_id := ("NODE_1", None);
     added_item := ("PVTI_1", None) |}.

(** A login that names both a user and an organization. *)
Definition shared : Fixture :=
  {| user_project := (Some backlog, Some (response 200 "" ""), None);
     org_project := (Some roadmap, Some (response 200 "" ""), None);
     user_projects := ([backlog; sprint], Some (response 200 "u2" ""), None);
     org_projects := ([roadmap], Some (response 200 "o2" ""), None);
     project_fields := ([priority_field], Some (response 200 "" ""), None);
     project_items := paged_items 1;
     updated_item := (Some (issue_item 1), Some (response 200 "" ""), None);
     deleted_item := (Some (response 200 "" "item is archived"), None);
     node_id := ("NODE_1", None);
     added_item := ("PVTI_1", None) |}.

Definition no_options : ListProjectsOptions :=
  {| Pagination := {| PerPage := Some 50; opt_After := None; opt_Before := None |};
     Query := None |}.

(** The board with its items replaced. *)
Definition with_items (f : Fixture)
    (items : option string -> rest (list ProjectV2Item)) : Fixture :=
  {| user_project := user_project f;
     org_project := org_project f;
     user_projects := user_projects f;
     org_projects := org_projects f;
     project_fields := project_fields f;
     project_items := items;
     updated_item := updated_item f;
     deleted_item := deleted_item f;
     node_id := node_id f;
     added_item := added_item f |}.

(** The board with the reply to an update replaced. *)
Definition with_update (f : Fixture) (reply : rest (option ProjectV2Item))
  : Fixture :=
  {| user_project := user_project f;
     org_project := org_project f;
     user_projects := user_projects f;
     org_projects := org_projects f;
     project_fields := project_fields f;
     project_items := project_items f;
     updated_item := reply;
     deleted_item := deleted_item f;
     node_id := node_id f;
     added_item := added_item f |}.

(** A board whose only item is issue 5, listed without its repository. *)
Definition bare_board : Fixture :=
  with_items board (fun _ => ([bare_item 5], Some (response 200 "" ""), None)).

(** The update that sets Priority to High on the board. *)
Definition priority_high : UpdateProjectItemOptions :=
  {| Fields := [{| update_ID := 42; update_Value := AnyString [Str "opt1"] |}] |}.

(** * The list functions and the tool handlers *)

(** ** Collaborators declared outside this file

    The parameter decoders of the package, the dependencies of a
    handler and the encoding of go-github's structs are not part of
    this file: they are taken as parameters. *)

(** The decoders: each reads one key of the argument map and returns
    the value with an error. *)
Record Decoders : Type := {
  RequiredParam : gmap string any -> string -> string * option error;
  OptionalParam : gmap string any -> string -> string * option error;
  RequiredInt : gmap string any -> string -> Z * option error;
  RequiredBigInt : gmap string any -> string -> Z * option error;
  OptionalBigIntArrayParam : gmap string any -> string -> list Z * option error;
  OptionalIntParamWithDefault :
    gmap string any -> string -> Z -> Z * option error;
}.

(** What deps.GetClient and deps.GetGQLClient return besides the
    client: [None] when the client was obtained. *)
Record ToolDependencies : Type := {
  GetClient : option error;
  GetGQLClient : option error;
}.

(** json.Marshal on the slices of go-github structs and on a
    map[string]any. *)
Record Encoders : Type := {
  encode_fields : list ProjectV2Field -> json;
  encode_items : list ProjectV2Item -> json;
  encode_map : gmap string any -> json;
}.

Definition projectsMethodListProjects : string := "list_projects".
Definition projectsMethodListProjectFields : string := "list_project_fields".
Definition projectsMethodListProjectItems : string := "list_project_items".
Definition projectsMethodAddProjectItem : string := "add_project_item".
Definition projectsMethodUpdateProjectItem : string := "update_project_item".
Definition projectsMethodDeleteProjectItem : string := "delete_project_item".

(** ** extractPaginationOptionsFromArgs *)

Definition extractPaginationOptionsFromArgs (D : Decoders)
    (args : gmap string any) : ListProjectsPaginationOptions + error :=
  match OptionalIntParamWithDefault D args "per_page" MaxProjectsPerPage with
  | (_, Some err) => inr err
  | (perPage, None) =>
      let perPage :=
        if MaxProjectsPerPage <? perPage then MaxProjectsPerPage else perPage in
      match OptionalParam D args "after" with
      | (_, Some err) => inr err
      | (after, None) =>
          match OptionalParam D args "before" with
          | (_, Some err) => inr err
          | (before, None) =>
              inl {| PerPage := Some perPage;
                     opt_After :=
                       if negb (String.eqb after "") then Some after else None;
                     opt_Before :=
                       if negb (String.eqb before "") then Some before else None |}
          end
      end
  end.

(** ** listProjects, listProjectFields, listProjectItems *)

(** The loop of listProjects starts from the empty, non-nil slice. *)
Definition listProjects (D : Decoders) (args : gmap string any)
    (owner ownerType : string) : Prog tool_result :=
  match OptionalParam D args "query" with
  | (_, Some err) => Ret (Some (NewToolResultError err), None)
  | (queryStr, None) =>
      match extractPaginationOptionsFromArgs D args with
      | inr err => Ret (Some (NewToolResultError err), None)
      | inl pagination =>
          let queryPtr :=
            if negb (String.eqb queryStr "") then Some queryStr else None in
          let minimalProjects : slice MinimalProject := Some [] in
          let opts := {| Pagination := pagination; Query := queryPtr |} in
          if String.eqb ownerType "" then
            listProjectsFromBothOwnerTypes owner opts
          else
            '(projects, resp, err) ←
              (if String.eqb ownerType "org"
               then call (ListOrganizationProjects owner opts)
               else call (ListUserProjects owner opts)
               : Prog (rest (list ProjectV2)));
            match err with
            | Some e =>
                Ret (Some (NewGitHubAPIErrorResponse "failed to list projects"
                             resp e), None)
            | None =>
                match resp with
                | None => Panic
                | Some r =>
                    let minimalProjects :=
                      append_tagged ownerType minimalProjects projects in
                    let response :=
                      JObject [("pageInfo", marshal_pageInfo (buildPageInfo r));
                               ("projects",
                                marshal_slice JProject minimalProjects)] in
                    Ret (Some (NewToolResultText [Json response]), None)
                end
            end
      end
  end.

Definition listProjectFields (D : Decoders) (E : Encoders)
    (args : gmap string any) (owner ownerType : string) : Prog tool_result :=
  match RequiredInt D args "project_number" with
  | (_, Some err) => Ret (Some (NewToolResultError err), None)
  | (projectNumber, None) =>
      match extractPaginationOptionsFromArgs D args with
      | inr err => Ret (Some (NewToolResultError err), None)
      | inl pagination =>
          let opts := {| Pagination := pagination; Query := None |} in
          '(projectFields, resp, err) ←
            (if String.eqb ownerType "org"
             then call (ListOrganizationProjectFields owner projectNumber opts)
             else call (ListUserProjectFields owner projectNumber opts)
             : Prog (rest (list ProjectV2Field)));
          match err with
          | Some e =>
              Ret (Some (NewGitHubAPIErrorResponse "failed to list project fields"
                           resp e), None)
          | None =>
              match resp with
              | None => Panic
              | Some r =>
                  let response :=
                    JObject [("fields", encode_fields E projectFields);
                             ("pageInfo", marshal_pageInfo (buildPageInfo r))] in
                  Ret (Some (NewToolResultText [Json response]), None)
              end
          end
      end
  end.

Definition listProjectItems (D : Decoders) (E : Encoders)
    (args : gmap string any) (owner ownerType : string) : Prog tool_result :=
  match RequiredInt D args "project_number" with
  | (_, Some err) => Ret (Some (NewToolResultError err), None)
  | (projectNumber, None) =>
      match OptionalParam D args "query" with
      | (_, Some err) => Ret (Some (NewToolResultError err), None)
      | (queryStr, None) =>
          match OptionalBigIntArrayParam D args "fields" with
          | (_, Some err) => Ret (Some (NewToolResultError err), None)
          | (fields, None) =>
              match extractPaginationOptionsFromArgs D args with
              | inr err => Ret (Some (NewToolResultError err), None)
              | inl pagination =>
                  let queryPtr :=
                    if negb (String.eqb queryStr "") then Some queryStr else None in
                  let opts :=
                    {| ListOptions := {| Pagination := pagination;
                                         Query := queryPtr |};
                       opt_Fields := fields |} in
                  '(projectItems, resp, err) ←
                    (if String.eqb ownerType "org"
                     then call (ListOrganizationProjectItems owner projectNumber opts)
                     else call (ListUserProjectItems owner projectNumber opts)
                     : Prog (rest (list ProjectV2Item)));
                  match err with
                  | Some e =>
                      Ret (Some (NewGitHubAPIErrorResponse ProjectListFailedError
                                   resp e), None)
                  | None =>
                      match resp with
                      | None => Panic
                      | Some r =>
                          let response :=
                            JObject [("items", encode_items E projectItems);
                                     ("pageInfo",
                                      marshal_pageInfo (buildPageInfo r))] in
                          Ret (Some (NewToolResultText [Json response]), None)
                      end
                  end
              end
          end
      end
  end.

(** ** The handlers

    A handler is the function NewTool is given: it decodes its
    arguments, obtains the clients and dispatches. *)

Definition tool_error (err : error) : Prog tool_result :=
  Ret (Some (NewToolResultError err), None).

Definition unknown_method (method : string) : error :=
  [Str "unknown method: "; Str method].

(** The handler of projects_list. *)
Definition ProjectsList (D : Decoders) (E : Encoders) (deps : ToolDependencies)
    (args : gmap string any) : Prog tool_result :=
  match RequiredParam D args "method" with
  | (_, Some err) => tool_error err
  | (method, None) =>
  match RequiredParam D args "owner" with
  | (_, Some err) => tool_error err
  | (owner, None) =>
  match OptionalParam D args "owner_type" with
  | (_, Some err) => tool_error err
  | (ownerType, None) =>
  match GetClient deps with
  | Some err => tool_error err
  | None =>
      if String.eqb method projectsMethodListProjects then
        listProjects D args owner ownerType
      else if String.eqb method projectsMethodListProjectFields then
        if String.eqb ownerType "" then
          match RequiredInt D args "project_number" with
          | (_, Some err) => tool_error err
          | (projectNumber, None) =>
              '(ownerType, err) ← detectOwnerType owner projectNumber;
              match err with
              | Some e => tool_error e
              | None => listProjectFields D E args owner ownerType
              end
          end
        else listProjectFields D E args owner ownerType
      else if String.eqb method projectsMethodListProjectItems then
        if String.eqb ownerType "" then
          match RequiredInt D args "project_number" with
          | (_, Some err) => tool_error err
          | (projectNumber, None) =>
              '(ownerType, err) ← detectOwnerType owner projectNumber;
              match err with
              | Some e => tool_error e
              | None => listProjectItems D E args owner ownerType
              end
          end
        else listProjectItems D E args owner ownerType
      else tool_error (unknown_method method)
  end end end end.

(** The type assertion rawUpdatedField.(map[string]any) of
    projects_write: a decoded JSON object is never the nil map. *)
Definition as_object (raw : any) : option (gmap string any) :=
  match raw with
  | AnyMap m => Some (list_to_map m)
  | _ => None
  end.

(** The handler of projects_write. *)
Definition ProjectsWrite (D : Decoders) (deps : ToolDependencies)
    (args : gmap string any) : Prog tool_result :=
  match RequiredParam D args "method" with
  | (_, Some err) => tool_error err
  | (method, None) =>
  match RequiredParam D args "owner" with
  | (_, Some err) => tool_error err
  | (owner, None) =>
  match OptionalParam D args "owner_type" with
  | (_, Some err) => tool_error err
  | (ownerType, None) =>
  match RequiredInt D args "project_number" with
  | (_, Some err) => tool_error err
  | (projectNumber, None) =>
  match GetClient deps with
  | Some err => tool_error err
  | None =>
  match GetGQLClient deps with
  | Some err => tool_error err
  | None =>
      (* Detect owner type if not provided *)
      '(ownerType, err) ←
        (if String.eqb ownerType "" then detectOwnerType owner projectNumber
         else Ret (ownerType, None));
      match err with
      | Some e => tool_error e
      | None =>
          if String.eqb method projectsMethodAddProjectItem then
            match RequiredParam D args "item_type" with
            | (_, Some err) => tool_error err
            | (itemType, None) =>
            match RequiredParam D args "item_owner" with
            | (_, Some err) => tool_error err
            | (itemOwner, None) =>
            match RequiredParam D args "item_repo" with
            | (_, Some err) => tool_error err
            | (itemRepo, None) =>
                if String.eqb itemType "issue" then
                  match RequiredInt D args "issue_number" with
                  | (_, Some _) =>
                      tool_error
                        [Str "issue_number is required when item_type is 'issue'"]
                  | (itemNumber, None) =>
                      addProjectItem owner ownerType projectNumber itemOwner
                        itemRepo itemNumber itemType
                  end
                else if String.eqb itemType "pull_request" then
                  match RequiredInt D args "pull_request_number" with
                  | (_, Some _) =>
                      tool_error
                        [Str "pull_request_number is required when item_type is 'pull_request'"]
                  | (itemNumber, None) =>
                      addProjectItem owner ownerType projectNumber itemOwner
                        itemRepo itemNumber itemType
                  end
                else
                  tool_error
                    [Str "item_type must be either 'issue' or 'pull_request'"]
            end end end
          else if String.eqb method projectsMethodUpdateProjectItem then
            match RequiredBigInt D args "item_id" with
            | (_, Some err) => tool_error err
            | (itemID, None) =>
                match args !! "updated_field" with
                | None =>
                    tool_error [Str "missing required parameter: updated_field"]
                | Some rawUpdatedField =>
                    match as_object rawUpdatedField with
                    | None => tool_error [Str "updated_field must be an object"]
                    | Some fieldValue =>
                        updateProjectItem owner ownerType projectNumber itemID
                          (Some fieldValue)
                    end
                end
            end
          else if String.eqb method projectsMethodDeleteProjectItem then
            match RequiredBigInt D args "item_id" with
            | (_, Some err) => tool_error err
            | (itemID, None) =>
                deleteProjectItem owner ownerType projectNumber itemID
            end
          else tool_error (unknown_method method)
      end
  end end end end end end.

(** The handler of assign_issue_to_org_project.  The errors of the two
    optional decoders are dropped, as in the source. *)
Definition AssignIssueToOrgProject (D : Decoders) (E : Encoders)
    (deps : ToolDependencies) (args : gmap string any) : Prog tool_result :=
  match RequiredParam D args "org" with
  | (_, Some err) => tool_error err
  | (org, None) =>
  match RequiredInt D args "project_number" with
  | (_, Some err) => tool_error err
  | (projectNumber, None) =>
  match RequiredParam D args "item_owner" with
  | (_, Some err) => tool_error err
  | (itemOwner, None) =>
  match RequiredParam D args "item_repo" with
  | (_, Some err) => tool_error err
  | (itemRepo, None) =>
  match RequiredInt D args "issue_number" with
  | (_, Some err) => tool_error err
  | (issueNumber, None) =>
      let priority := (OptionalParam D args "priority").1 in
      let size := (OptionalParam D args "size").1 in
      match GetGQLClient deps with
      | Some err => tool_error err
      | None =>
      match GetClient deps with
      | Some err => tool_error err
      | None =>
          '(result, err) ←
            assignIssueToOrgProjectWithFields org projectNumber itemOwner itemRepo
              issueNumber priority size;
          match err with
          | Some e => tool_error e
          | None =>
              match result with
              | Some result =>
                  Ret (Some (NewToolResultText [Json (encode_map E result)]), None)
              | None => Ret (Some (NewToolResultText [Json JNull]), None)
              end
          end
      end end
  end end end end end.

(** The handler of update_project_item_field_by_name. *)
Definition UpdateProjectItemFieldByNames (D : Decoders)
    (deps : ToolDependencies) (args : gmap string any) : Prog tool_result :=
  match RequiredParam D args "owner" with
  | (_, Some err) => tool_error err
  | (owner, None) =>
  match OptionalParam D args "owner_type" with
  | (_, Some err) => tool_error err
  | (ownerType, None) =>
  match RequiredInt D args "project_number" with
  | (_, Some err) => tool_error err
  | (projectNumber, None) =>
  match RequiredBigInt D args "item_id" with
  | (_, Some err) => tool_error err
  | (itemID, None) =>
  match RequiredParam D args "field_name" with
  | (_, Some err) => tool_error err
  | (fieldName, None) =>
  match RequiredParam D args "option_name" with
  | (_, Some err) => tool_error err
  | (optionName, None) =>
  match GetClient deps with
  | Some err => tool_error err
  | None =>
      '(ownerType, err) ←
        (if String.eqb ownerType "" then detectOwnerType owner projectNumber
         else Ret (ownerType, None));
      match err with
      | Some e => tool_error e
      | None =>
          '(optionID, fieldID, err) ←
            resolveSingleSelectOptionByName owner ownerType projectNumber
              fieldName optionName;
          match err with
          | Some e => tool_error e
          | None =>
              '(_, err) ← updateProjectItem owner ownerType projectNumber itemID
                            (field_update fieldID optionID);
              match err with
              | Some e => tool_error e
              | None =>
                  Ret (Some (NewToolResultText
                               [Json (JObject
                                        [("message",
                                          JString [Str "Set "; Str fieldName;
                                                   Str " to "; Str optionName])])]),
                       None)
              end
          end
      end
  end end end end end end end.

(** ** Readings of programs, calls and arguments used in the statements *)

(** Every call a program can issue, whatever the replies, satisfies [P]. *)
Fixpoint only {A : Type} (P : Call -> Prop) (p : Prog A) : Prop :=
  match p with
  | Ret _ | Panic => True
  | Do c k => P c /\ forall r, only P (k r)
  end.

(** The first error of a sequence of checks, in their order. *)
Fixpoint first_error (checks : list (option error)) : option error :=
  match checks with
  | [] => None
  | Some e :: _ => Some e
  | None :: rest => first_error rest
  end.

(** The two probes of detectOwnerType. *)
Definition is_probe (c : Call) : Prop :=
  match c with
  | GetUserProject _ _ | GetOrganizationProject _ _ => True
  | _ => False
  end.

(** A call of the REST client on a user-scoped endpoint. *)
Definition is_user_call (c : Call) : Prop :=
  match c with
  | GetUserProject _ _ | ListUserProjects _ _ | ListUserProjectFields _ _ _
  | ListUserProjectItems _ _ _ | UpdateUserProjectItem _ _ _ _
  | DeleteUserProjectItem _ _ _ | QueryUserProjectID _ _ => True
  | _ => False
  end.

(** A call that changes the project: an update, a delete or the add
    mutation. *)
Definition is_mutation (c : Call) : Prop :=
  match c with
  | UpdateUserProjectItem _ _ _ _ | UpdateOrganizationProjectItem _ _ _ _
  | DeleteUserProjectItem _ _ _ | DeleteOrganizationProjectItem _ _ _
  | MutateAddProjectV2ItemById _ _ => True
  | _ => False
  end.

(** Pagination options with a page size of at most 50 and no empty
    cursor. *)
Definition bounded_page (p : ListProjectsPaginationOptions) : Prop :=
  (exists n, PerPage p = Some n /\ n <= MaxProjectsPerPage) /\
  opt_After p <> Some "" /\ opt_Before p <> Some "".

(** A list call whose pagination options are bounded. *)
Definition is_bounded_list (c : Call) : Prop :=
  match c with
  | ListUserProjects _ opts | ListOrganizationProjects _ opts
  | ListUserProjectFields _ _ opts | ListOrganizationProjectFields _ _ opts =>
      bounded_page (Pagination opts)
  | ListUserProjectItems _ _ opts | ListOrganizationProjectItems _ _ opts =>
      bounded_page (Pagination (ListOptions opts))
  | _ => False
  end.

(** The call listing the projects of an owner and the client's reply. *)
Definition projects_call (owner ownerType : string) (opts : ListProjectsOptions)
  : Call :=
  if String.eqb ownerType "org" then ListOrganizationProjects owner opts
  else ListUserProjects owner opts.

Definition projects_reply {S : Type} (client : Client S)
    (owner ownerType : string) (opts : ListProjectsOptions) (s : S)
  : rest (list ProjectV2) * S :=
  if String.eqb ownerType "org" then client (ListOrganizationProjects owner opts) s
  else client (ListUserProjects owner opts) s.

(** The reply to an update call. *)
Definition update_reply {S : Type} (client : Client S)
    (owner ownerType : string) (projectNumber itemID : Z)
    (payload : UpdateProjectItemOptions) (s : S)
  : rest (option ProjectV2Item) * S :=
  if String.eqb ownerType "org"
  then client (UpdateOrganizationProjectItem owner projectNumber itemID payload) s
  else client (UpdateUserProjectItem owner projectNumber itemID payload) s.

(** The error of detectOwnerType. *)
Definition owner_type_unknown (owner : string) (projectNumber : Z) : error :=
  [Str "could not determine owner type for "; Str owner;
   Str " with project "; Dec projectNumber;
   Str ": owner is neither a user nor an org with this project"].

(** A field the scan of resolveSingleSelectOptionByName stops at: its
    name is the wanted one and it has an ID. *)
Definition usable_field (fieldName : string) (f : ProjectV2Field) : Prop :=
  field_name f = fieldName /\ field_ID f <> None.

(** ** Decoders for the examples

    Plain decoders over the argument map: a string is a string value,
    a number a float64 or an int64; a missing required key is an
    error and a missing optional key the zero value. *)

Definition missing (key : string) : error :=
  [Str "missing required parameter: "; Str key].

Definition mistyped (key : string) : error :=
  [Str "parameter "; Str key; Str " is not of the expected type"].

Definition plain_string (required : bool) (args : gmap string any) (key : string)
  : string * option error :=
  match args !! key with
  | None => ("", if required then Some (missing key) else None)
  | Some (AnyString [Str s]) => (s, None)
  | Some _ => ("", Some (mistyped key))
  end.

Definition plain_int (args : gmap string any) (key : string) : Z * option error :=
  match args !! key with
  | None => (0, Some (missing key))
  | Some (AnyInt64 n) | Some (AnyInt n) => (n, None)
  | Some (AnyFloat64 f) => (int64_of_float64 f, None)
  | Some _ => (0, Some (mistyped key))
  end.

Definition plain_int_default (args : gmap string any) (key : string) (d : Z)
  : Z * option error :=
  match args !! key with
  | None => (d, None)
  | Some (AnyInt64 n) | Some (AnyInt n) => (if n =? 0 then d else n, None)
  | Some (AnyFloat64 f) =>
      (if int64_of_float64 f =? 0 then d else int64_of_float64 f, None)
  | Some _ => (0, Some (mistyped key))
  end.

Definition plain : Decoders :=
  {| RequiredParam := plain_string true;
     OptionalParam := plain_string false;
     RequiredInt := plain_int;
     RequiredBigInt := plain_int;
     OptionalBigIntArrayParam := fun _ _ => ([], None);
     OptionalIntParamWithDefault := plain_int_default |}.

Definition ready : ToolDependencies :=
  {| GetClient := None; GetGQLClient := None |}.

(** A stand-in for the encoders: the structs are not looked into. *)
Definition opaque : Encoders :=
  {| encode_fields := fun fields => JArray (map (fun _ => JNull) fields);
     encode_items := fun items => JArray (map (fun i => JItem (Some i)) items);
     encode_map := fun _ => JObject [] |}.

Definition text_arg (s : string) : any := AnyString [Str s].

(** The page info a listing result carries under its pageInfo key. *)
Definition listed_page_info (r : CallToolResult) : option json :=
  match result_text r with
  | [Json response] => json_lookup "pageInfo" response
  | _ => None
  end.

(** An option the scan of a field's options stops at: its name is the
    wanted one and it has an ID. *)
Definition usable_option (optionName : string)
    (o : option ProjectV2FieldOption) : Prop :=
  match o with
  | Some opt => option_name opt = optionName /\ option_ID opt <> None
  | None => False
  end.

(** A Priority field as the API would list it without its ID. *)
Definition unidentified_priority : ProjectV2Field :=
  {| field_ID := None;
     field_Name := Some "Priority";
     field_Options :=
       [Some {| option_ID := Some "ghost";
                option_Name := Some {| Raw := Some "High" |} |}] |}.

(** A second Priority field whose High option has no ID. *)
Definition late_priority : ProjectV2Field :=
  {| field_ID := Some 43;
     field_Name := Some "Priority";
     field_Options :=
       [Some {| option_ID := None;
                option_Name := Some {| Raw := Some "High" |} |};
        None;
        Some {| option_ID := Some "opt9";
                option_Name := Some {| Raw := Some "High" |} |}] |}.

(** The board with the listed fields replaced. *)
Definition with_fields (f : Fixture) (reply : rest (list ProjectV2Field))
  : Fixture :=
  {| user_project := user_project f;
     org_project := org_project f;
     user_projects := user_projects f;
     org_projects := org_projects f;
     project_fields := reply;
     project_items := project_items f;
     updated_item := updated_item f;
     deleted_item := deleted_item f;
     node_id := node_id f;
     added_item := added_item f |}.

(** The GraphQL lookups of addProjectItem and the client's replies. *)
Definition node_call (itemType itemOwner itemRepo : string) (itemNumber : Z)
  : Call :=
  if String.eqb itemType "issue"
  then QueryIssueID itemOwner itemRepo (int32 itemNumber)
  else QueryPullRequestID itemOwner itemRepo (int32 itemNumber).

Definition node_reply {S : Type} (client : Client S)
    (itemType itemOwner itemRepo : string) (itemNumber : Z) (s : S) : gql * S :=
  if String.eqb itemType "issue"
  then client (QueryIssueID itemOwner itemRepo (int32 itemNumber)) s
  else client (QueryPullRequestID itemOwner itemRepo (int32 itemNumber)) s.

Definition project_id_call (owner ownerType : string) (projectNumber : Z) : Call :=
  if String.eqb ownerType "org"
  then QueryOrganizationProjectID owner (int32 projectNumber)
  else QueryUserProjectID owner (int32 projectNumber).

Definition project_id_reply {S : Type} (client : Client S)
    (owner ownerType : string) (projectNumber : Z) (s : S) : gql * S :=
  if String.eqb ownerType "org"
  then client (QueryOrganizationProjectID owner (int32 projectNumber)) s
  else client (QueryUserProjectID owner (int32 projectNumber)) s.

(** The error a failed lookup of the item's node ID is wrapped in. *)
Definition resolve_failed (itemType itemOwner itemRepo : string) (itemNumber : Z)
    (e : error) : error :=
  [Str "failed to resolve "; Str itemType; Str ": ";
   Sub [Str (if String.eqb itemType "issue"
             then "failed to resolve issue "
             else "failed to resolve pull request ");
        Str itemOwner; Str "/"; Str itemRepo; Str "#"; Dec itemNumber;
        Str ": "; Sub e]].

(** The success of addProjectItem. *)
Definition added (owner : string) (projectNumber : Z)
    (itemOwner itemRepo : string) (itemNumber : Z) (itemType : string)
    (itemID : ID) : CallToolResult :=
  NewToolResultText
    [Json (JObject
             [("id", JString [Str itemID]);
              ("message",
               JString [Str "Successfully added "; Str itemType; Str " ";
                        Str itemOwner; Str "/"; Str itemRepo; Str "#";
                        Dec itemNumber; Str " to project "; Str owner;
                        Str "/"; Dec projectNumber])])].

(** The result of the assignment workflow before any field is set. *)
Definition assigned (org : string) (projectNumber : Z)
    (itemOwner itemRepo : string) (issueNumber numericID : Z)
  : gmap string any :=
  <["item_id" := AnyInt64 numericID]>
    (<["message" :=
         AnyString [Str "Added issue "; Str itemOwner; Str "/";
                    Str itemRepo; Str "#"; Dec issueNumber;
                    Str " to project "; Str org; Str "/";
                    Dec projectNumber]]>
       (<["updates" := AnyStrings (Some [])]> ∅)).

(** A call addressed to the project [projectNumber] of [owner], on the
    organization endpoints for the owner type org and on the user
    endpoints for every other owner type, and that is not one of the
    probes of detectOwnerType.  The lookup of an issue or a pull
    request and the add mutation name no project owner. *)
Definition addressed (owner ownerType : string) (projectNumber : Z) (c : Call)
  : Prop :=
  match c with
  | ListUserProjects o _ => ownerType <> "org" /\ o = owner
  | ListOrganizationProjects o _ => ownerType = "org" /\ o = owner
  | GetUserProject _ _ | GetOrganizationProject _ _ => False
  | ListUserProjectFields o n _ | ListUserProjectItems o n _
  | UpdateUserProjectItem o n _ _ | DeleteUserProjectItem o n _ =>
      ownerType <> "org" /\ o = owner /\ n = projectNumber
  | ListOrganizationProjectFields o n _
  | ListOrganizationProjectItems o n _ | UpdateOrganizationProjectItem o n _ _
  | DeleteOrganizationProjectItem o n _ =>
      ownerType = "org" /\ o = owner /\ n = projectNumber
  | QueryUserProjectID o n =>
      ownerType <> "org" /\ o = owner /\ n = int32 projectNumber
  | QueryOrganizationProjectID o n =>
      ownerType = "org" /\ o = owner /\ n = int32 projectNumber
  | QueryIssueID _ _ _ | QueryPullRequestID _ _ _
  | MutateAddProjectV2ItemById _ _ => True
  end.

(** The owner type a handler goes on with: the one given, or the one
    detectOwnerType finds when none is given. *)
Definition resolved_owner_type {S : Type} (client : Client S)
    (owner ownerType : string) (projectNumber : Z) (s : S)
  : outcome (string * option error) * list Call * S :=
  if String.eqb ownerType ""
  then run client (detectOwnerType owner projectNumber) s
  else (Returned (ownerType, None), [], s).

(** The arguments of a deletion by projects_write without an owner type. *)
Definition delete_args : gmap string any :=
  <["method" := text_arg "delete_project_item"]>
    (<["owner" := text_arg "acme"]>
       (<["project_number" := number 7]>
          (<["item_id" := number 1001]> ∅))).

(** The payload that sets a single-select field to an option. *)
Definition option_update (fieldID : Z) (optionID : string)
  : UpdateProjectItemOptions :=
  {| Fields := [{| update_ID := fieldID;
                   update_Value := AnyString [Str optionID] |}] |}.

(** The confirmation of update_project_item_field_by_name. *)
Definition said_set (fieldName optionName : string) : CallToolResult :=
  NewToolResultText
    [Json (JObject [("message",
                     JString [Str "Set "; Str fieldName; Str " to ";
                              Str optionName])])].

(** The arguments that set Priority to High on item 1001 of the
    organization board. *)
Definition priority_args : gmap string any :=
  <["owner" := text_arg "acme"]>
    (<["owner_type" := text_arg "org"]>
       (<["project_number" := number 7]>
          (<["item_id" := number 1001]>
             (<["field_name" := text_arg "Priority"]>
                (<["option_name" := text_arg "High"]> ∅))))).

(** A call that lists the projects of [owner], under either scope. *)
Definition lists_projects_of (owner : string) (c : Call) : Prop :=
  match c with
  | ListUserProjects o _ | ListOrganizationProjects o _ => o = owner
  | _ => False
  end.

(** The arguments of projects_list for a method, without an owner type. *)
Definition list_args (method : string) : gmap string any :=
  <["method" := text_arg method]>
    (<["owner" := text_arg "acme"]>
       (<["project_number" := number 7]> ∅)).

(** The call listing the items of a project and the client's reply. *)
Definition list_items_call (owner ownerType : string) (projectNumber : Z)
    (opts : ListProjectItemsOptions) : Call :=
  if String.eqb ownerType "org"
  then ListOrganizationProjectItems owner projectNumber opts
  else ListUserProjectItems owner projectNumber opts.

Definition list_items_reply {S : Type} (client : Client S)
    (owner ownerType : string) (projectNumber : Z)
    (opts : ListProjectItemsOptions) (s : S) : rest (list ProjectV2Item) * S :=
  if String.eqb ownerType "org"
  then client (ListOrganizationProjectItems owner projectNumber opts) s
  else client (ListUserProjectItems owner projectNumber opts) s.

(** A step of the tagging that does not end it: it was skipped, or its
    update returned without a Go error. *)
Definition step_passed (e : step_end) : Prop :=
  match e with
  | StepSkipped | UpdateApplied | UpdateRefused => True
  | ResolutionFailed _ | UpdateErrored _ | StepPanicked => False
  end.

(** The updates the tagging reports for its two arguments. *)
Definition noted (priority size : string) : slice text :=
  let first : slice text :=
    if String.eqb priority "" then None
    else Some [[Str "Priority="; Str priority]] in
  if String.eqb size "" then first
  else append first [Str "Size="; Str size].

(** * Properties *)

(** ** Running programs *)

Lemma run_bind {S A B : Type} (client : Client S) (p : Prog A) (f : A -> Prog B)
    (s : S) :
  run client (bind p f) s =
  match run client p s with
  | (Returned a, tr, s1) =>
      let '(o, tr', s2) := run client (f a) s1 in (o, tr ++ tr', s2)
  | (Panicked, tr, s1) => (Panicked, tr, s1)
  end.
Proof.
  revert s. induction p as [a | | c k IH]; intros s; simpl.
  - destruct (run client (f a) s) as [[o tr'] s2]. reflexivity.
  - reflexivity.
  - destruct (client c s) as [r s1]. rewrite IH.
    destruct (run client (k r) s1) as [[[a |] tr] s2]; [| reflexivity].
    destruct (run client (f a) s2) as [[o tr'] s3]. reflexivity.
Qed.

(** ** Owner-kind detection *)

(** C1: detectOwnerType probes the user scope first and the
    organization scope second.  A successful user probe yields "user"
    after that single call.  Any other user probe, a transport error
    included, is followed by the organization probe, whose success
    yields "org" after exactly the two calls in that order; when both
    probes fail the result is an error naming the owner and the project
    number. *)
Theorem detectOwnerType_probes_user_then_org {S : Type} (client : Client S)
    (s : S) (owner : string) (projectNumber : Z) :
  let '(r1, s1) := client (GetUserProject owner projectNumber) s in
  let '(r2, s2) := client (GetOrganizationProject owner projectNumber) s1 in
  let out := run client (detectOwnerType owner projectNumber) s in
  let both := [GetUserProject owner projectNumber;
               GetOrganizationProject owner projectNumber] in
  (reply_ok 200 r1 = true ->
   out = (Returned ("user", None), [GetUserProject owner projectNumber], s1)) /\
  (reply_err r1 <> None -> trace out = both) /\
  (reply_ok 200 r1 = false -> reply_void r1 = false ->
   reply_ok 200 r2 = true ->
   out = (Returned ("org", None), both, s2)) /\
  (reply_ok 200 r1 = false -> reply_void r1 = false ->
   reply_ok 200 r2 = false -> reply_void r2 = false ->
   exists e, out = (Returned ("", Some e), both, s2) /\
             names owner e = true /\ names_number projectNumber e = true).
Proof.
  unfold detectOwnerType. simpl.
  destruct (client (GetUserProject owner projectNumber) s) as [[[v1 resp1] err1] s1].
  destruct (client (GetOrganizationProject owner projectNumber) s1)
    as [[[v2 resp2] err2] s2] eqn:E2.
  simpl. unfold reply_err, reply_ok, reply_void, StatusOK. simpl.
  destruct err1 as [e1 |], resp1 as [resp1 |]; simpl;
    try destruct (Z.eqb_spec (StatusCode resp1) 200) as [H1 | H1]; simpl;
    rewrite ?E2; simpl;
    destruct err2 as [e2 |], resp2 as [resp2 |]; simpl;
    try destruct (Z.eqb_spec (StatusCode resp2) 200) as [H2 | H2]; simpl;
    repeat split; intros; try congruence; try reflexivity;
    (eexists; split; [reflexivity |]);
    unfold names, names_number; simpl;
    rewrite String.eqb_refl, Z.eqb_refl, ?orb_true_r; split; reflexivity.
Qed.

Lemma detectOwnerType_org_only_witness :
  run (serve board) (detectOwnerType "acme" 7) tt =
  (Returned ("org", None),
   [GetUserProject "acme" 7; GetOrganizationProject "acme" 7], tt).
Proof.
  pose proof (detectOwnerType_probes_user_then_org (serve board) tt "acme" 7) as H.
  simpl in H. destruct H as (_ & _ & H & _).
  apply H; reflexivity.
Defined.

(** ** Locating a project item by its issue *)

Section FindPages.
Context {S : Type} (client : Client S).
Variables (owner ownerType : string) (projectNumber : Z).
Variables (repoOwner repoName : string) (issueNumber perPage : Z).

Let find (n : nat) (after : option string) : Prog (Z * option error) :=
  find_pages n owner ownerType projectNumber repoOwner repoName issueNumber
    perPage after.
Let pages (n : nat) (after : option string) (s : S) :=
  served client n owner ownerType projectNumber perPage after s.
Let clean := page_without repoOwner repoName issueNumber.
Let scan := scan_items repoOwner repoName issueNumber.
Let not_found := item_not_found repoOwner repoName issueNumber.

(** The list call of one iteration and the reply the client gives it. *)
Let list_call (after : option string) : Call :=
  items_call owner ownerType projectNumber perPage after.

Let list_reply (after : option string) (s : S)
  : rest (list ProjectV2Item) * S :=
  items_reply client owner ownerType projectNumber perPage after s.

Lemma find_pages_step (n : nat) (after : option string) (s : S) :
  run client (find (Datatypes.S n) after) s =
  let '(items, resp, err, s1) := list_reply after s in
  match err, resp with
  | Some e, _ => (Returned (0, Some e), [list_call after], s1)
  | None, None => (Panicked, [list_call after], s1)
  | None, Some r =>
      match scan items with
      | Some id => (Returned (id, None), [list_call after], s1)
      | None =>
          if String.eqb (After r) ""
          then (Returned (0, Some not_found), [list_call after], s1)
          else let '(o, tr, s2) := run client (find n (Some (After r))) s1 in
               (o, list_call after :: tr, s2)
      end
  end.
Proof.
  subst find scan not_found list_call list_reply.
  unfold items_call, items_reply. simpl.
  destruct (String.eqb ownerType "org"); simpl;
    (match goal with |- context [client ?c s] =>
       destruct (client c s) as [[[items resp] err] s1] end);
    destruct err as [e |]; [reflexivity | | reflexivity |];
    (destruct resp as [r |]; [| reflexivity]);
    simpl;
    (destruct (scan_items repoOwner repoName issueNumber items);
       [reflexivity |]);
    (destruct (String.eqb (After r) ""); reflexivity).
Qed.

Lemma served_step (n : nat) (after : option string) (s : S) :
  pages (Datatypes.S n) after s =
  let '(items, resp, err, s1) := list_reply after s in
  (items, resp, err)
  :: match err, resp with
     | None, Some r =>
         if String.eqb (After r) "" then [] else pages n (Some (After r)) s1
     | _, _ => []
     end.
Proof.
  subst pages list_reply. unfold items_reply. simpl.
  destruct (String.eqb ownerType "org"); simpl;
    (match goal with |- context [client ?c s] =>
       destruct (client c s) as [[[items resp] err] s1] end);
    destruct resp, err; reflexivity.
Qed.

Lemma lists_items_list_call (after : option string) :
  lists_items owner ownerType projectNumber perPage (list_call after).
Proof. exists after. reflexivity. Qed.

Lemma clean_inv (items : list ProjectV2Item) resp err :
  clean (items, resp, err) -> err = None /\ resp <> None /\ scan items = None.
Proof.
  intros (r & Hr & He & Hs). unfold reply_resp, reply_err, reply_value in *.
  simpl in *. subst. repeat split; [discriminate | assumption].
Qed.

(** The loop of [n] iterations against the pages the client serves. *)
Lemma find_pages_served (n : nat) (after : option string) (s : S) :
  let out := run client (find n after) s in
  (length (trace out) <= n)%nat /\
  Forall (lists_items owner ownerType projectNumber perPage) (trace out) /\
  (forall k r id,
      pages n after s !! k = Some r ->
      Forall clean (take k (pages n after s)) ->
      reply_err r = None -> reply_resp r <> None ->
      scan (reply_value r) = Some id ->
      result out = Returned (id, None) /\ length (trace out) = Datatypes.S k) /\
  (Forall clean (pages n after s) ->
   result out = Returned (0, Some not_found) /\
   length (trace out) = length (pages n after s)) /\
  (forall k r resp,
      Forall clean (pages n after s) ->
      pages n after s !! k = Some r ->
      reply_resp r = Some resp -> After resp = "" ->
      length (trace out) = Datatypes.S k).
Proof.
  cbv zeta. revert after s. induction n as [| n IH]; intros after s.
  - subst find pages not_found. simpl.
    repeat split; try constructor; intros; discriminate.
  - rewrite find_pages_step, served_step.
    pose proof (lists_items_list_call after) as Hcall.
    destruct (list_reply after s) as [[[items resp] err] s1].
    destruct err as [e |].
    { (* the call failed *)
      unfold result, trace. simpl.
      split; [lia |]. split; [repeat constructor; assumption |].
      split; [| split].
      - intros [| k] r id Hk _ Herr _ _; simpl in Hk; [| discriminate].
        injection Hk as <-. discriminate.
      - intros Hclean. apply Forall_inv in Hclean.
        apply clean_inv in Hclean as (? & _). discriminate.
      - intros k r resp' Hclean. apply Forall_inv in Hclean.
        apply clean_inv in Hclean as (? & _). discriminate. }
    destruct resp as [r0 |].
    2: { (* no response *)
      unfold result, trace. simpl.
      split; [lia |]. split; [repeat constructor; assumption |].
      split; [| split].
      - intros [| k] r id Hk _ _ Hresp _; simpl in Hk; [| discriminate].
        injection Hk as <-. contradiction Hresp. reflexivity.
      - intros Hclean. apply Forall_inv in Hclean.
        apply clean_inv in Hclean as (_ & ? & _). congruence.
      - intros k r resp' Hclean. apply Forall_inv in Hclean.
        apply clean_inv in Hclean as (_ & ? & _). congruence. }
    destruct (scan items) as [id0 |] eqn:Escan.
    { (* the item is on this page *)
      unfold result, trace. simpl.
      split; [lia |]. split; [repeat constructor; assumption |].
      split; [| split].
      - intros [| k] r id Hk Hclean _ _ Hscan; simpl in Hk.
        + injection Hk as <-. unfold reply_value in Hscan. simpl in Hscan.
          split; [congruence | reflexivity].
        + rewrite firstn_cons in Hclean. apply Forall_inv in Hclean.
          apply clean_inv in Hclean as (_ & _ & ?). congruence.
      - intros Hclean. apply Forall_inv in Hclean.
        apply clean_inv in Hclean as (_ & _ & ?). congruence.
      - intros k r resp' Hclean. apply Forall_inv in Hclean.
        apply clean_inv in Hclean as (_ & _ & ?). congruence. }
    destruct (String.eqb_spec (After r0) "") as [Eafter | Eafter].
    { (* the last page *)
      unfold result, trace. simpl.
      split; [lia |]. split; [repeat constructor; assumption |].
      split; [| split].
      - intros [| k] r id Hk _ _ _ Hscan; simpl in Hk; [| discriminate].
        injection Hk as <-. unfold reply_value in Hscan. simpl in Hscan.
        congruence.
      - intros _. split; reflexivity.
      - intros [| k] r resp' _ Hk _ _; simpl in Hk; [reflexivity | discriminate]. }
    (* the scan goes on with the next page *)
    specialize (IH (Some (After r0)) s1).
    destruct (run client (find n (Some (After r0))) s1) as [[o tr] s2].
    destruct IH as (IHlen & IHall & IHfound & IHabsent & IHstop).
    unfold result, trace in *. simpl in *.
    split; [lia |]. split; [constructor; assumption |].
    split; [| split].
    + intros [| k] r id Hk Hclean Herr Hresp Hscan; simpl in Hk.
      * injection Hk as <-. unfold reply_value in Hscan. simpl in Hscan.
        congruence.
      * rewrite firstn_cons in Hclean. apply Forall_inv_tail in Hclean.
        destruct (IHfound k r id Hk Hclean Herr Hresp Hscan) as [-> ->].
        split; reflexivity.
    + intros Hclean. apply Forall_inv_tail in Hclean.
      destruct (IHabsent Hclean) as [-> ->]. split; reflexivity.
    + intros [| k] r resp' Hclean Hk Hresp Hafter; simpl in Hk.
      * injection Hk as <-. unfold reply_resp in Hresp. simpl in Hresp.
        congruence.
      * apply Forall_inv_tail in Hclean.
        rewrite (IHstop k r resp' Hclean Hk Hresp Hafter). reflexivity.
Qed.
End FindPages.

(** C2: findProjectItemIDByIssue lists the project's items in pages of
    50 and issues at most 5 list calls.  When the item of the issue is
    on one of the pages it reads (no earlier page holding it), the
    item's numeric ID is returned after that page's call; when none of
    the pages read holds it, the result is the not-found error and the
    calls are those of the pages served, five at most, so a sixth call
    is never made; and the scan ends with a page that carries no
    forward cursor. *)
Theorem findProjectItemIDByIssue_scans_five_pages {S : Type} (client : Client S)
    (s : S) (owner ownerType : string) (projectNumber : Z)
    (repoOwner repoName : string) (issueNumber : Z) :
  let out := run client (findProjectItemIDByIssue owner ownerType projectNumber
                           repoOwner repoName issueNumber) s in
  let pages := served client 5 owner ownerType projectNumber 50 None s in
  let without := page_without repoOwner repoName issueNumber in
  (length (trace out) <= 5)%nat /\
  Forall (lists_items owner ownerType projectNumber 50) (trace out) /\
  (forall k r id,
      pages !! k = Some r -> Forall without (take k pages) ->
      reply_err r = None -> reply_resp r <> None ->
      scan_items repoOwner repoName issueNumber (reply_value r) = Some id ->
      result out = Returned (id, None) /\ length (trace out) = Datatypes.S k) /\
  (Forall without pages ->
   result out = Returned (0, Some (item_not_found repoOwner repoName issueNumber)) /\
   length (trace out) = length pages) /\
  (forall k r resp,
      Forall without pages -> pages !! k = Some r ->
      reply_resp r = Some resp -> After resp = "" ->
      length (trace out) = Datatypes.S k).
Proof.
  exact (find_pages_served client owner ownerType projectNumber repoOwner
           repoName issueNumber 50 5 None s).
Qed.

Lemma findProjectItemIDByIssue_page_two_witness :
  let find n := run (serve board)
                  (findProjectItemIDByIssue "acme" "org" 7 "octo" "app" n) tt in
  (result (find 73) = Returned (1073, None) /\ length (trace (find 73)) = 2%nat) /\
  (result (find 260) = Returned (0, Some (item_not_found "octo" "app" 260)) /\
   length (trace (find 260)) = 5%nat).
Proof.
  cbv zeta. split.
  - destruct (findProjectItemIDByIssue_scans_five_pages
                (serve board) tt "acme" "org" 7 "octo" "app" 73)
      as (_ & _ & Hfound & _).
    apply (Hfound 1%nat (paged_items 6 (Some (cursor 1)))).
    + reflexivity.
    + repeat constructor. eexists. repeat split; reflexivity.
    + reflexivity.
    + discriminate.
    + vm_compute. reflexivity.
  - destruct (findProjectItemIDByIssue_scans_five_pages
                (serve board) tt "acme" "org" 7 "octo" "app" 260)
      as (_ & _ & _ & Habsent & _).
    apply Habsent.
    repeat constructor; eexists; repeat split; reflexivity.
Defined.

(** ** Resolving a single-select option by name *)

Lemma find_option_absent (optionName : string)
    (options : list (option ProjectV2FieldOption)) :
  (forall o, In (Some o) options -> option_name o <> optionName) ->
  find_option optionName options = None.
Proof.
  induction options as [| [o |] options IH]; intros Hall; simpl.
  - reflexivity.
  - destruct (option_ID o) as [id |].
    + fold (option_name o).
      destruct (String.eqb_spec (option_name o) optionName) as [E | _].
      * exfalso. apply (Hall o); [left; reflexivity | exact E].
      * apply IH. intros o' Hin. apply Hall. right. exact Hin.
    + apply IH. intros o' Hin. apply Hall. right. exact Hin.
  - apply IH. intros o' Hin. apply Hall. right. exact Hin.
Qed.

Lemma find_option_first (optionName : string)
    (before after : list (option ProjectV2FieldOption))
    (o : ProjectV2FieldOption) (id : string) :
  (forall o', In (Some o') before -> option_name o' <> optionName) ->
  option_name o = optionName -> option_ID o = Some id ->
  find_option optionName (before ++ Some o :: after) = Some id.
Proof.
  intros Hbefore Hname Hid.
  induction before as [| [o' |] before IH]; simpl.
  - rewrite Hid. fold (option_name o). rewrite Hname, String.eqb_refl. reflexivity.
  - assert (Hrest : forall o'', In (Some o'') before -> option_name o'' <> optionName)
      by (intros o'' Hin; apply Hbefore; right; exact Hin).
    destruct (option_ID o'); [| exact (IH Hrest)].
    fold (option_name o').
    destruct (String.eqb_spec (option_name o') optionName) as [E | _].
    + exfalso. apply (Hbefore o'); [left; reflexivity | exact E].
    + exact (IH Hrest).
  - apply IH. intros o'' Hin. apply Hbefore. right. exact Hin.
Qed.

Lemma scan_fields_absent (fieldName optionName : string)
    (fields : list ProjectV2Field) :
  (forall f, In f fields -> field_name f <> fieldName) ->
  scan_fields fieldName optionName fields = ("", 0, Some (field_not_found fieldName)).
Proof.
  induction fields as [| f fields IH]; intros Hall; simpl.
  - reflexivity.
  - fold (field_name f).
    destruct (String.eqb_spec (field_name f) fieldName) as [E | _]; simpl.
    + exfalso. apply (Hall f); [left; reflexivity | exact E].
    + apply IH. intros g Hin. apply Hall. right. exact Hin.
Qed.

Lemma scan_fields_first (fieldName optionName : string)
    (before after : list ProjectV2Field) (f : ProjectV2Field) (fieldID : Z) :
  (forall g, In g before -> field_name g <> fieldName) ->
  field_name f = fieldName -> field_ID f = Some fieldID ->
  scan_fields fieldName optionName (before ++ f :: after) =
  match find_option optionName (field_Options f) with
  | Some optionID => (optionID, fieldID, None)
  | None => ("", 0, Some (option_not_found optionName fieldName))
  end.
Proof.
  intros Hbefore Hname Hid.
  induction before as [| g before IH]; simpl.
  - fold (field_name f). rewrite Hname, String.eqb_refl, Hid. reflexivity.
  - fold (field_name g).
    destruct (String.eqb_spec (field_name g) fieldName) as [E | _]; simpl.
    + exfalso. apply (Hbefore g); [left; reflexivity | exact E].
    + apply IH. intros h Hin. apply Hbefore. right. exact Hin.
Qed.

Lemma run_resolveSingleSelectOptionByName {S : Type} (client : Client S) (s : S)
    (owner ownerType : string) (projectNumber : Z) (fieldName optionName : string) :
  run client (resolveSingleSelectOptionByName owner ownerType projectNumber
                fieldName optionName) s =
  let '(fields, resp, err, s1) :=
    fields_reply client owner ownerType projectNumber 100 s in
  (match err, resp with
   | Some e, _ => Returned ("", 0, Some e)
   | None, None => Panicked
   | None, Some _ => Returned (scan_fields fieldName optionName fields)
   end,
   [fields_call owner ownerType projectNumber 100], s1).
Proof.
  unfold resolveSingleSelectOptionByName, fields_reply, fields_call. simpl.
  destruct (String.eqb ownerType "org"); simpl;
    (match goal with |- context [client ?c s] =>
       destruct (client c s) as [[[fields resp] err] s1] end);
    destruct err, resp; reflexivity.
Qed.

(** C4: resolveSingleSelectOptionByName lists the project's fields with
    page size 100 and takes the first field whose name is exactly
    [fieldName].  It fails with the field-not-found error naming the
    field when no field has that name; within the matching field it
    returns the option ID and the field ID of the first option whose
    name is exactly [optionName], and fails with the option-not-found
    error naming the option and the field when no option has that
    name. *)
Theorem resolveSingleSelectOptionByName_exact_match {S : Type}
    (client : Client S) (s s1 : S) (owner ownerType : string) (projectNumber : Z)
    (fieldName optionName : string) (fields : list ProjectV2Field)
    (resp : Response) :
  fields_reply client owner ownerType projectNumber 100 s
  = (fields, Some resp, None, s1) ->
  let out := run client (resolveSingleSelectOptionByName owner ownerType
                           projectNumber fieldName optionName) s in
  trace out = [fields_call owner ownerType projectNumber 100] /\
  ((forall f, In f fields -> field_name f <> fieldName) ->
   result out = Returned ("", 0, Some (field_not_found fieldName))) /\
  (forall before f after fieldID,
      fields = before ++ f :: after ->
      (forall g, In g before -> field_name g <> fieldName) ->
      field_name f = fieldName -> field_ID f = Some fieldID ->
      ((forall o, In (Some o) (field_Options f) -> option_name o <> optionName) ->
       result out = Returned ("", 0, Some (option_not_found optionName fieldName))) /\
      (forall obefore o oafter optionID,
          field_Options f = obefore ++ Some o :: oafter ->
          (forall o', In (Some o') obefore -> option_name o' <> optionName) ->
          option_name o = optionName -> option_ID o = Some optionID ->
          result out = Returned (optionID, fieldID, None))).
Proof.
  intros Hreply. cbv zeta.
  rewrite run_resolveSingleSelectOptionByName, Hreply.
  unfold trace, result. simpl.
  split; [reflexivity |]. split.
  - intros Hnone. rewrite scan_fields_absent by exact Hnone. reflexivity.
  - intros before f after fieldID -> Hbefore Hname Hid.
    rewrite (scan_fields_first _ _ _ _ _ _ Hbefore Hname Hid). split.
    + intros Hnone. rewrite find_option_absent by exact Hnone. reflexivity.
    + intros obefore o oafter optionID Hopts Hobefore Honame Hoid.
      rewrite Hopts, (find_option_first _ _ _ _ _ Hobefore Honame Hoid).
      reflexivity.
Qed.

Lemma resolveSingleSelectOptionByName_priority_witness :
  let resolve fieldName optionName :=
    result (run (serve board)
              (resolveSingleSelectOptionByName "acme" "org" 7 fieldName optionName)
              tt) in
  resolve "Priority" "High" = Returned ("opt1", 42, None) /\
  resolve "Priority" "Medium"
  = Returned ("", 0, Some (option_not_found "Medium" "Priority")) /\
  resolve "Status" "High" = Returned ("", 0, Some (field_not_found "Status")).
Proof.
  cbv zeta.
  pose proof (fun fieldName optionName =>
                resolveSingleSelectOptionByName_exact_match (serve board) tt tt
                  "acme" "org" 7 fieldName optionName [priority_field]
                  (response 200 "" "") eq_refl) as H.
  cbv zeta in H. split; [| split].
  - destruct (H "Priority" "High") as (_ & _ & Hfield).
    destruct (Hfield [] priority_field [] 42 eq_refl) as [_ Hoption];
      [intros g [] | reflexivity | reflexivity |].
    apply (Hoption [] _ _ "opt1" eq_refl); [intros o' [] | reflexivity | reflexivity].
  - destruct (H "Priority" "Medium") as (_ & _ & Hfield).
    destruct (Hfield [] priority_field [] 42 eq_refl) as [Hnone _];
      [intros g [] | reflexivity | reflexivity |].
    apply Hnone. intros o [E | [E | []]]; injection E as <-; discriminate.
  - destruct (H "Status" "High") as (_ & Hnone & _).
    apply Hnone. intros f [<- | []]. discriminate.
Defined.

(** ** Listing projects of both owner kinds *)

Lemma omap_JProject (l : list MinimalProject) :
  omap (fun j => match j with JProject p => Some p | _ => None end)
       (map JProject l) = l.
Proof. induction l as [| p l IH]; [reflexivity |]. cbn. f_equal. exact IH. Qed.

Lemma append_tagged_elems (ownerType : string) (projects : list ProjectV2)
    (acc : slice MinimalProject) :
  elems (append_tagged ownerType acc projects)
  = elems acc ++ tag_all ownerType projects.
Proof.
  unfold append_tagged. revert acc.
  induction projects as [| p projects IH]; intros acc; simpl.
  - rewrite app_nil_r. reflexivity.
  - rewrite IH. unfold append, elems. simpl. rewrite <- app_assoc. reflexivity.
Qed.

Lemma listed_projects_response (note : json) (page : list (string * json))
    (projects : slice MinimalProject) :
  (page = [] \/ exists j, page = [("pageInfo", j)]) ->
  listed_projects
    (NewToolResultText
       [Json (JObject ([("note", note)] ++ page
                       ++ [("projects", marshal_slice JProject projects)]))])
  = elems projects /\
  listed_note
    (NewToolResultText
       [Json (JObject ([("note", note)] ++ page
                       ++ [("projects", marshal_slice JProject projects)]))])
  = Some note.
Proof.
  intros [-> | [j ->]]; unfold listed_projects, listed_note; simpl;
    (destruct projects as [l |]; simpl; [rewrite omap_JProject |]);
    split; reflexivity.
Qed.

(** What the function returns once both calls were answered. *)
Lemma run_listProjectsFromBothOwnerTypes {S : Type} (client : Client S) (s : S)
    (owner : string) (opts : ListProjectsOptions) :
  let '(u, s1) := client (ListUserProjects owner opts) s in
  let '(o, s2) := client (ListOrganizationProjects owner opts) s1 in
  reply_void u = false -> reply_void o = false ->
  exists page,
    (page = [] \/ exists j, page = [("pageInfo", j)]) /\
    run client (listProjectsFromBothOwnerTypes owner opts) s =
    (Returned
       (if negb (reply_ok 200 u) && negb (reply_ok 200 o)
        then (Some (both_not_found owner), None)
        else
          (Some (NewToolResultText
                   [Json (JObject
                            ([("note", JString [Str both_owner_types_note])] ++ page
                             ++ [("projects",
                                  marshal_slice JProject
                                    (append_tagged "org"
                                       (if reply_ok 200 u
                                        then append_tagged "user" None (reply_value u)
                                        else None)
                                       (if reply_ok 200 o then reply_value o else [])))
                                ]))]),
           None)),
     [ListUserProjects owner opts; ListOrganizationProjects owner opts], s2).
Proof.
  unfold listProjectsFromBothOwnerTypes, not_ok, succeeded, StatusOK. simpl.
  destruct (client (ListUserProjects owner opts) s) as [[[ups uresp] uerr] s1].
  destruct (client (ListOrganizationProjects owner opts) s1)
    as [[[ops oresp] oerr] s2] eqn:Eo.
  unfold reply_void, reply_ok, reply_value. simpl.
  intros Hu Ho.
  destruct uerr as [ue |], uresp as [ur |]; try discriminate; simpl;
    try (destruct (Z.eqb (StatusCode ur) 200) eqn:Eu; simpl);
    rewrite Eo; simpl;
    destruct oerr as [oe |], oresp as [or |]; try discriminate; simpl;
    try (destruct (Z.eqb (StatusCode or) 200) eqn:Eor; simpl);
    try (exists []; split; [left; reflexivity | reflexivity]);
    (eexists; split; [right; eexists; reflexivity | reflexivity]).
Qed.

(** C5: with the owner kind unspecified, list_projects reports failure
    only when both the user-scoped and the org-scoped call fail, and
    the failure is the combined not-found error naming the owner.  When
    exactly one call succeeds the other's failure is absorbed: the
    result is a success holding only the successful scope's projects,
    with the note on pagination. *)
Theorem listProjectsFromBothOwnerTypes_fails_only_when_both_fail {S : Type}
    (client : Client S) (s : S) (owner : string) (opts : ListProjectsOptions) :
  let '(u, s1) := client (ListUserProjects owner opts) s in
  let '(o, s2) := client (ListOrganizationProjects owner opts) s1 in
  reply_void u = false -> reply_void o = false ->
  let out := run client (listProjectsFromBothOwnerTypes owner opts) s in
  let note := Some (JString [Str both_owner_types_note]) in
  trace out = [ListUserProjects owner opts; ListOrganizationProjects owner opts] /\
  (reply_ok 200 u = false -> reply_ok 200 o = false ->
   result out = Returned (Some (both_not_found owner), None) /\
   IsError (both_not_found owner) = true /\
   names owner (result_text (both_not_found owner)) = true) /\
  (reply_ok 200 u = true -> reply_ok 200 o = false ->
   exists r, result out = Returned (Some r, None) /\ IsError r = false /\
             listed_projects r = tag_all "user" (reply_value u) /\
             listed_note r = note) /\
  (reply_ok 200 u = false -> reply_ok 200 o = true ->
   exists r, result out = Returned (Some r, None) /\ IsError r = false /\
             listed_projects r = tag_all "org" (reply_value o) /\
             listed_note r = note) /\
  (forall r, result out = Returned (Some r, None) -> IsError r = true ->
             reply_ok 200 u = false /\ reply_ok 200 o = false).
Proof.
  pose proof (run_listProjectsFromBothOwnerTypes client s owner opts) as Hrun.
  destruct (client (ListUserProjects owner opts) s) as [u s1].
  destruct (client (ListOrganizationProjects owner opts) s1) as [o s2].
  intros Hu Ho. destruct (Hrun Hu Ho) as (page & Hpage & ->). clear Hrun.
  unfold trace, result. cbn [fst snd].
  split; [reflexivity |]. split; [| split; [| split]].
  - intros -> ->. simpl. split; [reflexivity |]. split; [reflexivity |].
    unfold names. simpl. rewrite ?String.eqb_refl. simpl. apply orb_true_r.
  - intros -> ->. cbn [negb andb]. eexists.
    split; [reflexivity |]. split; [reflexivity |].
    destruct (listed_projects_response (JString [Str both_owner_types_note]) page
                (append_tagged "org" (append_tagged "user" None (reply_value u)) [])
                Hpage) as [-> ->].
    split; [| reflexivity]. rewrite !append_tagged_elems. simpl.
    apply app_nil_r.
  - intros -> ->. cbn [negb andb]. eexists.
    split; [reflexivity |]. split; [reflexivity |].
    destruct (listed_projects_response (JString [Str both_owner_types_note]) page
                (append_tagged "org" None (reply_value o)) Hpage) as [-> ->].
    split; [| reflexivity]. apply append_tagged_elems.
  - intros r Hr Herr.
    destruct (reply_ok 200 u), (reply_ok 200 o); simpl in Hr;
      injection Hr as <-; simpl in Herr; try discriminate.
    split; reflexivity.
Qed.

Lemma listProjectsFromBothOwnerTypes_one_scope_witness :
  (exists r,
      result (run (serve board) (listProjectsFromBothOwnerTypes "acme" no_options) tt)
      = Returned (Some r, None) /\ IsError r = false /\
      listed_projects r = [{| mp_Project := roadmap; OwnerType := "org" |}]) /\
  result (run (serve offline) (listProjectsFromBothOwnerTypes "acme" no_options) tt)
  = Returned (Some (both_not_found "acme"), None).
Proof.
  split.
  - destruct (listProjectsFromBothOwnerTypes_fails_only_when_both_fail
                (serve board) tt "acme" no_options eq_refl eq_refl)
      as (_ & _ & _ & Horg & _).
    destruct (Horg eq_refl eq_refl) as (r & Hr & Herr & Hlist & _).
    exists r. split; [exact Hr |]. split; [exact Herr | exact Hlist].
  - destruct (listProjectsFromBothOwnerTypes_fails_only_when_both_fail
                (serve offline) tt "acme" no_options eq_refl eq_refl)
      as (_ & Hboth & _).
    destruct (Hboth eq_refl eq_refl) as (Hr & _). exact Hr.
Defined.

(** C6: with the owner kind unspecified and both calls successful, the
    listed projects are the user-scoped results followed by the
    org-scoped results, so their number is the sum of the two counts,
    and each element carries the owner_type of the call it came from. *)
Theorem listProjectsFromBothOwnerTypes_unions_both_scopes {S : Type}
    (client : Client S) (s : S) (owner : string) (opts : ListProjectsOptions) :
  let '(u, s1) := client (ListUserProjects owner opts) s in
  let '(o, s2) := client (ListOrganizationProjects owner opts) s1 in
  reply_ok 200 u = true -> reply_ok 200 o = true ->
  exists r,
    result (run client (listProjectsFromBothOwnerTypes owner opts) s)
    = Returned (Some r, None) /\
    IsError r = false /\
    listed_projects r
    = tag_all "user" (reply_value u) ++ tag_all "org" (reply_value o) /\
    length (listed_projects r)
    = (length (reply_value u) + length (reply_value o))%nat /\
    (forall i p, reply_value u !! i = Some p ->
                 listed_projects r !! i
                 = Some {| mp_Project := p; OwnerType := "user" |}) /\
    (forall i p, reply_value o !! i = Some p ->
                 listed_projects r !! (length (reply_value u) + i)%nat
                 = Some {| mp_Project := p; OwnerType := "org" |}).
Proof.
  pose proof (run_listProjectsFromBothOwnerTypes client s owner opts) as Hrun.
  destruct (client (ListUserProjects owner opts) s) as [u s1].
  destruct (client (ListOrganizationProjects owner opts) s1) as [o s2].
  intros Hu Ho.
  assert (Hvoid : forall A (r : rest A), reply_ok 200 r = true -> reply_void r = false)
    by (intros A [[v [resp |]] [e |]]; simpl; congruence).
  destruct (Hrun (Hvoid _ u Hu) (Hvoid _ o Ho)) as (page & Hpage & ->). clear Hrun.
  unfold result. cbn [fst snd]. rewrite Hu, Ho. cbn [negb andb].
  eexists. split; [reflexivity |]. split; [reflexivity |].
  destruct (listed_projects_response (JString [Str both_owner_types_note]) page
              (append_tagged "org" (append_tagged "user" None (reply_value u))
                 (reply_value o)) Hpage) as [-> _].
  rewrite !append_tagged_elems. simpl.
  assert (Hlen : forall t l, length (tag_all t l) = length l)
    by (intros; apply length_map).
  split; [reflexivity |]. split; [| split].
  - rewrite length_app, !Hlen. reflexivity.
  - intros i p Hi. rewrite lookup_app_l.
    + unfold tag_all. rewrite list_lookup_fmap, Hi. reflexivity.
    + rewrite Hlen. apply lookup_lt_Some in Hi. exact Hi.
  - intros i p Hi. rewrite lookup_app_r; rewrite Hlen; [| lia].
    replace (length (reply_value u) + i - length (reply_value u))%nat with i by lia.
    unfold tag_all. rewrite list_lookup_fmap, Hi. reflexivity.
Qed.

Lemma listProjectsFromBothOwnerTypes_union_witness :
  exists r,
    result (run (serve shared) (listProjectsFromBothOwnerTypes "octo" no_options) tt)
    = Returned (Some r, None) /\
    listed_projects r
    = [{| mp_Project := backlog; OwnerType := "user" |};
       {| mp_Project := sprint; OwnerType := "user" |};
       {| mp_Project := roadmap; OwnerType := "org" |}] /\
    length (listed_projects r) = 3%nat.
Proof.
  destruct (listProjectsFromBothOwnerTypes_unions_both_scopes
              (serve shared) tt "octo" no_options eq_refl eq_refl)
    as (r & Hr & _ & Hlist & Hlen & _).
  exists r. split; [exact Hr |]. split; [exact Hlist | exact Hlen].
Defined.

(** ** Deleting a project item *)

Lemma run_deleteProjectItem {S : Type} (client : Client S) (s : S)
    (owner ownerType : string) (projectNumber itemID : Z) :
  run client (deleteProjectItem owner ownerType projectNumber itemID) s =
  let '(resp, err, s1) :=
    delete_reply client owner ownerType projectNumber itemID s in
  (match err, resp with
   | Some e, _ =>
       Returned (Some (NewGitHubAPIErrorResponse ProjectDeleteFailedError resp e),
                 None)
   | None, None => Panicked
   | None, Some r =>
       if Z.eqb (StatusCode r) 204 then Returned (Some deleted, None)
       else match Body r with
            | inl body =>
                Returned (Some (NewGitHubAPIStatusErrorResponse
                                  ProjectDeleteFailedError r body), None)
            | inr e =>
                Returned (None, Some [Str "failed to read response body: "; Sub e])
            end
   end,
   [delete_call owner ownerType projectNumber itemID], s1).
Proof.
  unfold deleteProjectItem, delete_reply, delete_call, StatusNoContent. simpl.
  destruct (String.eqb ownerType "org"); simpl;
    (match goal with |- context [client ?c s] =>
       destruct (client c s) as [[resp err] s1] end);
    destruct err as [e |]; [reflexivity | | reflexivity |];
    (destruct resp as [r |]; [| reflexivity]);
    simpl; (destruct (Z.eqb (StatusCode r) 204); simpl; [reflexivity |]);
    destruct (Body r); reflexivity.
Qed.

(** C7: delete_project_item succeeds, with the deletion confirmation,
    exactly when the call returns no error and the status 204.  Every
    other status, 200 included, gives a failure that carries the
    upstream body (or, when the body cannot be read, the read error),
    and a transport error gives a failure as well. *)
Theorem deleteProjectItem_succeeds_only_on_no_content {S : Type}
    (client : Client S) (s : S) (owner ownerType : string)
    (projectNumber itemID : Z) :
  let '(resp, err, s1) :=
    delete_reply client owner ownerType projectNumber itemID s in
  let out := run client (deleteProjectItem owner ownerType projectNumber itemID) s in
  trace out = [delete_call owner ownerType projectNumber itemID] /\
  (is_success (result out) <->
   err = None /\ exists r, resp = Some r /\ StatusCode r = 204) /\
  (forall r, err = None -> resp = Some r -> StatusCode r = 204 ->
             result out = Returned (Some deleted, None)) /\
  (forall r body,
      err = None -> resp = Some r -> StatusCode r <> 204 -> Body r = inl body ->
      let failure := NewGitHubAPIStatusErrorResponse ProjectDeleteFailedError r body in
      result out = Returned (Some failure, None) /\
      IsError failure = true /\ names body (result_text failure) = true) /\
  (forall r e,
      err = None -> resp = Some r -> StatusCode r <> 204 -> Body r = inr e ->
      result out = Returned (None, Some [Str "failed to read response body: "; Sub e])) /\
  (forall e,
      err = Some e ->
      let failure := NewGitHubAPIErrorResponse ProjectDeleteFailedError resp e in
      result out = Returned (Some failure, None) /\ IsError failure = true).
Proof.
  rewrite run_deleteProjectItem.
  destruct (delete_reply client owner ownerType projectNumber itemID s)
    as [[resp err] s1].
  unfold trace, result, is_success. cbn [fst snd].
  split; [reflexivity |]. split; [| split; [| split; [| split]]].
  - split.
    + intros (res & Hres & Herr).
      destruct err as [e |]; [injection Hres as <-; discriminate |].
      destruct resp as [r |]; [| discriminate].
      destruct (Z.eqb_spec (StatusCode r) 204) as [E | _].
      * split; [reflexivity |]. exists r. split; [reflexivity | exact E].
      * destruct (Body r); [injection Hres as <- |]; discriminate.
    + intros (-> & r & -> & E). rewrite E. simpl.
      exists deleted. split; reflexivity.
  - intros r -> -> E. rewrite E. reflexivity.
  - intros r body -> -> E Hbody.
    destruct (Z.eqb_spec (StatusCode r) 204) as [E' | _]; [contradiction |].
    rewrite Hbody. cbv zeta. split; [reflexivity |]. split; [reflexivity |].
    unfold names. simpl. rewrite String.eqb_refl.
    destruct (String.eqb body ProjectDeleteFailedError), (String.eqb body ": ");
      reflexivity.
  - intros r e -> -> E Hbody.
    destruct (Z.eqb_spec (StatusCode r) 204) as [E' | _]; [contradiction |].
    rewrite Hbody. reflexivity.
  - intros e ->. cbv zeta. split; reflexivity.
Qed.

Lemma deleteProjectItem_status_200_witness :
  let delete f := result (run (serve f) (deleteProjectItem "octo" "user" 8 1001) tt) in
  delete shared
  = Returned (Some (NewGitHubAPIStatusErrorResponse ProjectDeleteFailedError
                      (response 200 "" "item is archived") "item is archived"),
              None) /\
  delete board = Returned (Some deleted, None).
Proof.
  cbv zeta. split.
  - destruct (deleteProjectItem_succeeds_only_on_no_content
                (serve shared) tt "octo" "user" 8 1001)
      as (_ & _ & _ & Hbody & _).
    apply (Hbody (response 200 "" "item is archived") "item is archived");
      [reflexivity | reflexivity | discriminate | reflexivity].
  - destruct (deleteProjectItem_succeeds_only_on_no_content
                (serve board) tt "octo" "user" 8 1001)
      as (_ & _ & Hok & _).
    apply (Hok (response 204 "" "")); reflexivity.
Defined.

(** ** Page information *)

(** C8: the page info built from a response has hasNextPage exactly
    when the forward cursor is a non-empty string and hasPreviousPage
    exactly when the backward cursor is one; it carries both cursors
    as they are, and its encoding holds a cursor key only for a
    non-empty cursor.  From empty cursors it is hasNextPage false,
    hasPreviousPage false and no cursor key at all. *)
Theorem buildPageInfo_cursors (resp : Response) :
  let p := buildPageInfo resp in
  let j := marshal_pageInfo p in
  (HasNextPage p = true <-> After resp <> "") /\
  (HasPreviousPage p = true <-> Before resp <> "") /\
  NextCursor p = After resp /\
  PrevCursor p = Before resp /\
  json_lookup "hasNextPage" j = Some (JBool (HasNextPage p)) /\
  json_lookup "hasPreviousPage" j = Some (JBool (HasPreviousPage p)) /\
  json_lookup "nextCursor" j
  = (if String.eqb (After resp) "" then None else Some (JString [Str (After resp)])) /\
  json_lookup "prevCursor" j
  = (if String.eqb (Before resp) "" then None else Some (JString [Str (Before resp)])) /\
  (After resp = "" -> Before resp = "" ->
   j = JObject [("hasNextPage", JBool false); ("hasPreviousPage", JBool false)]).
Proof.
  cbv zeta. unfold marshal_pageInfo, buildPageInfo, omitempty. simpl.
  destruct (String.eqb_spec (After resp) "") as [Ea | Ea];
    destruct (String.eqb_spec (Before resp) "") as [Eb | Eb]; simpl;
    repeat match goal with |- _ /\ _ => split end;
    try reflexivity; try (split; congruence); try congruence.
Qed.

Lemma buildPageInfo_empty_cursors_witness :
  marshal_pageInfo (buildPageInfo (response 200 "" ""))
  = JObject [("hasNextPage", JBool false); ("hasPreviousPage", JBool false)] /\
  json_lookup "nextCursor" (marshal_pageInfo (buildPageInfo (response 200 "Y3Vyc29y" "")))
  = Some (JString [Str "Y3Vyc29y"]).
Proof.
  split.
  - destruct (buildPageInfo_cursors (response 200 "" ""))
      as (_ & _ & _ & _ & _ & _ & _ & _ & H).
    apply H; reflexivity.
  - destruct (buildPageInfo_cursors (response 200 "Y3Vyc29y" ""))
      as (_ & _ & _ & _ & _ & _ & H & _).
    exact H.
Defined.

(** ** The update payload *)

Lemma validateAndConvertToInt64_integer (value : any) :
  (exists n, validateAndConvertToInt64 value = inl n) <-> is_integer value.
Proof.
  destruct value; simpl;
    try (split; [intros [n H]; discriminate | intros []]);
    try (split; [intros _; exact I | intros _; eexists; reflexivity]).
  destruct (SFeqb (float64_of_int64 (int64_of_float64 f)) f); simpl; split;
    try (intros [n H]; discriminate); try discriminate;
    try (intros _; reflexivity); intros _; eexists; reflexivity.
Qed.

Example validateAndConvertToInt64_examples :
  validateAndConvertToInt64 (number 42) = inl 42 /\
  validateAndConvertToInt64 (AnyInt64 42) = inl 42 /\
  validateAndConvertToInt64 (AnyFloat64 one_and_a_half)
  = inr [Str "value must be a valid integer (got "; Float one_and_a_half; Str ")"] /\
  validateAndConvertToInt64 (AnyFloat64 S754_nan)
  = inr [Str "value must be a valid integer (got "; Float S754_nan; Str ")"] /\
  validateAndConvertToInt64 (AnyFloat64 two_to_the_63)
  = inr [Str "value must be a valid integer (got "; Float two_to_the_63; Str ")"] /\
  validateAndConvertToInt64 (number min_int64) = inl min_int64 /\
  validateAndConvertToInt64 (AnyString [Str "42"])
  = inr [Str "value must be a number (got "; Str "string"; Str ")"].
Proof. repeat split; vm_compute; reflexivity. Qed.

(** C9: the payload built from an updated_field object holds exactly
    one field entry, the given id with the given value; a value that is
    present and null is accepted and gives an entry whose value is
    null, which clears the field; updateProjectItem sends that one
    entry in a single update call.  The construction fails only when
    updated_field is not an object, when its id is missing or is not an
    integer, or when its value key is absent. *)
Theorem buildUpdateProjectItem_single_field (input : option (gmap string any)) :
  (forall payload,
      buildUpdateProjectItem input = inl payload ->
      length (Fields payload) = 1%nat /\
      exists m idField fieldID value,
        input = Some m /\ m !! "id" = Some idField /\
        validateAndConvertToInt64 idField = inl fieldID /\
        m !! "value" = Some value /\
        Fields payload = [{| update_ID := fieldID; update_Value := value |}]) /\
  (forall m idField fieldID,
      input = Some m -> m !! "id" = Some idField ->
      validateAndConvertToInt64 idField = inl fieldID ->
      m !! "value" = Some AnyNil ->
      buildUpdateProjectItem input
      = inl {| Fields := [{| update_ID := fieldID; update_Value := AnyNil |}] |}) /\
  ((exists e, buildUpdateProjectItem input = inr e) <->
   input = None \/
   exists m, input = Some m /\
             (m !! "id" = None \/
              (exists idField, m !! "id" = Some idField /\ ~ is_integer idField) \/
              m !! "value" = None)) /\
  (forall (S : Type) (client : Client S) (s : S) (owner ownerType : string)
          (projectNumber itemID : Z) payload,
      buildUpdateProjectItem input = inl payload ->
      trace (run client (updateProjectItem owner ownerType projectNumber itemID
                           input) s)
      = [update_call owner ownerType projectNumber itemID payload]).
Proof.
  unfold buildUpdateProjectItem.
  destruct input as [m |].
  2: { split; [intros ? H; discriminate |].
       split; [intros ? ? ? H; discriminate |].
       split; [| intros; discriminate].
       split; [intros _; left; reflexivity | intros _; eexists; reflexivity]. }
  destruct (m !! "id") as [idField |] eqn:Eid.
  2: { split; [intros ? H; discriminate |].
       split; [intros ? ? ? [= <-] H; congruence |].
       split; [| intros; discriminate].
       split; [| intros _; eexists; reflexivity].
       intros _. right. exists m. split; [reflexivity |]. left. exact Eid. }
  pose proof (validateAndConvertToInt64_integer idField) as Hint.
  destruct (validateAndConvertToInt64 idField) as [fieldID | err] eqn:Evalid.
  2: { split; [intros ? H; discriminate |].
       split; [intros ? ? ? [= <-] H1 H2; congruence |].
       split; [| intros; discriminate].
       split; [| intros _; eexists; reflexivity].
       intros _. right. exists m. split; [reflexivity |]. right. left.
       exists idField. split; [exact Eid |].
       intros Hi. apply Hint in Hi as [n Hn]. discriminate. }
  destruct (m !! "value") as [value |] eqn:Evalue.
  2: { split; [intros ? H; discriminate |].
       split; [intros ? ? ? [= <-] H1 H2 H3; congruence |].
       split; [| intros; discriminate].
       split; [| intros _; eexists; reflexivity].
       intros _. right. exists m. split; [reflexivity |]. right. right. exact Evalue. }
  split; [| split; [| split]].
  - intros payload H. injection H as H. subst payload. split; [reflexivity |].
    exists m, idField, fieldID, value. repeat split; assumption.
  - intros m' idField' fieldID' [= <-] H1 H2 H3.
    rewrite Eid in H1. injection H1 as <-.
    rewrite Evalid in H2. injection H2 as <-.
    rewrite Evalue in H3. injection H3 as ->. reflexivity.
  - split; [intros [e H]; discriminate |].
    intros [H | (m' & [= <-] & [H | [(idField' & H1 & H) | H]])];
      try congruence.
    rewrite Eid in H1. injection H1 as <-.
    contradiction H. apply Hint. eexists. reflexivity.
  - intros S client s owner ownerType projectNumber itemID payload H.
    injection H as H. subst payload.
    unfold updateProjectItem, buildUpdateProjectItem, update_call.
    rewrite Eid, Evalid, Evalue. simpl.
    destruct (String.eqb ownerType "org"); simpl;
      (match goal with |- context [client ?c s] =>
         destruct (client c s) as [[[item resp] err] s1] end);
      destruct err as [e |]; try reflexivity;
      (destruct resp as [r |]; [| reflexivity]);
      simpl; (destruct (negb (Z.eqb (StatusCode r) StatusOK)); [| reflexivity]);
      destruct (Body r); reflexivity.
Qed.

Lemma buildUpdateProjectItem_null_value_witness :
  buildUpdateProjectItem
    (Some (<["id" := number 42]> (<["value" := AnyNil]> ∅)))
  = inl {| Fields := [{| update_ID := 42; update_Value := AnyNil |}] |}.
Proof.
  destruct (buildUpdateProjectItem_single_field
              (Some (<["id" := number 42]> (<["value" := AnyNil]> ∅))))
    as (_ & Hnull & _).
  apply (Hnull _ (number 42) 42 eq_refl); vm_compute; reflexivity.
Defined.

(** ** Matching an item on the issue number alone *)

Lemma scan_items_first (repoOwner repoName : string) (issueNumber : Z)
    (before after : list ProjectV2Item) (item : ProjectV2Item) (id : Z) :
  scan_items repoOwner repoName issueNumber before = None ->
  item_matches repoOwner repoName issueNumber item = Some id ->
  scan_items repoOwner repoName issueNumber (before ++ item :: after) = Some id.
Proof.
  intros Hbefore Hitem. induction before as [| b before IH]; simpl.
  - rewrite Hitem. reflexivity.
  - simpl in Hbefore.
    destruct (item_matches repoOwner repoName issueNumber b); [discriminate |].
    exact (IH Hbefore).
Qed.

(** C10: the scan checks the repository of an item only as far as the
    item carries it.  An item of the wanted issue number whose
    repository is absent, or whose repository has neither a name nor an
    owner login, is a match whatever repository was asked for, and
    findProjectItemIDByIssue returns its numeric ID; a repository name
    or owner login that is present and differs is not a match. *)
Theorem item_matches_on_number_alone (repoOwner repoName : string)
    (issueNumber : Z) (item : ProjectV2Item) (id : Z)
    (content : ProjectV2ItemContent) (issue : Issue) :
  item_ID item = Some id -> item_Content item = Some content ->
  content_Issue content = Some issue -> issue_Number issue = Some issueNumber ->
  (lacks_repository issue ->
   item_matches repoOwner repoName issueNumber item = Some id /\
   forall (S : Type) (client : Client S) (s s1 : S) (owner ownerType : string)
          (projectNumber : Z) (before after : list ProjectV2Item) (resp : Response),
     items_reply client owner ownerType projectNumber 50 None s
     = (before ++ item :: after, Some resp, None, s1) ->
     scan_items repoOwner repoName issueNumber before = None ->
     run client (findProjectItemIDByIssue owner ownerType projectNumber
                   repoOwner repoName issueNumber) s
     = (Returned (id, None),
        [items_call owner ownerType projectNumber 50 None], s1)) /\
  (forall repo name,
      issue_Repository issue = Some repo -> repo_Name repo = Some name ->
      name <> repoName ->
      item_matches repoOwner repoName issueNumber item = None) /\
  (forall repo o login,
      issue_Repository issue = Some repo -> repo_Owner repo = Some o ->
      Login o = Some login -> login <> repoOwner ->
      item_matches repoOwner repoName issueNumber item = None).
Proof.
  intros Hid Hcontent Hissue Hnumber.
  assert (Hmatch : lacks_repository issue ->
                   item_matches repoOwner repoName issueNumber item = Some id).
  { unfold lacks_repository, item_matches.
    rewrite Hid, Hcontent, Hissue, Hnumber, Z.eqb_refl. simpl.
    destruct (issue_Repository issue) as [repo |]; [| reflexivity].
    intros [-> Howner].
    destruct (repo_Owner repo) as [o |]; [| reflexivity].
    rewrite Howner. reflexivity. }
  split; [| split].
  - intros Hlacks. split; [exact (Hmatch Hlacks) |].
    intros S client s s1 owner ownerType projectNumber before after resp
           Hreply Hbefore.
    unfold findProjectItemIDByIssue.
    rewrite find_pages_step, Hreply.
    rewrite (scan_items_first _ _ _ _ _ _ _ Hbefore (Hmatch Hlacks)).
    reflexivity.
  - intros repo name Hrepo Hname Hne. unfold item_matches.
    rewrite Hid, Hcontent, Hissue, Hnumber, Z.eqb_refl, Hrepo, Hname. simpl.
    destruct (String.eqb_spec name repoName); [contradiction | reflexivity].
  - intros repo o login Hrepo Howner Hlogin Hne. unfold item_matches.
    rewrite Hid, Hcontent, Hissue, Hnumber, Z.eqb_refl, Hrepo, Howner, Hlogin.
    simpl. destruct (String.eqb_spec login repoOwner); [contradiction |].
    destruct (repo_Name repo) as [name |]; [| reflexivity].
    destruct (negb (String.eqb name repoName)); reflexivity.
Qed.

Lemma item_matches_on_number_alone_witness :
  run (serve bare_board)
      (findProjectItemIDByIssue "acme" "org" 7 "someone" "elsewhere" 5) tt
  = (Returned (1005, None), [items_call "acme" "org" 7 50 None], tt).
Proof.
  destruct (item_matches_on_number_alone "someone" "elsewhere" 5 (bare_item 5) 1005
              _ _ eq_refl eq_refl eq_refl eq_refl) as (Hlacks & _).
  destruct (Hlacks I) as (_ & Hfind).
  apply (Hfind unit (serve bare_board) tt tt "acme" "org" 7 [] [] (response 200 "" ""));
    reflexivity.
Defined.

(** ** Tagging an item with Priority and Size *)

Lemma setPriorityAndSize_blocks (owner ownerType : string)
    (projectNumber itemID : Z) (priority size : string) :
  setPriorityAndSize owner ownerType projectNumber itemID priority size =
  bind (if negb (String.eqb priority "")
        then field_block owner ownerType projectNumber itemID
               "Priority: " "set Priority: " "Priority" priority None
               [Str "Priority="; Str priority]
        else Ret (inl None))
       (fun r =>
          match r with
          | inr e => Ret (None, Some e)
          | inl updates =>
              bind (if negb (String.eqb size "")
                    then field_block owner ownerType projectNumber itemID
                           "Size: " "set Size: " "Size" size updates
                           [Str "Size="; Str size]
                    else Ret (inl updates))
                   (fun r =>
                      match r with
                      | inr e => Ret (None, Some e)
                      | inl updates => Ret (updates, None)
                      end)
          end).
Proof. reflexivity. Qed.

Lemma run_field_block {S : Type} (client : Client S) (s : S)
    (owner ownerType : string) (projectNumber itemID : Z)
    (failed unset name value : string) (updates : slice text) (entry : text) :
  String.eqb value "" = false ->
  run client (field_block owner ownerType projectNumber itemID failed unset
                name value updates entry) s =
  let '(e, tr, s1) :=
    field_step client owner ownerType projectNumber itemID name value s in
  (match e with
   | ResolutionFailed e => Returned (inr [Str failed; Sub e])
   | UpdateErrored e => Returned (inr [Str unset; Sub e])
   | StepPanicked => Panicked
   | StepSkipped | UpdateApplied | UpdateRefused =>
       Returned (inl (append updates entry))
   end, tr, s1).
Proof.
  intros Hvalue. unfold field_block, field_step, update_field, mbind, Prog_bind.
  rewrite Hvalue, run_bind. unfold slice, error, text.
  destruct (@run S (string * Z * option (list piece)) client
              (resolveSingleSelectOptionByName owner ownerType
                 projectNumber name value) s)
    as [[[[[optionID fieldID] [e |]] |] tr] s1]; cbn [run].
  - rewrite app_nil_r. reflexivity.
  - rewrite !run_bind. unfold tool_result, slice, error, text.
    destruct (@run S (option CallToolResult * option (list piece)) client
                (updateProjectItem owner ownerType projectNumber itemID
                   (field_update fieldID optionID)) s1)
      as [[[[r [e |]] |] tr'] s2]; cbn [run].
    + rewrite !app_nil_r. destruct r; reflexivity.
    + rewrite !app_nil_r. destruct r as [r |]; [destruct (IsError r) |]; reflexivity.
    + reflexivity.
  - reflexivity.
Qed.

Lemma field_step_not_skipped {S : Type} (client : Client S) (s : S)
    (owner ownerType : string) (projectNumber itemID : Z) (name value : string) :
  String.eqb value "" = false ->
  (field_step client owner ownerType projectNumber itemID name value s).1.1
  <> StepSkipped.
Proof.
  intros Hvalue. unfold field_step. rewrite Hvalue.
  destruct (run client (resolveSingleSelectOptionByName owner ownerType
                          projectNumber name value) s)
    as [[[[[optionID fieldID] [e |]] |] tr] s1]; simpl; try discriminate.
  destruct (run client (updateProjectItem owner ownerType projectNumber itemID
                          (field_update fieldID optionID)) s1)
    as [[[[[r |] [e |]] |] tr'] s2]; simpl; try discriminate.
  destruct (IsError r); discriminate.
Qed.

Lemma run_updateProjectItem {S : Type} (client : Client S) (s : S)
    (owner ownerType : string) (projectNumber itemID : Z)
    (fieldValue : option (gmap string any)) :
  run client (updateProjectItem owner ownerType projectNumber itemID fieldValue) s =
  match buildUpdateProjectItem fieldValue with
  | inr err => (Returned (Some (NewToolResultError err), None), [], s)
  | inl payload =>
      let '(updatedItem, resp, err, s1) :=
        update_reply client owner ownerType projectNumber itemID payload s in
      (match err, resp with
       | Some e, _ =>
           Returned (Some (NewGitHubAPIErrorResponse ProjectUpdateFailedError resp e),
                     None)
       | None, None => Panicked
       | None, Some r =>
           if Z.eqb (StatusCode r) 200
           then Returned (Some (NewToolResultText [Json (JItem updatedItem)]), None)
           else match Body r with
                | inl body =>
                    Returned (Some (NewGitHubAPIStatusErrorResponse
                                      ProjectUpdateFailedError r body), None)
                | inr e =>
                    Returned (None, Some [Str "failed to read response body: "; Sub e])
                end
       end,
       [update_call owner ownerType projectNumber itemID payload], s1)
  end.
Proof.
  unfold updateProjectItem, update_reply, update_call, StatusOK.
  destruct (buildUpdateProjectItem fieldValue) as [payload | err]; [| reflexivity].
  simpl.
  destruct (String.eqb ownerType "org"); simpl;
    (match goal with |- context [client ?c s] =>
       destruct (client c s) as [[[updatedItem resp] err] s1] end);
    destruct err as [e |]; [reflexivity | | reflexivity |];
    (destruct resp as [r |]; [| reflexivity]);
    simpl; (destruct (Z.eqb (StatusCode r) 200); simpl; [reflexivity |]);
    destruct (Body r); reflexivity.
Qed.

Lemma buildUpdateProjectItem_field_update (fieldID : Z) (optionID : string) :
  buildUpdateProjectItem (field_update fieldID optionID)
  = inl (option_update fieldID optionID).
Proof. vm_compute. reflexivity. Qed.

Lemma run_field_block_or_skip {S : Type} (client : Client S) (s : S)
    (owner ownerType : string) (projectNumber itemID : Z)
    (failed unset name value : string) (updates : slice text) (entry : text) :
  run client (if negb (String.eqb value "")
              then field_block owner ownerType projectNumber itemID failed unset
                     name value updates entry
              else Ret (inl updates)) s =
  let '(e, tr, s1) :=
    field_step client owner ownerType projectNumber itemID name value s in
  (match e with
   | ResolutionFailed e => Returned (inr [Str failed; Sub e])
   | UpdateErrored e => Returned (inr [Str unset; Sub e])
   | StepPanicked => Panicked
   | StepSkipped => Returned (inl updates)
   | UpdateApplied | UpdateRefused => Returned (inl (append updates entry))
   end, tr, s1).
Proof.
  destruct (String.eqb value "") eqn:Evalue; cbn [negb].
  - unfold field_step. rewrite Evalue. reflexivity.
  - rewrite run_field_block by exact Evalue.
    pose proof (field_step_not_skipped client s owner ownerType projectNumber
                  itemID name value Evalue) as Hns.
    destruct (field_step client owner ownerType projectNumber itemID name value s)
      as [[e tr] s1].
    destruct e; try reflexivity. contradiction Hns. reflexivity.
Qed.







(** An update the API refuses is not seen by setPriorityAndSize:
    updateProjectItem reports it in the tool result and returns a nil
    error, so the step is recorded as applied. *)
Remark setPriorityAndSize_records_refused_update :
  result (run (serve (with_update board (None, Some (response 500 "" "boom"), None)))
            (setPriorityAndSize "acme" "org" 7 1073 "High" "") tt)
  = Returned (Some [[Str "Priority="; Str "High"]], None).
Proof. vm_compute. reflexivity. Qed.

(** * Further properties of the file *)

(** ** Calls a program can issue *)

Lemma only_bind {A B : Type} (P : Call -> Prop) (p : Prog A) (f : A -> Prog B) :
  only P p -> (forall a, only P (f a)) -> only P (bind p f).
Proof.
  intros Hp Hf. induction p as [a | | c k IH]; simpl in *.
  - apply Hf.
  - exact I.
  - destruct Hp as [Hc Hk]. split; [exact Hc |]. intros r. apply IH, Hk.
Qed.

Lemma only_weaken {A : Type} (P Q : Call -> Prop) (p : Prog A) :
  (forall c, P c -> Q c) -> only P p -> only Q p.
Proof.
  intros HPQ. induction p as [a | | c k IH]; simpl; try exact (fun _ => I).
  intros [Hc Hk]. split; [apply HPQ, Hc |]. intros r. apply IH, Hk.
Qed.

Lemma only_run {S A : Type} (P : Call -> Prop) (client : Client S)
    (p : Prog A) (s : S) :
  only P p -> Forall P (trace (run client p s)).
Proof.
  revert s. induction p as [a | | c k IH]; intros s Hp; simpl.
  - constructor.
  - constructor.
  - destruct Hp as [Hc Hk]. destruct (client c s) as [r s1].
    specialize (IH r s1 (Hk r)).
    destruct (run client (k r) s1) as [[o tr] s2].
    unfold trace in *. simpl in *. constructor; assumption.
Qed.

Lemma only_call (P : Call -> Prop) (c : Call) : P c -> only P (call c).
Proof. intros Hc. split; [exact Hc | intros r; exact I]. Qed.

(** ** Pagination options *)

Lemma extractPaginationOptionsFromArgs_bounded (D : Decoders)
    (args : gmap string any) (opts : ListProjectsPaginationOptions) :
  extractPaginationOptionsFromArgs D args = inl opts -> bounded_page opts.
Proof.
  unfold extractPaginationOptionsFromArgs, MaxProjectsPerPage.
  destruct (OptionalIntParamWithDefault D args "per_page" 50) as [perPage [e |]];
    [discriminate |].
  destruct (OptionalParam D args "after") as [after [e |]]; [discriminate |].
  destruct (OptionalParam D args "before") as [before [e |]]; [discriminate |].
  intros [= <-]. unfold bounded_page, MaxProjectsPerPage. simpl.
  split; [| split].
  - eexists. split; [reflexivity |].
    destruct (Z.ltb_spec 50 perPage); lia.
  - destruct (String.eqb_spec after ""); simpl; congruence.
  - destruct (String.eqb_spec before ""); simpl; congruence.
Qed.

(** X1: when its three decoders succeed, extractPaginationOptionsFromArgs
    returns the requested page size capped at 50 (a size of 50 or less,
    zero and negative sizes included, is kept as it is) and carries a
    cursor only when the decoded cursor is not the empty string. *)
Theorem extractPaginationOptionsFromArgs_caps_page_size (D : Decoders)
    (args : gmap string any) (perPage : Z) (after before : string) :
  OptionalIntParamWithDefault D args "per_page" 50 = (perPage, None) ->
  OptionalParam D args "after" = (after, None) ->
  OptionalParam D args "before" = (before, None) ->
  exists opts,
    extractPaginationOptionsFromArgs D args = inl opts /\
    PerPage opts = Some (Z.min perPage 50) /\
    opt_After opts = (if String.eqb after "" then None else Some after) /\
    opt_Before opts = (if String.eqb before "" then None else Some before) /\
    bounded_page opts.
Proof.
  intros Hp Ha Hb.
  destruct (extractPaginationOptionsFromArgs D args) as [opts | e] eqn:E.
  - exists opts. split; [reflexivity |].
    pose proof (extractPaginationOptionsFromArgs_bounded D args opts E) as Hbound.
    unfold extractPaginationOptionsFromArgs, MaxProjectsPerPage in E.
    rewrite Hp, Ha, Hb in E. injection E as <-. simpl.
    repeat split; try apply Hbound.
    + destruct (Z.ltb_spec 50 perPage); f_equal; lia.
    + destruct (String.eqb after ""); reflexivity.
    + destruct (String.eqb before ""); reflexivity.
  - unfold extractPaginationOptionsFromArgs, MaxProjectsPerPage in E.
    rewrite Hp, Ha, Hb in E. discriminate.
Qed.

Lemma extractPaginationOptionsFromArgs_oversized_witness :
  exists opts,
    extractPaginationOptionsFromArgs plain
      (<["per_page" := number 500]> (<["after" := text_arg "Y3Vy"]> ∅))
    = inl opts /\
    PerPage opts = Some 50 /\ opt_After opts = Some "Y3Vy" /\ opt_Before opts = None.
Proof.
  destruct (extractPaginationOptionsFromArgs_caps_page_size plain
              (<["per_page" := number 500]> (<["after" := text_arg "Y3Vy"]> ∅))
              500 "Y3Vy" "")
    as (opts & H & Hp & Ha & Hb & _); [vm_compute; reflexivity .. |].
  exists opts. repeat split; assumption.
Defined.

Lemma only_listProjectsFromBothOwnerTypes (owner : string)
    (opts : ListProjectsOptions) :
  bounded_page (Pagination opts) ->
  only is_bounded_list (listProjectsFromBothOwnerTypes owner opts).
Proof.
  intros Hb. unfold listProjectsFromBothOwnerTypes. simpl.
  split; [exact Hb |]. intros [[ups uresp] uerr].
  destruct uerr, uresp; simpl; try exact I;
    (split; [exact Hb |]); intros [[ops oresp] oerr];
    destruct oerr, oresp; simpl; try exact I;
    repeat match goal with |- context [if ?b then _ else _] => destruct b end;
    simpl; exact I.
Qed.

(** X2: whatever the arguments, the decoders and the owner type, every
    call that listProjects, listProjectFields and listProjectItems
    issue is a list call with a page size of at most 50 and without an
    empty cursor. *)
Theorem list_functions_send_bounded_pages {S : Type} (client : Client S) (s : S)
    (D : Decoders) (E : Encoders) (args : gmap string any)
    (owner ownerType : string) :
  Forall is_bounded_list
    (trace (run client (listProjects D args owner ownerType) s)) /\
  Forall is_bounded_list
    (trace (run client (listProjectFields D E args owner ownerType) s)) /\
  Forall is_bounded_list
    (trace (run client (listProjectItems D E args owner ownerType) s)).
Proof.
  split; [| split]; apply only_run.
  - unfold listProjects.
    destruct (OptionalParam D args "query") as [q [e |]]; [exact I |].
    pose proof (extractPaginationOptionsFromArgs_bounded D args) as Hb.
    destruct (extractPaginationOptionsFromArgs D args) as [pg | e]; [| exact I].
    specialize (Hb pg eq_refl).
    destruct (String.eqb ownerType "").
    + apply only_listProjectsFromBothOwnerTypes. exact Hb.
    + destruct (String.eqb ownerType "org"); simpl;
        (split; [exact Hb |]); intros [[ps resp] err];
        destruct err, resp; exact I.
  - unfold listProjectFields.
    destruct (RequiredInt D args "project_number") as [n [e |]]; [exact I |].
    pose proof (extractPaginationOptionsFromArgs_bounded D args) as Hb.
    destruct (extractPaginationOptionsFromArgs D args) as [pg | e]; [| exact I].
    specialize (Hb pg eq_refl).
    destruct (String.eqb ownerType "org"); simpl;
      (split; [exact Hb |]); intros [[ps resp] err];
      destruct err, resp; exact I.
  - unfold listProjectItems.
    destruct (RequiredInt D args "project_number") as [n [e |]]; [exact I |].
    destruct (OptionalParam D args "query") as [q [e |]]; [exact I |].
    destruct (OptionalBigIntArrayParam D args "fields") as [fs [e |]]; [exact I |].
    pose proof (extractPaginationOptionsFromArgs_bounded D args) as Hb.
    destruct (extractPaginationOptionsFromArgs D args) as [pg | e]; [| exact I].
    specialize (Hb pg eq_refl).
    destruct (String.eqb ownerType "org"); simpl;
      (split; [exact Hb |]); intros [[ps resp] err];
      destruct err, resp; exact I.
Qed.

(** ** Listing projects of a given owner kind *)

(** X3: with a non-empty owner type, listProjects makes exactly one
    call: to the organization endpoint when the owner type is "org",
    and to the user endpoint for every other string.  When the call
    returns no error the result is a success whatever the HTTP status:
    it lists the returned projects in order, each tagged with the owner
    type as it was given, as an array also when there is none, with the
    page info of the response; an error of the call gives the API error
    response. *)
Theorem listProjects_of_given_owner_type {S : Type} (client : Client S) (s : S)
    (D : Decoders) (args : gmap string any) (owner ownerType query : string)
    (pagination : ListProjectsPaginationOptions) :
  OptionalParam D args "query" = (query, None) ->
  extractPaginationOptionsFromArgs D args = inl pagination ->
  ownerType <> "" ->
  let opts := {| Pagination := pagination;
                 Query := if String.eqb query "" then None else Some query |} in
  let '(projects, resp, err, s1) := projects_reply client owner ownerType opts s in
  let out := run client (listProjects D args owner ownerType) s in
  trace out = [projects_call owner ownerType opts] /\
  (forall r, err = None -> resp = Some r ->
     exists res,
       result out = Returned (Some res, None) /\ IsError res = false /\
       listed_projects res = tag_all ownerType projects /\
       result_text res
       = [Json (JObject [("pageInfo", marshal_pageInfo (buildPageInfo r));
                         ("projects",
                          JArray (map JProject (tag_all ownerType projects)))])]) /\
  (forall e, err = Some e ->
     result out
     = Returned (Some (NewGitHubAPIErrorResponse "failed to list projects" resp e),
                 None)).
Proof.
  intros Hq Hpg Hne. cbv zeta.
  unfold listProjects, projects_reply, projects_call. rewrite Hq, Hpg.
  destruct (String.eqb_spec ownerType "") as [E | _]; [contradiction |].
  replace (if negb (String.eqb query "") then Some query else None)
    with (if String.eqb query "" then None else Some query)
    by (destruct (String.eqb query ""); reflexivity).
  assert (Htag : forall projects,
             append_tagged ownerType (Some []) projects
             = Some (tag_all ownerType projects)).
  { intros projects.
    pose proof (append_tagged_elems ownerType projects (Some [])) as Hel.
    unfold append_tagged in *.
    assert (Hsome : forall l acc,
               exists l', foldl (fun acc project =>
                                   append acc (with_OwnerType
                                                 (convertToMinimalProject project)
                                                 ownerType)) (Some acc) l = Some l').
    { induction l as [| p l IH]; intros acc; simpl; [eexists; reflexivity |].
      apply IH. }
    destruct (Hsome projects []) as [l' Hl']. rewrite Hl' in *.
    simpl in Hel. congruence. }
  destruct (String.eqb ownerType "org"); simpl;
    (match goal with |- context [client ?c s] =>
       destruct (client c s) as [[[projects resp] err] s1] end);
    unfold trace, result; destruct err as [e |]; simpl.
  all: try (split; [reflexivity |]; split; [intros r H; discriminate |];
            intros e' [= <-]; reflexivity).
  all: destruct resp as [r |]; simpl;
    (split; [reflexivity |]); (split; [| intros e H; discriminate]);
    intros r' _ H; try discriminate H; injection H as <-;
    eexists; (split; [reflexivity |]); (split; [reflexivity |]);
    rewrite Htag; unfold listed_projects; simpl; rewrite omap_JProject;
    split; reflexivity.
Qed.

Lemma listProjects_of_given_owner_type_witness :
  let out := run (serve shared)
               (listProjects plain (<["query" := text_arg "is:open"]> ∅)
                  "octo" "team") tt in
  trace out
  = [ListUserProjects "octo"
       {| Pagination := {| PerPage := Some 50; opt_After := None;
                           opt_Before := None |};
          Query := Some "is:open" |}] /\
  exists res, result out = Returned (Some res, None) /\
              listed_projects res
              = [{| mp_Project := backlog; OwnerType := "team" |};
                 {| mp_Project := sprint; OwnerType := "team" |}].
Proof.
  cbv zeta.
  pose proof (listProjects_of_given_owner_type (serve shared) tt plain
                (<["query" := text_arg "is:open"]> ∅) "octo" "team" "is:open"
                {| PerPage := Some 50; opt_After := None; opt_Before := None |})
    as H.
  destruct H as (Htrace & Hok & _);
    [vm_compute; reflexivity | vm_compute; reflexivity | discriminate |].
  split; [exact Htrace |].
  destruct (Hok (response 200 "u2" "") eq_refl eq_refl) as (res & Hres & _ & Hl & _).
  exists res. split; [exact Hres | exact Hl].
Defined.

(** ** The page info of a listing of both owner kinds *)

(** X4: in the listing of both owner kinds the page info is that of the
    organization response whenever the organization call succeeds, so
    the cursors of a successful user call are dropped when both
    succeed; the page info of the user response is given only when the
    organization call fails. *)
Theorem listProjectsFromBothOwnerTypes_page_info_source {S : Type}
    (client : Client S) (s : S) (owner : string) (opts : ListProjectsOptions) :
  let '(u, s1) := client (ListUserProjects owner opts) s in
  let '(o, s2) := client (ListOrganizationProjects owner opts) s1 in
  let out := run client (listProjectsFromBothOwnerTypes owner opts) s in
  reply_void u = false -> reply_void o = false ->
  (forall r, reply_ok 200 o = true -> reply_resp o = Some r ->
     exists res, result out = Returned (Some res, None) /\
                 listed_page_info res = Some (marshal_pageInfo (buildPageInfo r))) /\
  (forall r, reply_ok 200 o = false -> reply_ok 200 u = true ->
             reply_resp u = Some r ->
     exists res, result out = Returned (Some res, None) /\
                 listed_page_info res = Some (marshal_pageInfo (buildPageInfo r))).
Proof.
  unfold listProjectsFromBothOwnerTypes, not_ok, succeeded, StatusOK. simpl.
  destruct (client (ListUserProjects owner opts) s) as [[[ups uresp] uerr] s1].
  destruct (client (ListOrganizationProjects owner opts) s1)
    as [[[ops oresp] oerr] s2] eqn:Eo.
  unfold reply_void, reply_ok, reply_resp, result. simpl.
  intros Hu Ho.
  destruct uerr as [ue |], uresp as [ur |]; try discriminate; simpl;
    try (destruct (Z.eqb (StatusCode ur) 200) eqn:Eu; simpl);
    rewrite Eo; simpl;
    destruct oerr as [oe |], oresp as [or |]; try discriminate; simpl;
    try (destruct (Z.eqb (StatusCode or) 200) eqn:Eor; simpl);
    (split; intros r; try discriminate);
    intros; try discriminate;
    repeat match goal with H : Some _ = Some _ |- _ => injection H as <- end;
    eexists; split; reflexivity.
Qed.

Lemma listProjectsFromBothOwnerTypes_page_info_witness :
  exists res,
    result (run (serve shared) (listProjectsFromBothOwnerTypes "octo" no_options) tt)
    = Returned (Some res, None) /\
    listed_page_info res
    = Some (JObject [("hasNextPage", JBool true); ("hasPreviousPage", JBool false);
                     ("nextCursor", JString [Str "o2"])]).
Proof.
  destruct (listProjectsFromBothOwnerTypes_page_info_source
              (serve shared) tt "octo" no_options eq_refl eq_refl) as [Horg _].
  exact (Horg (response 200 "o2" "") eq_refl eq_refl).
Defined.

(** ** Errors while scanning the pages of items *)

Lemma find_pages_error {S : Type} (client : Client S)
    (owner ownerType : string) (projectNumber : Z) (repoOwner repoName : string)
    (issueNumber perPage : Z) (n : nat) :
  forall (after : option string) (s : S) (k : nat)
         (r : rest (list ProjectV2Item)) (e : error),
    served client n owner ownerType projectNumber perPage after s !! k = Some r ->
    Forall (page_without repoOwner repoName issueNumber)
      (take k (served client n owner ownerType projectNumber perPage after s)) ->
    reply_err r = Some e ->
    let out := run client (find_pages n owner ownerType projectNumber repoOwner
                             repoName issueNumber perPage after) s in
    result out = Returned (0, Some e) /\ length (trace out) = Datatypes.S k.
Proof.
  induction n as [| n IH]; intros after s k r e Hk Hclean Herr; [discriminate |].
  cbv zeta. rewrite find_pages_step. rewrite served_step in Hk, Hclean.
  destruct (items_reply client owner ownerType projectNumber perPage after s)
    as [[[items resp] err] s1].
  destruct k as [| k]; simpl in Hk.
  - injection Hk as <-. unfold reply_err in Herr. simpl in Herr. subst err.
    split; reflexivity.
  - rewrite firstn_cons in Hclean.
    pose proof (Forall_inv Hclean) as (resp0 & Hresp & Herr0 & Hscan).
    apply Forall_inv_tail in Hclean.
    unfold reply_resp, reply_err, reply_value in Hresp, Herr0, Hscan.
    simpl in Hresp, Herr0, Hscan. subst err resp. rewrite Hscan.
    destruct (String.eqb (After resp0) ""); [discriminate |].
    specialize (IH (Some (After resp0)) s1 k r e Hk Hclean Herr).
    cbv zeta in IH.
    destruct (run client (find_pages n owner ownerType projectNumber repoOwner
                            repoName issueNumber perPage (Some (After resp0))) s1)
      as [[o tr] s2].
    unfold result, trace in *. simpl in *. destruct IH as [-> ->].
    split; reflexivity.
Qed.

(** X5: when one of the list calls of findProjectItemIDByIssue returns
    an error, no earlier page holding the item, the scan ends there:
    the result is that error, not wrapped, with the ID zero, and no
    further page is asked for. *)
Theorem findProjectItemIDByIssue_stops_at_error {S : Type} (client : Client S)
    (s : S) (owner ownerType : string) (projectNumber : Z)
    (repoOwner repoName : string) (issueNumber : Z)
    (k : nat) (r : rest (list ProjectV2Item)) (e : error) :
  let pages := served client 5 owner ownerType projectNumber 50 None s in
  let out := run client (findProjectItemIDByIssue owner ownerType projectNumber
                           repoOwner repoName issueNumber) s in
  pages !! k = Some r ->
  Forall (page_without repoOwner repoName issueNumber) (take k pages) ->
  reply_err r = Some e ->
  result out = Returned (0, Some e) /\ length (trace out) = Datatypes.S k.
Proof.
  cbv zeta. intros Hk Hclean Herr.
  exact (find_pages_error client owner ownerType projectNumber repoOwner repoName
           issueNumber 50 5 None s k r e Hk Hclean Herr).
Qed.

Lemma findProjectItemIDByIssue_stops_at_error_witness :
  let broken after :=
    if decide (page_of after = 2%nat)
    then ([issue_item 73], Some (response 502 "" ""), Some refused)
    else paged_items 6 after in
  let out := run (serve (with_items board broken))
               (findProjectItemIDByIssue "acme" "org" 7 "octo" "app" 260) tt in
  result out = Returned (0, Some refused) /\ length (trace out) = 3%nat.
Proof.
  cbv zeta.
  apply (findProjectItemIDByIssue_stops_at_error _ tt "acme" "org" 7 "octo" "app"
           260 2 ([issue_item 73], Some (response 502 "" ""), Some refused) refused).
  - reflexivity.
  - repeat constructor; eexists; repeat split; reflexivity.
  - reflexivity.
Defined.

(** ** Fields and options without an ID *)

Lemma find_option_unusable (optionName : string)
    (options : list (option ProjectV2FieldOption)) :
  (forall x, In x options -> ~ usable_option optionName x) ->
  find_option optionName options = None.
Proof.
  induction options as [| [o |] options IH]; intros Hall; simpl.
  - reflexivity.
  - assert (Hrest : forall x, In x options -> ~ usable_option optionName x)
      by (intros x Hin; apply Hall; right; exact Hin).
    destruct (option_ID o) as [id |] eqn:Eid; [| exact (IH Hrest)].
    fold (option_name o).
    destruct (String.eqb_spec (option_name o) optionName) as [E | _];
      [| exact (IH Hrest)].
    exfalso. apply (Hall (Some o)); [left; reflexivity |].
    split; [exact E | rewrite Eid; discriminate].
  - apply IH. intros x Hin. apply Hall. right. exact Hin.
Qed.

Lemma find_option_usable (optionName : string)
    (before after : list (option ProjectV2FieldOption))
    (o : ProjectV2FieldOption) (id : string) :
  (forall x, In x before -> ~ usable_option optionName x) ->
  option_name o = optionName -> option_ID o = Some id ->
  find_option optionName (before ++ Some o :: after) = Some id.
Proof.
  intros Hbefore Hname Hid.
  induction before as [| [o' |] before IH]; simpl.
  - rewrite Hid. fold (option_name o). rewrite Hname, String.eqb_refl. reflexivity.
  - assert (Hrest : forall x, In x before -> ~ usable_option optionName x)
      by (intros x Hin; apply Hbefore; right; exact Hin).
    destruct (option_ID o') as [id' |] eqn:Eid; [| exact (IH Hrest)].
    fold (option_name o').
    destruct (String.eqb_spec (option_name o') optionName) as [E | _];
      [| exact (IH Hrest)].
    exfalso. apply (Hbefore (Some o')); [left; reflexivity |].
    split; [exact E | rewrite Eid; discriminate].
  - apply IH. intros x Hin. apply Hbefore. right. exact Hin.
Qed.

Lemma scan_fields_unusable (fieldName optionName : string)
    (fields : list ProjectV2Field) :
  (forall f, In f fields -> ~ usable_field fieldName f) ->
  scan_fields fieldName optionName fields = ("", 0, Some (field_not_found fieldName)).
Proof.
  induction fields as [| f fields IH]; intros Hall; simpl; [reflexivity |].
  assert (Hrest : forall g, In g fields -> ~ usable_field fieldName g)
    by (intros g Hin; apply Hall; right; exact Hin).
  fold (field_name f).
  destruct (String.eqb_spec (field_name f) fieldName) as [E | _]; simpl;
    [| exact (IH Hrest)].
  destruct (field_ID f) as [id |] eqn:Eid; [| exact (IH Hrest)].
  exfalso. apply (Hall f); [left; reflexivity |].
  split; [exact E | rewrite Eid; discriminate].
Qed.

Lemma scan_fields_usable (fieldName optionName : string)
    (before after : list ProjectV2Field) (f : ProjectV2Field) (fieldID : Z) :
  (forall g, In g before -> ~ usable_field fieldName g) ->
  field_name f = fieldName -> field_ID f = Some fieldID ->
  scan_fields fieldName optionName (before ++ f :: after) =
  match find_option optionName (field_Options f) with
  | Some optionID => (optionID, fieldID, None)
  | None => ("", 0, Some (option_not_found optionName fieldName))
  end.
Proof.
  intros Hbefore Hname Hid.
  induction before as [| g before IH]; simpl.
  - fold (field_name f). rewrite Hname, String.eqb_refl, Hid. reflexivity.
  - assert (Hrest : forall h, In h before -> ~ usable_field fieldName h)
      by (intros h Hin; apply Hbefore; right; exact Hin).
    fold (field_name g).
    destruct (String.eqb_spec (field_name g) fieldName) as [E | _]; simpl;
      [| exact (IH Hrest)].
    destruct (field_ID g) as [id |] eqn:Eid; [| exact (IH Hrest)].
    exfalso. apply (Hbefore g); [left; reflexivity |].
    split; [exact E | rewrite Eid; discriminate].
Qed.

(** X6: resolveSingleSelectOptionByName makes exactly one call whatever
    the reply, so it never follows a cursor, and returns an error of
    that call as it is.  In the listed fields it passes over a field of
    the wanted name that has no ID; the first field with the name and
    an ID decides alone, later fields of the same name being ignored;
    within it, nil options and options without an ID are passed over,
    and the first option with the name and an ID gives the result. *)
Theorem resolveSingleSelectOptionByName_skips_unidentified {S : Type}
    (client : Client S) (s : S) (owner ownerType : string) (projectNumber : Z)
    (fieldName optionName : string) :
  let '(fields, resp, err, s1) :=
    fields_reply client owner ownerType projectNumber 100 s in
  let out := run client (resolveSingleSelectOptionByName owner ownerType
                           projectNumber fieldName optionName) s in
  trace out = [fields_call owner ownerType projectNumber 100] /\
  (forall e, err = Some e -> result out = Returned ("", 0, Some e)) /\
  (err = None -> resp <> None ->
   ((forall f, In f fields -> ~ usable_field fieldName f) ->
    result out = Returned ("", 0, Some (field_not_found fieldName))) /\
   (forall before f after fieldID,
       fields = before ++ f :: after ->
       (forall g, In g before -> ~ usable_field fieldName g) ->
       field_name f = fieldName -> field_ID f = Some fieldID ->
       ((forall x, In x (field_Options f) -> ~ usable_option optionName x) ->
        result out = Returned ("", 0, Some (option_not_found optionName fieldName))) /\
       (forall obefore o oafter optionID,
           field_Options f = obefore ++ Some o :: oafter ->
           (forall x, In x obefore -> ~ usable_option optionName x) ->
           option_name o = optionName -> option_ID o = Some optionID ->
           result out = Returned (optionID, fieldID, None)))).
Proof.
  rewrite run_resolveSingleSelectOptionByName.
  destruct (fields_reply client owner ownerType projectNumber 100 s)
    as [[[fields resp] err] s1].
  unfold trace, result. cbn [fst snd].
  split; [reflexivity |]. split.
  - intros e ->. reflexivity.
  - intros -> Hresp. destruct resp as [r |]; [| contradiction Hresp; reflexivity].
    split.
    + intros Hnone. rewrite scan_fields_unusable by exact Hnone. reflexivity.
    + intros before f after fieldID -> Hbefore Hname Hid.
      rewrite (scan_fields_usable _ _ _ _ _ _ Hbefore Hname Hid). split.
      * intros Hnone. rewrite find_option_unusable by exact Hnone. reflexivity.
      * intros obefore o oafter optionID Hopts Hobefore Honame Hoid.
        rewrite Hopts, (find_option_usable _ _ _ _ _ Hobefore Honame Hoid).
        reflexivity.
Qed.

Lemma resolveSingleSelectOptionByName_skips_unidentified_witness :
  let fields := [unidentified_priority; late_priority; priority_field] in
  let resolve optionName :=
    result (run (serve (with_fields board
                          (fields, Some (response 200 "more" ""), None)))
              (resolveSingleSelectOptionByName "acme" "org" 7 "Priority" optionName)
              tt) in
  resolve "High" = Returned ("opt9", 43, None) /\
  resolve "Low" = Returned ("", 0, Some (option_not_found "Low" "Priority")).
Proof.
  cbv zeta.
  pose proof (fun optionName =>
                resolveSingleSelectOptionByName_skips_unidentified
                  (serve (with_fields board
                            ([unidentified_priority; late_priority; priority_field],
                             Some (response 200 "more" ""), None)))
                  tt "acme" "org" 7 "Priority" optionName) as H.
  split.
  - destruct (H "High") as (_ & _ & Hok).
    destruct (Hok eq_refl) as [_ Hfield]; [discriminate |].
    destruct (Hfield [unidentified_priority] late_priority [priority_field] 43
                eq_refl) as [_ Hoption].
    + intros g [<- | []] [_ Hid]. apply Hid. reflexivity.
    + reflexivity.
    + reflexivity.
    + apply (Hoption [Some {| option_ID := None;
                              option_Name := Some {| Raw := Some "High" |} |}; None]
               _ [] "opt9" eq_refl); [| reflexivity | reflexivity].
      intros x [<- | [<- | []]]; [intros [_ Hid]; apply Hid; reflexivity | intros []].
  - destruct (H "Low") as (_ & _ & Hok).
    destruct (Hok eq_refl) as [_ Hfield]; [discriminate |].
    destruct (Hfield [unidentified_priority] late_priority [priority_field] 43
                eq_refl) as [Hnone _].
    + intros g [<- | []] [_ Hid]. apply Hid. reflexivity.
    + reflexivity.
    + reflexivity.
    + apply Hnone.
      intros x [<- | [<- | [<- | []]]]; simpl; intros []; discriminate.
Defined.

(** ** Adding an item *)

Lemma run_addProjectItem {S : Type} (client : Client S) (s : S)
    (owner ownerType : string) (projectNumber : Z) (itemOwner itemRepo : string)
    (itemNumber : Z) (itemType : string) :
  run client (addProjectItem owner ownerType projectNumber itemOwner itemRepo
                itemNumber itemType) s =
  if negb (String.eqb itemType "issue") && negb (String.eqb itemType "pull_request")
  then (Returned (Some (NewToolResultError
                          [Str "item_type must be either 'issue' or 'pull_request'"]),
                  None), [], s)
  else
    let node := node_call itemType itemOwner itemRepo itemNumber in
    let project := project_id_call owner ownerType projectNumber in
    let '(nodeID, nerr, s1) :=
      node_reply client itemType itemOwner itemRepo itemNumber s in
    match nerr with
    | Some e =>
        (Returned (Some (NewToolResultError
                           (resolve_failed itemType itemOwner itemRepo itemNumber e)),
                   None), [node], s1)
    | None =>
        let '(projectID, perr, s2) :=
          project_id_reply client owner ownerType projectNumber s1 in
        match perr with
        | Some e =>
            (Returned (Some (NewToolResultError
                               [Str "failed to get project ID: "; Sub e]), None),
             [node; project], s2)
        | None =>
            let '(itemID, merr, s3) :=
              client (MutateAddProjectV2ItemById projectID nodeID) s2 in
            (Returned
               (Some match merr with
                     | Some e =>
                         NewToolResultError
                           [Str ProjectAddFailedError; Str ": "; Sub e]
                     | None =>
                         added owner projectNumber itemOwner itemRepo itemNumber
                           itemType itemID
                     end, None),
             [node; project; MutateAddProjectV2ItemById projectID nodeID], s3)
        end
    end.
Proof.
  unfold addProjectItem, node_call, node_reply, project_id_call, project_id_reply,
    resolve_failed, resolveIssueNodeID, resolvePullRequestNodeID.
  destruct (String.eqb itemType "issue") eqn:Eissue;
    destruct (String.eqb itemType "pull_request") eqn:Epr; simpl;
    try reflexivity;
    (match goal with |- context [client ?c s] =>
       destruct (client c s) as [[nodeID [e |]] s1] end);
    simpl; try reflexivity;
    destruct (String.eqb ownerType "org"); simpl;
    (match goal with
     | |- context [client (QueryOrganizationProjectID ?o ?n) ?st] =>
         destruct (client (QueryOrganizationProjectID o n) st)
           as [[projectID [e |]] s2]
     | |- context [client (QueryUserProjectID ?o ?n) ?st] =>
         destruct (client (QueryUserProjectID o n) st)
           as [[projectID [e |]] s2]
     end);
    simpl; try reflexivity;
    (match goal with
     | |- context [client (MutateAddProjectV2ItemById ?p ?n) ?st] =>
         destruct (client (MutateAddProjectV2ItemById p n) st)
           as [[itemID [e |]] s3]
     end);
    reflexivity.
Qed.

(** X7: addProjectItem rejects an item type other than issue and
    pull_request without any call.  Otherwise it looks up the node ID
    of the item, then the ID of the project, then issues the add
    mutation: a failed lookup ends it with an error result before any
    later call, and the mutation, the only call that changes the
    project, is issued with the two IDs the lookups returned; its
    success carries the ID of the created item. *)
Theorem addProjectItem_mutates_after_both_lookups {S : Type} (client : Client S)
    (s : S) (owner ownerType : string) (projectNumber : Z)
    (itemOwner itemRepo : string) (itemNumber : Z) (itemType : string) :
  let out := run client (addProjectItem owner ownerType projectNumber itemOwner
                           itemRepo itemNumber itemType) s in
  let node := node_call itemType itemOwner itemRepo itemNumber in
  let project := project_id_call owner ownerType projectNumber in
  let '(nodeID, nerr, s1) :=
    node_reply client itemType itemOwner itemRepo itemNumber s in
  let '(projectID, perr, s2) :=
    project_id_reply client owner ownerType projectNumber s1 in
  let '(itemID, merr, s3) :=
    client (MutateAddProjectV2ItemById projectID nodeID) s2 in
  (itemType <> "issue" -> itemType <> "pull_request" ->
   trace out = [] /\
   exists res, result out = Returned (Some res, None) /\ IsError res = true) /\
  (itemType = "issue" \/ itemType = "pull_request" ->
   (forall e, nerr = Some e ->
      trace out = [node] /\
      exists res, result out = Returned (Some res, None) /\ IsError res = true) /\
   (forall e, nerr = None -> perr = Some e ->
      trace out = [node; project] /\
      exists res, result out = Returned (Some res, None) /\ IsError res = true) /\
   (nerr = None -> perr = None ->
      trace out = [node; project; MutateAddProjectV2ItemById projectID nodeID] /\
      (merr = None ->
       result out
       = Returned (Some (added owner projectNumber itemOwner itemRepo itemNumber
                           itemType itemID), None)) /\
      (forall e, merr = Some e ->
         exists res, result out = Returned (Some res, None) /\ IsError res = true))).
Proof.
  cbv zeta. rewrite run_addProjectItem.
  destruct (node_reply client itemType itemOwner itemRepo itemNumber s)
    as [[nodeID nerr] s1].
  destruct (project_id_reply client owner ownerType projectNumber s1)
    as [[projectID perr] s2].
  destruct (client (MutateAddProjectV2ItemById projectID nodeID) s2)
    as [[itemID merr] s3].
  split.
  - intros Hi Hp.
    destruct (String.eqb_spec itemType "issue"); [contradiction |].
    destruct (String.eqb_spec itemType "pull_request"); [contradiction |].
    simpl. split; [reflexivity |]. eexists. split; reflexivity.
  - intros Hty.
    assert (Hvalid : negb (String.eqb itemType "issue")
                     && negb (String.eqb itemType "pull_request") = false)
      by (destruct Hty as [-> | ->]; reflexivity).
    rewrite Hvalid. unfold trace, result.
    split; [| split].
    + intros e ->. simpl. split; [reflexivity |]. eexists. split; reflexivity.
    + intros e -> ->. simpl. split; [reflexivity |]. eexists. split; reflexivity.
    + intros -> ->. simpl. split; [reflexivity |]. split.
      * intros ->. reflexivity.
      * intros e ->. eexists. split; reflexivity.
Qed.

Lemma addProjectItem_mutates_after_both_lookups_witness :
  run (serve board) (addProjectItem "acme" "org" 7 "octo" "app" 73 "issue") tt
  = (Returned (Some (added "acme" 7 "octo" "app" 73 "issue" "PVTI_1"), None),
     [QueryIssueID "octo" "app" 73; QueryOrganizationProjectID "acme" 7;
      MutateAddProjectV2ItemById "NODE_1" "NODE_1"], tt) /\
  trace (run (serve board)
           (addProjectItem "acme" "org" 7 "octo" "app" 73 "draft_issue") tt) = [].
Proof.
  pose proof (addProjectItem_mutates_after_both_lookups (serve board) tt
                "acme" "org" 7 "octo" "app" 73) as H.
  split.
  - destruct (H "issue") as [_ Hvalid].
    destruct (Hvalid (or_introl eq_refl)) as (_ & _ & Hadd).
    destruct (Hadd eq_refl eq_refl) as (Htrace & Hres & _).
    specialize (Hres eq_refl).
    unfold trace, result in *.
    destruct (run (serve board)
                (addProjectItem "acme" "org" 7 "octo" "app" 73 "issue") tt)
      as [[o tr] s2]. simpl in *. subst. destruct s2. reflexivity.
  - destruct (H "draft_issue") as [Hinvalid _].
    destruct Hinvalid as [Htrace _]; [discriminate | discriminate |].
    exact Htrace.
Defined.

Lemma int32_wrap (n k : Z) : int32 (n + k * 2 ^ 32) = int32 n.
Proof.
  unfold int32.
  replace (n + k * 2 ^ 32 + 2 ^ 31) with (n + 2 ^ 31 + k * 2 ^ 32) by lia.
  rewrite Z.mod_add by lia. reflexivity.
Qed.

Lemma int32_small (n : Z) : - 2 ^ 31 <= n < 2 ^ 31 -> int32 n = n.
Proof.
  intros H. unfold int32. rewrite Z.mod_small by lia. lia.
Qed.

(** X8: addProjectItem sends the item number and the project number
    through int32, which keeps the low 32 bits.  A number that fits 32
    bits is sent as it is; a number outside that range is not refused:
    the lookups are keyed on its wrapped value, so two item numbers, or
    two project numbers, that differ by a multiple of 2^32 lead to the
    same calls and leave the client in the same state. *)
Theorem addProjectItem_numbers_wrap_to_32_bits {S : Type} (client : Client S)
    (s : S) (owner ownerType : string) (projectNumber : Z)
    (itemOwner itemRepo : string) (itemNumber : Z) (itemType : string)
    (i p : Z) :
  let add projectNumber itemNumber :=
    run client (addProjectItem owner ownerType projectNumber itemOwner itemRepo
                  itemNumber itemType) s in
  (- 2 ^ 31 <= itemNumber < 2 ^ 31 ->
   node_call itemType itemOwner itemRepo itemNumber
   = if String.eqb itemType "issue"
     then QueryIssueID itemOwner itemRepo itemNumber
     else QueryPullRequestID itemOwner itemRepo itemNumber) /\
  (- 2 ^ 31 <= projectNumber < 2 ^ 31 ->
   project_id_call owner ownerType projectNumber
   = if String.eqb ownerType "org"
     then QueryOrganizationProjectID owner projectNumber
     else QueryUserProjectID owner projectNumber) /\
  trace (add (projectNumber + p * 2 ^ 32) (itemNumber + i * 2 ^ 32))
  = trace (add projectNumber itemNumber) /\
  snd (add (projectNumber + p * 2 ^ 32) (itemNumber + i * 2 ^ 32))
  = snd (add projectNumber itemNumber).
Proof.
  cbv zeta. split; [| split].
  - intros H. unfold node_call. rewrite (int32_small _ H). reflexivity.
  - intros H. unfold project_id_call. rewrite (int32_small _ H). reflexivity.
  - rewrite !run_addProjectItem.
    unfold node_call, node_reply, project_id_call, project_id_reply.
    rewrite !int32_wrap.
    destruct (String.eqb itemType "issue");
      destruct (String.eqb itemType "pull_request"); cbn [negb andb];
      try (split; reflexivity);
      (match goal with |- context [client ?c s] =>
         destruct (client c s) as [[nodeID [e |]] s1] end);
      try (split; reflexivity);
      destruct (String.eqb ownerType "org");
      (match goal with
       | |- context [client (QueryOrganizationProjectID ?o ?n) ?st] =>
           destruct (client (QueryOrganizationProjectID o n) st)
             as [[projectID [e |]] s2]
       | |- context [client (QueryUserProjectID ?o ?n) ?st] =>
           destruct (client (QueryUserProjectID o n) st)
             as [[projectID [e |]] s2]
       end);
      try (split; reflexivity);
      (match goal with
       | |- context [client (MutateAddProjectV2ItemById ?p ?n) ?st] =>
           destruct (client (MutateAddProjectV2ItemById p n) st)
             as [[itemID merr] s3]
       end);
      split; reflexivity.
Qed.

Lemma addProjectItem_numbers_wrap_to_32_bits_witness :
  node_call "issue" "octo" "app" 73 = QueryIssueID "octo" "app" 73 /\
  project_id_call "acme" "org" 7 = QueryOrganizationProjectID "acme" 7 /\
  trace (run (serve board)
           (addProjectItem "acme" "org" (7 - 2 ^ 32) "octo" "app" (73 + 2 ^ 32)
              "issue") tt)
  = [QueryIssueID "octo" "app" 73; QueryOrganizationProjectID "acme" 7;
     MutateAddProjectV2ItemById "NODE_1" "NODE_1"].
Proof.
  destruct (addProjectItem_numbers_wrap_to_32_bits (serve board) tt
              "acme" "org" 7 "octo" "app" 73 "issue" 1 (-1))
    as (Hnode & Hproject & Htrace & _).
  split; [apply Hnode; lia |]. split; [apply Hproject; lia |].
  change (7 - 2 ^ 32) with (7 + -1 * 2 ^ 32).
  change (73 + 2 ^ 32) with (73 + 1 * 2 ^ 32).
  rewrite Htrace. reflexivity.
Defined.

(** ** Updating an item *)

(** X9: updateProjectItem with a field value that is not a well-formed
    update is an error result and no call.  Otherwise it issues the one
    update call, on the organization endpoint exactly for the owner
    type org, and succeeds, with the updated item as the API returned
    it, exactly when the call returns no error and the status 200.
    Every other status gives a failure that carries the upstream body
    (or, when the body cannot be read, the read error as a Go error),
    and a transport error gives a failure as well. *)
Theorem updateProjectItem_succeeds_only_on_ok {S : Type} (client : Client S)
    (s : S) (owner ownerType : string) (projectNumber itemID : Z)
    (fieldValue : option (gmap string any)) :
  let out := run client (updateProjectItem owner ownerType projectNumber itemID
                           fieldValue) s in
  (forall err, buildUpdateProjectItem fieldValue = inr err ->
     out = (Returned (Some (NewToolResultError err), None), [], s)) /\
  (forall payload, buildUpdateProjectItem fieldValue = inl payload ->
     let '(updatedItem, resp, err, s1) :=
       update_reply client owner ownerType projectNumber itemID payload s in
     trace out = [update_call owner ownerType projectNumber itemID payload] /\
     (is_success (result out) <->
      err = None /\ exists r, resp = Some r /\ StatusCode r = 200) /\
     (forall r, err = None -> resp = Some r -> StatusCode r = 200 ->
        result out
        = Returned (Some (NewToolResultText [Json (JItem updatedItem)]), None)) /\
     (forall r body,
        err = None -> resp = Some r -> StatusCode r <> 200 -> Body r = inl body ->
        let failure :=
          NewGitHubAPIStatusErrorResponse ProjectUpdateFailedError r body in
        result out = Returned (Some failure, None) /\
        IsError failure = true /\ names body (result_text failure) = true) /\
     (forall r e,
        err = None -> resp = Some r -> StatusCode r <> 200 -> Body r = inr e ->
        result out
        = Returned (None, Some [Str "failed to read response body: "; Sub e])) /\
     (forall e,
        err = Some e ->
        let failure := NewGitHubAPIErrorResponse ProjectUpdateFailedError resp e in
        result out = Returned (Some failure, None) /\ IsError failure = true)).
Proof.
  cbv zeta. rewrite run_updateProjectItem. split.
  - intros err ->. reflexivity.
  - intros payload ->.
    destruct (update_reply client owner ownerType projectNumber itemID payload s)
      as [[[updatedItem resp] err] s1].
    unfold trace, result, is_success. cbn [fst snd].
    split; [reflexivity |]. split; [| split; [| split; [| split]]].
    + split.
      * intros (res & Hres & Herr).
        destruct err as [e |]; [injection Hres as <-; discriminate |].
        destruct resp as [r |]; [| discriminate].
        destruct (Z.eqb_spec (StatusCode r) 200) as [E | _].
        -- split; [reflexivity |]. exists r. split; [reflexivity | exact E].
        -- destruct (Body r); [injection Hres as <- |]; discriminate.
      * intros (-> & r & -> & E). rewrite E. simpl.
        eexists. split; reflexivity.
    + intros r -> -> E. rewrite E. reflexivity.
    + intros r body -> -> E Hbody.
      destruct (Z.eqb_spec (StatusCode r) 200) as [E' | _]; [contradiction |].
      rewrite Hbody. split; [reflexivity |]. split; [reflexivity |].
      unfold names. simpl. rewrite String.eqb_refl.
      destruct (String.eqb body ProjectUpdateFailedError), (String.eqb body ": ");
        reflexivity.
    + intros r e -> -> E Hbody.
      destruct (Z.eqb_spec (StatusCode r) 200) as [E' | _]; [contradiction |].
      rewrite Hbody. reflexivity.
    + intros e ->. split; reflexivity.
Qed.

Lemma updateProjectItem_succeeds_only_on_ok_witness :
  let unprocessable := response 422 "" "Unprocessable Entity" in
  let locked := with_update board (None, Some unprocessable, None) in
  run (serve locked) (updateProjectItem "acme" "org" 7 1001 (field_update 42 "opt1")) tt
  = (Returned (Some (NewGitHubAPIStatusErrorResponse ProjectUpdateFailedError
                       unprocessable "Unprocessable Entity"), None),
     [UpdateOrganizationProjectItem "acme" 7 1001 priority_high], tt) /\
  run (serve board) (updateProjectItem "acme" "org" 7 1001 None) tt
  = (Returned (Some (NewToolResultError [Str "updated_field must be an object"]),
               None), [], tt).
Proof.
  cbv zeta. split.
  - destruct (updateProjectItem_succeeds_only_on_ok
                (serve (with_update board
                          (None, Some (response 422 "" "Unprocessable Entity"), None)))
                tt "acme" "org" 7 1001 (field_update 42 "opt1")) as [_ H].
    assert (E : buildUpdateProjectItem (field_update 42 "opt1") = inl priority_high)
      by (vm_compute; reflexivity).
    specialize (H priority_high E). unfold update_reply in H. cbn in H.
    destruct H as (Htrace & _ & _ & Hbody & _).
    destruct (Hbody (response 422 "" "Unprocessable Entity") "Unprocessable Entity")
      as [Hres _]; [reflexivity | reflexivity | discriminate | reflexivity |].
    unfold trace, result in *.
    destruct (run _ _ tt) as [[o tr] []]. simpl in *. subst. reflexivity.
  - destruct (updateProjectItem_succeeds_only_on_ok (serve board) tt
                "acme" "org" 7 1001 None) as [H _].
    apply H. reflexivity.
Defined.

(** ** The assignment workflow *)

(** X10: assignIssueToOrgProjectWithFields adds the issue, then locates
    the item, then tags it.  The add step always yields a tool result.
    When that result is an error, the workflow fails with its text
    after the add step's calls alone: the project's items are not
    listed and nothing is updated.  When the item cannot be located the
    workflow fails with the scan's error under its own prefix, after
    the calls of the add step and of the scan alone, although the issue
    has been added.  With neither a priority nor a size the workflow
    ends after the scan, and its result carries the located item ID
    and an empty, non-nil list of updates. *)
Theorem assignIssueToOrgProjectWithFields_stages {S : Type} (client : Client S)
    (s : S) (org : string) (projectNumber : Z) (itemOwner itemRepo : string)
    (issueNumber : Z) (priority size : string) :
  let out := run client (assignIssueToOrgProjectWithFields org projectNumber
                           itemOwner itemRepo issueNumber priority size) s in
  let '(added, tr_add, s1) :=
    run client (addProjectItem org "org" projectNumber itemOwner itemRepo
                  issueNumber "issue") s in
  let '(found, tr_find, s2) :=
    run client (findProjectItemIDByIssue org "org" projectNumber itemOwner
                  itemRepo issueNumber) s1 in
  exists res,
    added = Returned (Some res, None) /\
    (IsError res = true ->
     out = (Returned (None, Some [Str "add issue to project: ";
                                  Sub (result_text res)]), tr_add, s1)) /\
    (IsError res = false ->
     (forall id e, found = Returned (id, Some e) ->
        out = (Returned (None, Some [Str "find project item id: "; Sub e]),
               tr_add ++ tr_find, s2)) /\
     (forall id, found = Returned (id, None) -> priority = "" -> size = "" ->
        out = (Returned (Some (assigned org projectNumber itemOwner itemRepo
                                 issueNumber id), None),
               tr_add ++ tr_find, s2) /\
        assigned org projectNumber itemOwner itemRepo issueNumber id !! "updates"
        = Some (AnyStrings (Some [])))).
Proof.
  cbv zeta.
  unfold assignIssueToOrgProjectWithFields, assigned, mbind, Prog_bind.
  rewrite run_bind, !run_addProjectItem.
  unfold node_call, node_reply, project_id_call, project_id_reply.
  cbn [String.eqb Ascii.eqb Bool.eqb negb andb].
  destruct (client (QueryIssueID itemOwner itemRepo (int32 issueNumber)) s)
    as [[nodeID [e |]] s1].
  { destruct (run client (findProjectItemIDByIssue org "org" projectNumber itemOwner
                            itemRepo issueNumber) s1) as [[found tr_find] s2].
    eexists. split; [reflexivity |]. split; [| discriminate].
    intros _. reflexivity. }
  destruct (client (QueryOrganizationProjectID org (int32 projectNumber)) s1)
    as [[projectID [e |]] s2].
  { destruct (run client (findProjectItemIDByIssue org "org" projectNumber itemOwner
                            itemRepo issueNumber) s2) as [[found tr_find] s3].
    eexists. split; [reflexivity |]. split; [| discriminate].
    intros _. reflexivity. }
  destruct (client (MutateAddProjectV2ItemById projectID nodeID) s2)
    as [[itemID [e |]] s3].
  { destruct (run client (findProjectItemIDByIssue org "org" projectNumber itemOwner
                            itemRepo issueNumber) s3) as [[found tr_find] s4].
    eexists. split; [reflexivity |]. split; [| discriminate].
    intros _. reflexivity. }
  cbv beta iota. unfold added. cbn [Content NewToolResultText lead_of_text
                                     lead_of_piece lead_of_json].
  rewrite run_bind. unfold error, text.
  destruct (@run S (Z * option (list piece)) client
              (findProjectItemIDByIssue org "org" projectNumber itemOwner
                 itemRepo issueNumber) s3) as [[found tr_find] s4].
  eexists. split; [reflexivity |]. split; [discriminate |].
  intros _. split.
  - intros id e ->. cbn [run]. rewrite app_nil_r. reflexivity.
  - intros id -> -> ->. cbn [run String.eqb negb orb]. rewrite app_nil_r.
    split; [reflexivity |]. vm_compute. reflexivity.
Qed.

Lemma assignIssueToOrgProjectWithFields_stages_witness :
  let assign f issue priority :=
    run (serve f) (assignIssueToOrgProjectWithFields "acme" 7 "octo" "app" issue
                     priority "") tt in
  result (assign board 73 "")
  = Returned (Some (assigned "acme" 7 "octo" "app" 73 1073), None) /\
  result (assign board 999 "High")
  = Returned (None, Some [Str "find project item id: ";
                          Sub (item_not_found "octo" "app" 999)]) /\
  assign offline 73 "High"
  = (Returned (None,
               Some [Str "add issue to project: ";
                     Sub (resolve_failed "issue" "octo" "app" 73 refused)]),
     [QueryIssueID "octo" "app" 73], tt).
Proof.
  cbv zeta. split; [| split].
  - pose proof (assignIssueToOrgProjectWithFields_stages (serve board) tt
                  "acme" 7 "octo" "app" 73 "" "") as H.
    cbv zeta in H.
    assert (Ea : run (serve board) (addProjectItem "acme" "org" 7 "octo" "app" 73
                                      "issue") tt
                 = (Returned (Some (added "acme" 7 "octo" "app" 73 "issue" "PVTI_1"),
                              None),
                    [QueryIssueID "octo" "app" 73; QueryOrganizationProjectID "acme" 7;
                     MutateAddProjectV2ItemById "NODE_1" "NODE_1"], tt))
      by (vm_compute; reflexivity).
    rewrite Ea in H.
    destruct (run (serve board) (findProjectItemIDByIssue "acme" "org" 7 "octo" "app"
                                   73) tt) as [[found tr_find] s2] eqn:Ef.
    vm_compute in Ef. injection Ef as Efound _ _. symmetry in Efound.
    destruct H as (res & Hres & _ & Hok). injection Hres as <-.
    destruct (Hok eq_refl) as [_ Hsucc].
    destruct (Hsucc 1073 Efound eq_refl eq_refl) as [Hout _].
    rewrite Hout. reflexivity.
  - pose proof (assignIssueToOrgProjectWithFields_stages (serve board) tt
                  "acme" 7 "octo" "app" 999 "High" "") as H.
    cbv zeta in H.
    assert (Ea : run (serve board) (addProjectItem "acme" "org" 7 "octo" "app" 999
                                      "issue") tt
                 = (Returned (Some (added "acme" 7 "octo" "app" 999 "issue" "PVTI_1"),
                              None),
                    [QueryIssueID "octo" "app" 999; QueryOrganizationProjectID "acme" 7;
                     MutateAddProjectV2ItemById "NODE_1" "NODE_1"], tt))
      by (vm_compute; reflexivity).
    rewrite Ea in H.
    destruct (run (serve board) (findProjectItemIDByIssue "acme" "org" 7 "octo" "app"
                                   999) tt) as [[found tr_find] s2] eqn:Ef.
    vm_compute in Ef. injection Ef as Efound _ _. symmetry in Efound.
    destruct H as (res & Hres & _ & Hok). injection Hres as <-.
    destruct (Hok eq_refl) as [Hfail _].
    rewrite (Hfail 0 _ Efound). reflexivity.
  - pose proof (assignIssueToOrgProjectWithFields_stages (serve offline) tt
                  "acme" 7 "octo" "app" 73 "High" "") as H.
    cbv zeta in H.
    assert (Ea : run (serve offline) (addProjectItem "acme" "org" 7 "octo" "app" 73
                                        "issue") tt
                 = (Returned (Some (NewToolResultError
                                      (resolve_failed "issue" "octo" "app" 73 refused)),
                              None),
                    [QueryIssueID "octo" "app" 73], tt))
      by (vm_compute; reflexivity).
    rewrite Ea in H.
    destruct (run (serve offline) (findProjectItemIDByIssue "acme" "org" 7 "octo"
                                     "app" 73) tt) as [[found tr_find] s2].
    destruct H as (res & Hres & Herr & _). injection Hres as <-.
    rewrite (Herr eq_refl). reflexivity.
Defined.

(** ** The endpoints a resolved owner type selects *)

Section Addressed.
Variables (owner ownerType : string) (projectNumber : Z).

Let here : Call -> Prop := addressed owner ownerType projectNumber.

Lemma only_updateProjectItem (itemID : Z) (fieldValue : option (gmap string any)) :
  only here (updateProjectItem owner ownerType projectNumber itemID fieldValue).
Proof.
  unfold updateProjectItem.
  destruct (buildUpdateProjectItem fieldValue) as [payload | e]; [| exact I].
  destruct (String.eqb_spec ownerType "org") as [E | E]; simpl;
    (split; [repeat split; assumption |]);
    intros [[item [r |]] [e |]]; simpl; try exact I;
    destruct (negb (Z.eqb (StatusCode r) StatusOK)); try exact I;
    destruct (Body r); exact I.
Qed.

Lemma only_deleteProjectItem (itemID : Z) :
  only here (deleteProjectItem owner ownerType projectNumber itemID).
Proof.
  unfold deleteProjectItem.
  destruct (String.eqb_spec ownerType "org") as [E | E]; simpl;
    (split; [repeat split; assumption |]);
    intros [[r |] [e |]]; simpl; try exact I;
    destruct (negb (Z.eqb (StatusCode r) StatusNoContent)); try exact I;
    destruct (Body r); exact I.
Qed.

Lemma only_resolveSingleSelectOptionByName (fieldName optionName : string) :
  only here (resolveSingleSelectOptionByName owner ownerType projectNumber
               fieldName optionName).
Proof.
  unfold resolveSingleSelectOptionByName.
  destruct (String.eqb_spec ownerType "org") as [E | E]; simpl;
    (split; [repeat split; assumption |]);
    intros [[fields [r |]] [e |]]; exact I.
Qed.

Lemma only_find_pages (pages : nat) (repoOwner repoName : string)
    (issueNumber perPage : Z) (after : option string) :
  only here (find_pages pages owner ownerType projectNumber repoOwner repoName
               issueNumber perPage after).
Proof.
  revert after. induction pages as [| pages IH]; intros after; [exact I |].
  cbn [find_pages].
  destruct (String.eqb_spec ownerType "org") as [E | E]; simpl;
    (split; [repeat split; assumption |]);
    intros [[items [r |]] [e |]]; simpl; try exact I;
    destruct (scan_items repoOwner repoName issueNumber items); try exact I;
    destruct (String.eqb (After r) ""); try exact I; apply IH.
Qed.

Lemma only_field_block (itemID : Z) (failed unset name value : string)
    (updates : slice text) (entry : text) :
  only here (field_block owner ownerType projectNumber itemID failed unset
               name value updates entry).
Proof.
  unfold field_block, update_field, mbind, Prog_bind.
  apply only_bind; [apply only_resolveSingleSelectOptionByName |].
  intros [[optionID fieldID] [e |]]; [exact I |].
  apply only_bind.
  - apply only_bind; [apply only_updateProjectItem |]. intros [r err]. exact I.
  - intros [e |]; exact I.
Qed.

Lemma only_setPriorityAndSize (itemID : Z) (priority size : string) :
  only here (setPriorityAndSize owner ownerType projectNumber itemID priority size).
Proof.
  rewrite setPriorityAndSize_blocks.
  apply only_bind.
  - destruct (negb (String.eqb priority "")); [apply only_field_block | exact I].
  - intros [updates | e]; [| exact I].
    apply only_bind.
    + destruct (negb (String.eqb size "")); [apply only_field_block | exact I].
    + intros [updates' | e]; exact I.
Qed.

Lemma only_addProjectItem (itemOwner itemRepo : string) (itemNumber : Z)
    (itemType : string) :
  only here (addProjectItem owner ownerType projectNumber itemOwner itemRepo
               itemNumber itemType).
Proof.
  unfold addProjectItem, resolveIssueNodeID, resolvePullRequestNodeID.
  destruct (negb (String.eqb itemType "issue")
            && negb (String.eqb itemType "pull_request")); [exact I |].
  destruct (String.eqb itemType "issue"); simpl;
    (split; [exact I |]); intros [nodeID [e |]]; simpl; try exact I;
    destruct (String.eqb_spec ownerType "org") as [E | E]; simpl;
    (split; [repeat split; assumption |]);
    intros [projectID [e |]]; simpl; try exact I;
    (split; [exact I |]); intros [itemID [e |]]; exact I.
Qed.

End Addressed.

Lemma only_assignIssueToOrgProjectWithFields (org : string) (projectNumber : Z)
    (itemOwner itemRepo : string) (issueNumber : Z) (priority size : string) :
  only (addressed org "org" projectNumber)
    (assignIssueToOrgProjectWithFields org projectNumber itemOwner itemRepo
       issueNumber priority size).
Proof.
  unfold assignIssueToOrgProjectWithFields, mbind, Prog_bind.
  apply only_bind; [apply only_addProjectItem |].
  intros [[addResult |] ignored]; [| exact I].
  destruct (Content addResult) as [| [addText |] others]; try exact I.
  destruct (lead_of_text addText); try exact I;
    (apply only_bind; [apply only_find_pages |]);
    intros [numericID [e |]]; try exact I;
    (destruct (negb (String.eqb priority "") || negb (String.eqb size ""));
     [| exact I]);
    (apply only_bind; [apply only_setPriorityAndSize |]);
    intros [updates [e |]]; exact I.
Qed.

Lemma only_listProjectFields (D : Decoders) (E : Encoders)
    (args : gmap string any) (owner ownerType : string) :
  only (addressed owner ownerType (RequiredInt D args "project_number").1)
    (listProjectFields D E args owner ownerType).
Proof.
  unfold listProjectFields.
  destruct (RequiredInt D args "project_number") as [n [e |]]; [exact I |].
  destruct (extractPaginationOptionsFromArgs D args) as [pg | e]; [| exact I].
  destruct (String.eqb_spec ownerType "org") as [Eo | Eo]; simpl;
    (split; [repeat split; assumption |]); intros [[ps resp] err];
    destruct err, resp; exact I.
Qed.

Lemma only_listProjectItems (D : Decoders) (E : Encoders)
    (args : gmap string any) (owner ownerType : string) :
  only (addressed owner ownerType (RequiredInt D args "project_number").1)
    (listProjectItems D E args owner ownerType).
Proof.
  unfold listProjectItems.
  destruct (RequiredInt D args "project_number") as [n [e |]]; [exact I |].
  destruct (OptionalParam D args "query") as [q [e |]]; [exact I |].
  destruct (OptionalBigIntArrayParam D args "fields") as [fs [e |]]; [exact I |].
  destruct (extractPaginationOptionsFromArgs D args) as [pg | e]; [| exact I].
  destruct (String.eqb_spec ownerType "org") as [Eo | Eo]; simpl;
    (split; [repeat split; assumption |]); intros [[ps resp] err];
    destruct err, resp; exact I.
Qed.

(** X11: once the owner type is fixed, every call of every function
    that takes it is addressed to the given project of the given owner,
    on the organization endpoints when the owner type is org and on the
    user endpoints for every other string: the listing of fields and of
    items, the update, the deletion, the addition, the resolution of an
    option, the scan for an item and the tagging never mix the two
    scopes and never probe again.  The assignment workflow stays on the
    organization endpoints throughout. *)
Theorem calls_follow_the_owner_type {S : Type} (client : Client S) (s : S)
    (D : Decoders) (E : Encoders) (args : gmap string any)
    (owner ownerType : string) (projectNumber itemID : Z)
    (fieldValue : option (gmap string any))
    (itemOwner itemRepo : string) (itemNumber : Z)
    (itemType fieldName optionName priority size : string) :
  let here := addressed owner ownerType projectNumber in
  let listed := (RequiredInt D args "project_number").1 in
  Forall (addressed owner ownerType listed)
    (trace (run client (listProjectFields D E args owner ownerType) s)) /\
  Forall (addressed owner ownerType listed)
    (trace (run client (listProjectItems D E args owner ownerType) s)) /\
  Forall here
    (trace (run client (updateProjectItem owner ownerType projectNumber itemID
                          fieldValue) s)) /\
  Forall here
    (trace (run client (deleteProjectItem owner ownerType projectNumber itemID) s)) /\
  Forall here
    (trace (run client (addProjectItem owner ownerType projectNumber itemOwner
                          itemRepo itemNumber itemType) s)) /\
  Forall here
    (trace (run client (resolveSingleSelectOptionByName owner ownerType
                          projectNumber fieldName optionName) s)) /\
  Forall here
    (trace (run client (findProjectItemIDByIssue owner ownerType projectNumber
                          itemOwner itemRepo itemNumber) s)) /\
  Forall here
    (trace (run client (setPriorityAndSize owner ownerType projectNumber itemID
                          priority size) s)) /\
  Forall (addressed owner "org" projectNumber)
    (trace (run client (assignIssueToOrgProjectWithFields owner projectNumber
                          itemOwner itemRepo itemNumber priority size) s)).
Proof.
  cbv zeta. repeat apply conj; apply only_run.
  - apply only_listProjectFields.
  - apply only_listProjectItems.
  - apply only_updateProjectItem.
  - apply only_deleteProjectItem.
  - apply only_addProjectItem.
  - apply only_resolveSingleSelectOptionByName.
  - apply only_find_pages.
  - apply only_setPriorityAndSize.
  - apply only_assignIssueToOrgProjectWithFields.
Qed.

(** ** The handlers *)

(** X12: each handler decodes its arguments and obtains its clients in
    a fixed order, and the first of these steps that fails ends it: the
    result is an error result with that step's error, and no call has
    been made.  The assignment handler obtains the GraphQL client
    before the REST client, the write handler the REST client first. *)
Theorem handlers_validate_before_any_call {S : Type} (client : Client S) (s : S)
    (D : Decoders) (E : Encoders) (deps : ToolDependencies)
    (args : gmap string any) (e : error) :
  let refused_with e := (Returned (Some (NewToolResultError e), None), [], s) in
  (first_error [(RequiredParam D args "method").2;
                (RequiredParam D args "owner").2;
                (OptionalParam D args "owner_type").2;
                GetClient deps] = Some e ->
   run client (ProjectsList D E deps args) s = refused_with e) /\
  (first_error [(RequiredParam D args "method").2;
                (RequiredParam D args "owner").2;
                (OptionalParam D args "owner_type").2;
                (RequiredInt D args "project_number").2;
                GetClient deps;
                GetGQLClient deps] = Some e ->
   run client (ProjectsWrite D deps args) s = refused_with e) /\
  (first_error [(RequiredParam D args "org").2;
                (RequiredInt D args "project_number").2;
                (RequiredParam D args "item_owner").2;
                (RequiredParam D args "item_repo").2;
                (RequiredInt D args "issue_number").2;
                GetGQLClient deps;
                GetClient deps] = Some e ->
   run client (AssignIssueToOrgProject D E deps args) s = refused_with e) /\
  (first_error [(RequiredParam D args "owner").2;
                (OptionalParam D args "owner_type").2;
                (RequiredInt D args "project_number").2;
                (RequiredBigInt D args "item_id").2;
                (RequiredParam D args "field_name").2;
                (RequiredParam D args "option_name").2;
                GetClient deps] = Some e ->
   run client (UpdateProjectItemFieldByNames D deps args) s = refused_with e).
Proof.
  cbv zeta.
  unfold ProjectsList, ProjectsWrite, AssignIssueToOrgProject,
    UpdateProjectItemFieldByNames, tool_error.
  destruct (RequiredParam D args "method") as [method [e1 |]];
    destruct (RequiredParam D args "owner") as [owner [e2 |]];
    destruct (OptionalParam D args "owner_type") as [ownerType [e3 |]];
    destruct (RequiredInt D args "project_number") as [projectNumber [e4 |]];
    destruct (GetClient deps) as [e5 |];
    destruct (GetGQLClient deps) as [e6 |];
    destruct (RequiredParam D args "org") as [org [e7 |]];
    destruct (RequiredParam D args "item_owner") as [itemOwner [e8 |]];
    destruct (RequiredParam D args "item_repo") as [itemRepo [e9 |]];
    destruct (RequiredInt D args "issue_number") as [issueNumber [e10 |]];
    destruct (RequiredBigInt D args "item_id") as [itemID [e11 |]];
    destruct (RequiredParam D args "field_name") as [fieldName [e12 |]];
    destruct (RequiredParam D args "option_name") as [optionName [e13 |]];
    cbn [first_error snd];
    (split; [| split; [| split]]);
    intros H; try discriminate H; injection H as <-; reflexivity.
Qed.

Lemma handlers_validate_before_any_call_witness :
  let args : gmap string any :=
    <["method" := text_arg "delete_project_item"]>
      (<["project_number" := number 7]> ∅) in
  run (serve board) (ProjectsWrite plain ready args) tt
  = (Returned (Some (NewToolResultError (missing "owner")), None), [], tt) /\
  run (serve board)
    (AssignIssueToOrgProject plain opaque
       {| GetClient := Some refused; GetGQLClient := Some [Str "no token"] |}
       (<["org" := text_arg "acme"]>
          (<["project_number" := number 7]>
             (<["item_owner" := text_arg "octo"]>
                (<["item_repo" := text_arg "app"]>
                   (<["issue_number" := number 73]> ∅)))))) tt
  = (Returned (Some (NewToolResultError [Str "no token"]), None), [], tt).
Proof.
  cbv zeta. split.
  - destruct (handlers_validate_before_any_call (serve board) tt plain opaque ready
                (<["method" := text_arg "delete_project_item"]>
                   (<["project_number" := number 7]> ∅)) (missing "owner"))
      as (_ & H & _).
    apply H. vm_compute. reflexivity.
  - destruct (handlers_validate_before_any_call (serve board) tt plain opaque
                {| GetClient := Some refused; GetGQLClient := Some [Str "no token"] |}
                (<["org" := text_arg "acme"]>
                   (<["project_number" := number 7]>
                      (<["item_owner" := text_arg "octo"]>
                         (<["item_repo" := text_arg "app"]>
                            (<["issue_number" := number 73]> ∅)))))
                [Str "no token"])
      as (_ & _ & H & _).
    apply H. vm_compute. reflexivity.
Defined.

Lemma run_detectOwnerType {S : Type} (client : Client S) (s : S)
    (owner : string) (projectNumber : Z) :
  run client (detectOwnerType owner projectNumber) s =
  let user := GetUserProject owner projectNumber in
  let org := GetOrganizationProject owner projectNumber in
  let '(r1, s1) := client user s in
  if reply_ok 200 r1 then (Returned ("user", None), [user], s1)
  else if reply_void r1 then (Panicked, [user], s1)
  else
    let '(r2, s2) := client org s1 in
    if reply_ok 200 r2 then (Returned ("org", None), [user; org], s2)
    else if reply_void r2 then (Panicked, [user; org], s2)
    else (Returned ("", Some (owner_type_unknown owner projectNumber)),
          [user; org], s2).
Proof.
  unfold detectOwnerType, owner_type_unknown, reply_ok, reply_void, StatusOK.
  cbv zeta. simpl.
  destruct (client (GetUserProject owner projectNumber) s)
    as [[[v1 [resp1 |]] [e1 |]] s1]; simpl;
    try destruct (Z.eqb (StatusCode resp1) 200); simpl; try reflexivity;
    destruct (client (GetOrganizationProject owner projectNumber) s1)
      as [[[v2 [resp2 |]] [e2 |]] s2]; simpl;
    try destruct (Z.eqb (StatusCode resp2) 200); reflexivity.
Qed.

Lemma resolved_owner_type_given {S : Type} (client : Client S) (s : S)
    (owner ownerType : string) (projectNumber : Z) :
  ownerType <> "" ->
  resolved_owner_type client owner ownerType projectNumber s
  = (Returned (ownerType, None), [], s).
Proof.
  intros H. unfold resolved_owner_type.
  destruct (String.eqb_spec ownerType ""); [contradiction | reflexivity].
Qed.

(** X13: the write handler settles the owner type before it looks at
    the method.  With an owner type given it makes no probe; with none
    it runs the detection first, whatever the method, and a failed
    detection ends it with the detection's error after the probes
    alone.  Every call after that, for every method, is addressed to
    the given project of the given owner on the endpoints of the
    settled owner type, and none is a probe. *)
Theorem ProjectsWrite_settles_owner_type_first {S : Type} (client : Client S)
    (s : S) (D : Decoders) (deps : ToolDependencies) (args : gmap string any)
    (method owner ownerType : string) (projectNumber : Z) :
  RequiredParam D args "method" = (method, None) ->
  RequiredParam D args "owner" = (owner, None) ->
  OptionalParam D args "owner_type" = (ownerType, None) ->
  RequiredInt D args "project_number" = (projectNumber, None) ->
  GetClient deps = None ->
  GetGQLClient deps = None ->
  let out := run client (ProjectsWrite D deps args) s in
  let '(settled, probes, s1) :=
    resolved_owner_type client owner ownerType projectNumber s in
  (ownerType <> "" -> probes = []) /\
  match settled with
  | Panicked => out = (Panicked, probes, s1)
  | Returned (_, Some e) =>
      out = (Returned (Some (NewToolResultError e), None), probes, s1)
  | Returned (kind, None) =>
      exists later,
        trace out = probes ++ later /\
        Forall (addressed owner kind projectNumber) later
  end.
Proof.
  intros Hmethod Howner Htype Hnumber Hclient Hgql. cbv zeta.
  pose proof (resolved_owner_type_given client s owner ownerType projectNumber)
    as Hgiven.
  unfold ProjectsWrite, resolved_owner_type, tool_error, mbind, Prog_bind in *.
  rewrite Hmethod, Howner, Htype, Hnumber, Hclient, Hgql, run_bind.
  assert (Hlater : forall kind,
    only (addressed owner kind projectNumber)
      (if String.eqb method projectsMethodAddProjectItem then
         match RequiredParam D args "item_type" with
         | (_, Some err) => Ret (Some (NewToolResultError err), None)
         | (itemType, None) =>
         match RequiredParam D args "item_owner" with
         | (_, Some err) => Ret (Some (NewToolResultError err), None)
         | (itemOwner, None) =>
         match RequiredParam D args "item_repo" with
         | (_, Some err) => Ret (Some (NewToolResultError err), None)
         | (itemRepo, None) =>
             if String.eqb itemType "issue" then
               match RequiredInt D args "issue_number" with
               | (_, Some _) =>
                   Ret (Some (NewToolResultError
                     [Str "issue_number is required when item_type is 'issue'"]),
                        None)
               | (itemNumber, None) =>
                   addProjectItem owner kind projectNumber itemOwner
                     itemRepo itemNumber itemType
               end
             else if String.eqb itemType "pull_request" then
               match RequiredInt D args "pull_request_number" with
               | (_, Some _) =>
                   Ret (Some (NewToolResultError
                     [Str "pull_request_number is required when item_type is 'pull_request'"]),
                        None)
               | (itemNumber, None) =>
                   addProjectItem owner kind projectNumber itemOwner
                     itemRepo itemNumber itemType
               end
             else
               Ret (Some (NewToolResultError
                 [Str "item_type must be either 'issue' or 'pull_request'"]), None)
         end end end
       else if String.eqb method projectsMethodUpdateProjectItem then
         match RequiredBigInt D args "item_id" with
         | (_, Some err) => Ret (Some (NewToolResultError err), None)
         | (itemID, None) =>
             match args !! "updated_field" with
             | None =>
                 Ret (Some (NewToolResultError
                   [Str "missing required parameter: updated_field"]), None)
             | Some rawUpdatedField =>
                 match as_object rawUpdatedField with
                 | None =>
                     Ret (Some (NewToolResultError
                       [Str "updated_field must be an object"]), None)
                 | Some fieldValue =>
                     updateProjectItem owner kind projectNumber itemID
                       (Some fieldValue)
                 end
             end
         end
       else if String.eqb method projectsMethodDeleteProjectItem then
         match RequiredBigInt D args "item_id" with
         | (_, Some err) => Ret (Some (NewToolResultError err), None)
         | (itemID, None) =>
             deleteProjectItem owner kind projectNumber itemID
         end
       else Ret (Some (NewToolResultError (unknown_method method)), None)
       : Prog tool_result)).
  { intros kind.
    destruct (String.eqb method projectsMethodAddProjectItem).
    - destruct (RequiredParam D args "item_type") as [itemType [e |]]; [exact I |].
      destruct (RequiredParam D args "item_owner") as [itemOwner [e |]]; [exact I |].
      destruct (RequiredParam D args "item_repo") as [itemRepo [e |]]; [exact I |].
      destruct (String.eqb itemType "issue").
      + destruct (RequiredInt D args "issue_number") as [n [e |]]; [exact I |].
        apply only_addProjectItem.
      + destruct (String.eqb itemType "pull_request"); [| exact I].
        destruct (RequiredInt D args "pull_request_number") as [n [e |]];
          [exact I |].
        apply only_addProjectItem.
    - destruct (String.eqb method projectsMethodUpdateProjectItem).
      + destruct (RequiredBigInt D args "item_id") as [itemID [e |]]; [exact I |].
        destruct (args !! "updated_field") as [raw |]; [| exact I].
        destruct (as_object raw); [| exact I].
        apply only_updateProjectItem.
      + destruct (String.eqb method projectsMethodDeleteProjectItem); [| exact I].
        destruct (RequiredBigInt D args "item_id") as [itemID [e |]]; [exact I |].
        apply only_deleteProjectItem. }
  destruct (String.eqb_spec ownerType "") as [Eempty | Egiven].
  - unfold error, text in *.
    destruct (@run S (string * option (list piece)) client
                (detectOwnerType owner projectNumber) s)
      as [[[[kind [e |]] |] probes] s1].
    + split; [contradiction |]. cbn [run]. rewrite app_nil_r. reflexivity.
    + split; [contradiction |].
      specialize (Hlater kind). apply (only_run _ client _ s1) in Hlater.
      unfold tool_result, error, text in *.
      match goal with
      | |- context [@run S ?A client ?p s1] =>
          destruct (@run S A client p s1) as [[o later] s2]
      end.
      exists later. split; [reflexivity | exact Hlater].
    + split; [contradiction | reflexivity].
  - split; [reflexivity |]. cbn [run].
    specialize (Hlater ownerType). apply (only_run _ client _ s) in Hlater.
    unfold tool_result, error, text in *.
    match goal with
    | |- context [@run S ?A client ?p s] =>
        destruct (@run S A client p s) as [[o later] s2]
    end.
    exists later. split; [reflexivity | exact Hlater].
Qed.

Lemma ProjectsWrite_settles_owner_type_first_witness :
  let probes := [GetUserProject "acme" 7; GetOrganizationProject "acme" 7] in
  run (serve offline) (ProjectsWrite plain ready delete_args) tt
  = (Returned (Some (NewToolResultError (owner_type_unknown "acme" 7)), None),
     probes, tt) /\
  exists later,
    trace (run (serve board) (ProjectsWrite plain ready delete_args) tt)
    = probes ++ later /\
    Forall (addressed "acme" "org" 7) later.
Proof.
  cbv zeta. split.
  - pose proof (ProjectsWrite_settles_owner_type_first (serve offline) tt plain
                  ready delete_args "delete_project_item" "acme" "" 7) as H.
    cbv zeta in H.
    assert (Ed : resolved_owner_type (serve offline) "acme" "" 7 tt
                 = (Returned ("", Some (owner_type_unknown "acme" 7)),
                    [GetUserProject "acme" 7; GetOrganizationProject "acme" 7], tt))
      by (vm_compute; reflexivity).
    rewrite Ed in H.
    apply H; vm_compute; reflexivity.
  - pose proof (ProjectsWrite_settles_owner_type_first (serve board) tt plain
                  ready delete_args "delete_project_item" "acme" "" 7) as H.
    cbv zeta in H.
    assert (Ed : resolved_owner_type (serve board) "acme" "" 7 tt
                 = (Returned ("org", None),
                    [GetUserProject "acme" 7; GetOrganizationProject "acme" 7], tt))
      by (vm_compute; reflexivity).
    rewrite Ed in H.
    apply H; vm_compute; reflexivity.
Defined.

Lemma run_settle {S : Type} (client : Client S) (s : S)
    (owner ownerType : string) (projectNumber : Z) :
  run client (if String.eqb ownerType ""
              then detectOwnerType owner projectNumber
              else Ret (ownerType, None)) s
  = resolved_owner_type client owner ownerType projectNumber s.
Proof.
  unfold resolved_owner_type. destruct (String.eqb ownerType ""); reflexivity.
Qed.

(** X14: update_project_item_field_by_name settles the owner type,
    resolves the option with one listing of the fields and issues one
    update with the resolved field ID and option ID.  It looks only at
    the Go error of the update, which is set only when a refusal's body
    cannot be read: when the update call returns a transport error, or
    a status other than 200 with a readable body, the handler still
    answers with the confirmation that the field was set. *)
Theorem UpdateProjectItemFieldByNames_confirms_whatever_the_update_returns
    {S : Type} (client : Client S) (s s1 s2 : S) (D : Decoders)
    (deps : ToolDependencies) (args : gmap string any)
    (owner ownerType kind fieldName optionName optionID : string)
    (projectNumber itemID fieldID : Z) (probes listing : list Call) :
  RequiredParam D args "owner" = (owner, None) ->
  OptionalParam D args "owner_type" = (ownerType, None) ->
  RequiredInt D args "project_number" = (projectNumber, None) ->
  RequiredBigInt D args "item_id" = (itemID, None) ->
  RequiredParam D args "field_name" = (fieldName, None) ->
  RequiredParam D args "option_name" = (optionName, None) ->
  GetClient deps = None ->
  resolved_owner_type client owner ownerType projectNumber s
  = (Returned (kind, None), probes, s1) ->
  run client (resolveSingleSelectOptionByName owner kind projectNumber
                fieldName optionName) s1
  = (Returned (optionID, fieldID, None), listing, s2) ->
  let payload := option_update fieldID optionID in
  let '(item, resp, err, s3) :=
    update_reply client owner kind projectNumber itemID payload s2 in
  let out := run client (UpdateProjectItemFieldByNames D deps args) s in
  let said := said_set fieldName optionName in
  trace out
  = probes ++ listing ++ [update_call owner kind projectNumber itemID payload] /\
  (forall e, err = Some e -> result out = Returned (Some said, None)) /\
  (forall r body, err = None -> resp = Some r -> Body r = inl body ->
     result out = Returned (Some said, None)) /\
  (forall r, err = None -> resp = Some r -> StatusCode r = 200 ->
     result out = Returned (Some said, None)) /\
  (forall r e, err = None -> resp = Some r -> StatusCode r <> 200 ->
     Body r = inr e ->
     result out
     = Returned (Some (NewToolResultError
                         [Str "failed to read response body: "; Sub e]), None)).
Proof.
  intros Howner Htype Hnumber Hitem Hfield Hoption Hclient Hsettled Hresolved.
  cbv zeta.
  pose proof (run_updateProjectItem client s2 owner kind projectNumber itemID
                (field_update fieldID optionID)) as Hupdate.
  rewrite buildUpdateProjectItem_field_update in Hupdate.
  destruct (update_reply client owner kind projectNumber itemID
              (option_update fieldID optionID) s2) as [[[item resp] err] s3].
  unfold UpdateProjectItemFieldByNames, tool_error, said_set, mbind, Prog_bind.
  rewrite Howner, Htype, Hnumber, Hitem, Hfield, Hoption, Hclient.
  rewrite run_bind, run_settle, Hsettled. cbv beta iota.
  unfold tool_result, error, text in *.
  rewrite run_bind, Hresolved. cbv beta iota.
  rewrite run_bind, Hupdate.
  unfold trace, result.
  destruct err as [e |]; [| destruct resp as [r |]]; cbn [fst snd].
  - cbn. split; [reflexivity |]. split; [| split; [| split]].
    + intros e' _. reflexivity.
    + intros r body H. discriminate H.
    + intros r H. discriminate H.
    + intros r e' H. discriminate H.
  - destruct (Z.eqb_spec (StatusCode r) 200) as [E | E];
      [| destruct (Body r) as [body | e] eqn:Ebody]; cbn.
    + split; [reflexivity |]. split; [| split; [| split]].
      * intros e' H. discriminate H.
      * intros r' body _ _ _. reflexivity.
      * intros r' _ _ _. reflexivity.
      * intros r' e' _ [= <-] Hne _. contradiction.
    + split; [reflexivity |]. split; [| split; [| split]].
      * intros e' H. discriminate H.
      * intros r' body' _ _ _. reflexivity.
      * intros r' _ _ _. reflexivity.
      * intros r' e' _ [= <-] _ Hbody. congruence.
    + split; [reflexivity |]. split; [| split; [| split]].
      * intros e' H. discriminate H.
      * intros r' body' _ [= <-] Hbody. congruence.
      * intros r' _ [= <-] H200. contradiction.
      * intros r' e' _ [= <-] _ Hbody. congruence.
  - cbn. split; [reflexivity |]. split; [| split; [| split]].
    + intros e' H. discriminate H.
    + intros r body _ H. discriminate H.
    + intros r _ H. discriminate H.
    + intros r e' _ H. discriminate H.
Qed.

Lemma UpdateProjectItemFieldByNames_confirms_whatever_the_update_returns_witness :
  let unprocessable := response 422 "" "Unprocessable Entity" in
  let locked := with_update board (None, Some unprocessable, None) in
  run (serve locked) (UpdateProjectItemFieldByNames plain ready priority_args) tt
  = (Returned (Some (said_set "Priority" "High"), None),
     [ListOrganizationProjectFields "acme" 7 (per_page 100);
      UpdateOrganizationProjectItem "acme" 7 1001 priority_high], tt).
Proof.
  cbv zeta.
  pose proof (UpdateProjectItemFieldByNames_confirms_whatever_the_update_returns
                (serve (with_update board
                          (None, Some (response 422 "" "Unprocessable Entity"), None)))
                tt tt tt plain ready priority_args
                "acme" "org" "org" "Priority" "High" "opt1" 7 1001 42 []
                [ListOrganizationProjectFields "acme" 7 (per_page 100)]) as H.
  cbv zeta in H.
  assert (Eu : update_reply
                 (serve (with_update board
                           (None, Some (response 422 "" "Unprocessable Entity"),
                            None)))
                 "acme" "org" 7 1001 (option_update 42 "opt1") tt
               = (None, Some (response 422 "" "Unprocessable Entity"), None, tt))
    by reflexivity.
  rewrite Eu in H.
  destruct H as (Htrace & _ & Hbody & _); [vm_compute; reflexivity .. |].
  specialize (Hbody (response 422 "" "Unprocessable Entity") "Unprocessable Entity"
                eq_refl eq_refl eq_refl).
  unfold trace, result in *.
  destruct (run _ _ tt) as [[o tr] []]. simpl in *. subst. reflexivity.
Defined.

Lemma only_listProjects (D : Decoders) (args : gmap string any)
    (owner ownerType : string) :
  only (lists_projects_of owner) (listProjects D args owner ownerType).
Proof.
  unfold listProjects.
  destruct (OptionalParam D args "query") as [q [e |]]; [exact I |].
  destruct (extractPaginationOptionsFromArgs D args) as [pg | e]; [| exact I].
  destruct (String.eqb ownerType "").
  - unfold listProjectsFromBothOwnerTypes. simpl.
    split; [reflexivity |]. intros [[ups uresp] uerr].
    destruct uerr, uresp; simpl; try exact I;
      (split; [reflexivity |]); intros [[ops oresp] oerr];
      destruct oerr, oresp; simpl; try exact I;
      repeat match goal with |- context [if ?b then _ else _] => destruct b end;
      simpl; exact I.
  - destruct (String.eqb ownerType "org"); simpl;
      (split; [reflexivity |]); intros [[ps resp] err];
      destruct err, resp; exact I.
Qed.

(** X15: the list handler looks at the method first.  Listing projects
    never probes the owner type: with or without one, every call lists
    the projects of the given owner.  A method it does not know makes no
    call.  Listing fields or items without an owner type decodes the
    project number before anything is sent, then runs the detection,
    and a failed detection ends the handler after the probes alone;
    every call after the owner type is settled is addressed to that
    project on the endpoints of the settled owner type. *)
Theorem ProjectsList_probes_only_for_fields_and_items {S : Type}
    (client : Client S) (s : S) (D : Decoders) (E : Encoders)
    (deps : ToolDependencies) (args : gmap string any)
    (method owner ownerType : string) :
  RequiredParam D args "method" = (method, None) ->
  RequiredParam D args "owner" = (owner, None) ->
  OptionalParam D args "owner_type" = (ownerType, None) ->
  GetClient deps = None ->
  let out := run client (ProjectsList D E deps args) s in
  (method = projectsMethodListProjects ->
   Forall (lists_projects_of owner) (trace out)) /\
  (method <> projectsMethodListProjects ->
   method <> projectsMethodListProjectFields ->
   method <> projectsMethodListProjectItems ->
   out = (Returned (Some (NewToolResultError (unknown_method method)), None),
          [], s)) /\
  (method = projectsMethodListProjectFields \/
   method = projectsMethodListProjectItems ->
   (forall e, ownerType = "" ->
      (RequiredInt D args "project_number").2 = Some e ->
      out = (Returned (Some (NewToolResultError e), None), [], s)) /\
   (forall projectNumber,
      RequiredInt D args "project_number" = (projectNumber, None) ->
      let '(settled, probes, s1) :=
        resolved_owner_type client owner ownerType projectNumber s in
      match settled with
      | Panicked => out = (Panicked, probes, s1)
      | Returned (_, Some e) =>
          out = (Returned (Some (NewToolResultError e), None), probes, s1)
      | Returned (kind, None) =>
          exists later,
            trace out = probes ++ later /\
            Forall (addressed owner kind projectNumber) later
      end)).
Proof.
  intros Hmethod Howner Htype Hclient. cbv zeta.
  unfold ProjectsList, tool_error, mbind, Prog_bind.
  rewrite Hmethod, Howner, Htype, Hclient.
  split; [| split].
  - intros ->. cbn [String.eqb Ascii.eqb Bool.eqb projectsMethodListProjects].
    apply only_run, only_listProjects.
  - intros H1 H2 H3.
    destruct (String.eqb_spec method projectsMethodListProjects); [contradiction |].
    destruct (String.eqb_spec method projectsMethodListProjectFields);
      [contradiction |].
    destruct (String.eqb_spec method projectsMethodListProjectItems);
      [contradiction |].
    reflexivity.
  - pose proof (only_listProjectFields D E args owner) as Hfields.
    pose proof (only_listProjectItems D E args owner) as Hitems.
    intros Hm. split.
    + intros e -> He.
      destruct (RequiredInt D args "project_number") as [n err].
      simpl in He. subst err.
      destruct Hm as [-> | ->]; reflexivity.
    + intros projectNumber Hnumber. rewrite Hnumber in *. cbn [fst] in *.
      unfold resolved_owner_type.
      destruct Hm as [-> | ->];
        cbn [String.eqb Ascii.eqb Bool.eqb projectsMethodListProjects
               projectsMethodListProjectFields projectsMethodListProjectItems];
        (destruct (String.eqb ownerType "") eqn:Eempty;
         [ rewrite run_bind; unfold error, text in *;
           destruct (@run S (string * option (list piece)) client
                       (detectOwnerType owner projectNumber) s)
             as [[[[kind [e |]] |] probes] s1];
           [ cbn [run]; rewrite app_nil_r; reflexivity
           | match goal with
             | |- context [listProjectFields D E args owner kind] =>
                 specialize (Hfields kind);
                 apply (only_run _ client _ s1) in Hfields;
                 destruct (run client (listProjectFields D E args owner kind) s1)
                   as [[o later] s2];
                 exists later; split; [reflexivity | exact Hfields]
             | |- context [listProjectItems D E args owner kind] =>
                 specialize (Hitems kind);
                 apply (only_run _ client _ s1) in Hitems;
                 destruct (run client (listProjectItems D E args owner kind) s1)
                   as [[o later] s2];
                 exists later; split; [reflexivity | exact Hitems]
             end
           | reflexivity ]
         | match goal with
           | |- context [listProjectFields D E args owner ownerType] =>
               specialize (Hfields ownerType);
               apply (only_run _ client _ s) in Hfields;
               destruct (run client (listProjectFields D E args owner ownerType) s)
                 as [[o later] s2];
               exists later; split; [reflexivity | exact Hfields]
           | |- context [listProjectItems D E args owner ownerType] =>
               specialize (Hitems ownerType);
               apply (only_run _ client _ s) in Hitems;
               destruct (run client (listProjectItems D E args owner ownerType) s)
                 as [[o later] s2];
               exists later; split; [reflexivity | exact Hitems]
           end ]).
Qed.

Lemma ProjectsList_probes_only_for_fields_and_items_witness :
  run (serve offline) (ProjectsList plain opaque ready (list_args "list_project_fields"))
    tt
  = (Returned (Some (NewToolResultError (owner_type_unknown "acme" 7)), None),
     [GetUserProject "acme" 7; GetOrganizationProject "acme" 7], tt) /\
  Forall (lists_projects_of "acme")
    (trace (run (serve board)
              (ProjectsList plain opaque ready (list_args "list_projects")) tt)) /\
  run (serve board) (ProjectsList plain opaque ready (list_args "list_issues")) tt
  = (Returned (Some (NewToolResultError (unknown_method "list_issues")), None),
     [], tt).
Proof.
  split; [| split].
  - destruct (ProjectsList_probes_only_for_fields_and_items (serve offline) tt
                plain opaque ready (list_args "list_project_fields")
                "list_project_fields" "acme" "")
      as (_ & _ & H); [vm_compute; reflexivity .. |].
    destruct (H (or_introl eq_refl)) as [_ Hsettled].
    specialize (Hsettled 7).
    assert (Ed : resolved_owner_type (serve offline) "acme" "" 7 tt
                 = (Returned ("", Some (owner_type_unknown "acme" 7)),
                    [GetUserProject "acme" 7; GetOrganizationProject "acme" 7], tt))
      by (vm_compute; reflexivity).
    rewrite Ed in Hsettled. apply Hsettled. vm_compute. reflexivity.
  - destruct (ProjectsList_probes_only_for_fields_and_items (serve board) tt
                plain opaque ready (list_args "list_projects")
                "list_projects" "acme" "")
      as (H & _); [vm_compute; reflexivity .. |].
    apply H. reflexivity.
  - destruct (ProjectsList_probes_only_for_fields_and_items (serve board) tt
                plain opaque ready (list_args "list_issues")
                "list_issues" "acme" "")
      as (_ & H & _); [vm_compute; reflexivity .. |].
    apply H; discriminate.
Defined.

(** X16: whatever its arguments, its decoders and the replies, the
    assignment handler only issues calls addressed to the decoded
    project of the decoded organization on the organization endpoints:
    it never probes the owner type and never calls a user endpoint. *)
Theorem AssignIssueToOrgProject_stays_on_org_endpoints {S : Type}
    (client : Client S) (s : S) (D : Decoders) (E : Encoders)
    (deps : ToolDependencies) (args : gmap string any) :
  Forall (addressed (RequiredParam D args "org").1 "org"
            (RequiredInt D args "project_number").1)
    (trace (run client (AssignIssueToOrgProject D E deps args) s)).
Proof.
  apply only_run. unfold AssignIssueToOrgProject, tool_error, mbind, Prog_bind.
  destruct (RequiredParam D args "org") as [org [e |]]; [exact I |].
  destruct (RequiredInt D args "project_number") as [projectNumber [e |]];
    [exact I |].
  destruct (RequiredParam D args "item_owner") as [itemOwner [e |]]; [exact I |].
  destruct (RequiredParam D args "item_repo") as [itemRepo [e |]]; [exact I |].
  destruct (RequiredInt D args "issue_number") as [issueNumber [e |]]; [exact I |].
  destruct (GetGQLClient deps) as [e |]; [exact I |].
  destruct (GetClient deps) as [e |]; [exact I |].
  apply only_bind; [apply only_assignIssueToOrgProjectWithFields |].
  intros [[result |] [e |]]; exact I.
Qed.

(** ** Node identifiers *)

(** X17: resolveIssueNodeID and resolvePullRequestNodeID each make one
    GraphQL lookup keyed on the owner, the repository and the number
    narrowed to 32 bits.  A failed lookup gives an error that names the
    owner, the repository and the number as it was passed, with the
    cause; a lookup without error returns the identifier of the reply
    as it is, the empty one included. *)
Theorem node_id_resolution {S : Type} (client : Client S) (s : S)
    (owner repo : string) (number : Z) :
  let issue := QueryIssueID owner repo (int32 number) in
  let pull := QueryPullRequestID owner repo (int32 number) in
  let '(id, err, s1) := client issue s in
  let '(id', err', s1') := client pull s in
  let out := run client (resolveIssueNodeID owner repo number) s in
  let out' := run client (resolvePullRequestNodeID owner repo number) s in
  trace out = [issue] /\ trace out' = [pull] /\
  (err = None -> out = (Returned (id, None), [issue], s1)) /\
  (err' = None -> out' = (Returned (id', None), [pull], s1')) /\
  (forall cause, err = Some cause ->
     exists e, out = (Returned ("", Some e), [issue], s1) /\
               names owner e = true /\ names repo e = true /\
               names_number number e = true /\ last e = Some (Sub cause)) /\
  (forall cause, err' = Some cause ->
     exists e, out' = (Returned ("", Some e), [pull], s1') /\
               names owner e = true /\ names repo e = true /\
               names_number number e = true /\ last e = Some (Sub cause)).
Proof.
  cbv zeta. unfold resolveIssueNodeID, resolvePullRequestNodeID. simpl.
  destruct (client (QueryIssueID owner repo (int32 number)) s) as [[id err] s1].
  destruct (client (QueryPullRequestID owner repo (int32 number)) s)
    as [[id' err'] s1'].
  unfold trace.
  split; [destruct err; reflexivity |].
  split; [destruct err'; reflexivity |].
  split; [intros ->; reflexivity |].
  split; [intros ->; reflexivity |].
  split; intros cause ->; (eexists; split; [reflexivity |]);
    unfold names, names_number; simpl;
    rewrite !String.eqb_refl, Z.eqb_refl, ?orb_true_r; repeat split.
Qed.

Lemma node_id_resolution_witness :
  run (serve board) (resolveIssueNodeID "octo" "app" 73) tt
  = (Returned ("NODE_1", None), [QueryIssueID "octo" "app" 73], tt) /\
  exists e,
    run (serve offline) (resolvePullRequestNodeID "octo" "app" 12) tt
    = (Returned ("", Some e), [QueryPullRequestID "octo" "app" 12], tt) /\
    names "octo" e = true /\ names_number 12 e = true.
Proof.
  split.
  - pose proof (node_id_resolution (serve board) tt "octo" "app" 73) as H.
    cbv zeta in H. cbn [serve node_id board] in H.
    destruct H as (_ & _ & H & _). apply H. reflexivity.
  - pose proof (node_id_resolution (serve offline) tt "octo" "app" 12) as H.
    cbv zeta in H. cbn [serve node_id offline] in H.
    destruct H as (_ & _ & _ & _ & _ & H).
    destruct (H refused eq_refl) as (e & Hout & Ho & _ & Hn & _).
    exists e. split; [exact Hout |]. split; [exact Ho | exact Hn].
Defined.

(** ** Listing the items of a project *)

(** X18: listProjectItems makes one list call that carries the decoded
    field IDs as they are, the bounded pagination options and the
    query, which is left out when it is the empty string.  When the
    call returns no error the result is a success, whatever the status
    of the response, with the items as returned and the page info of
    the response; an error of the call gives the API error response. *)
Theorem listProjectItems_forwards_query_and_fields {S : Type}
    (client : Client S) (s : S) (D : Decoders) (E : Encoders)
    (args : gmap string any) (owner ownerType query : string)
    (projectNumber : Z) (fields : list Z)
    (pagination : ListProjectsPaginationOptions) :
  RequiredInt D args "project_number" = (projectNumber, None) ->
  OptionalParam D args "query" = (query, None) ->
  OptionalBigIntArrayParam D args "fields" = (fields, None) ->
  extractPaginationOptionsFromArgs D args = inl pagination ->
  let opts :=
    {| ListOptions :=
         {| Pagination := pagination;
            Query := if String.eqb query "" then None else Some query |};
       opt_Fields := fields |} in
  let '(items, resp, err, s1) :=
    list_items_reply client owner ownerType projectNumber opts s in
  let out := run client (listProjectItems D E args owner ownerType) s in
  trace out = [list_items_call owner ownerType projectNumber opts] /\
  bounded_page pagination /\
  (forall r, err = None -> resp = Some r ->
     result out
     = Returned (Some (NewToolResultText
                         [Json (JObject
                                  [("items", encode_items E items);
                                   ("pageInfo",
                                    marshal_pageInfo (buildPageInfo r))])]),
                 None)) /\
  (forall e, err = Some e ->
     result out
     = Returned (Some (NewGitHubAPIErrorResponse ProjectListFailedError resp e),
                 None)).
Proof.
  intros Hnumber Hquery Hfields Hpg. cbv zeta.
  pose proof (extractPaginationOptionsFromArgs_bounded D args pagination Hpg)
    as Hbound.
  unfold listProjectItems, list_items_reply, list_items_call.
  rewrite Hnumber, Hquery, Hfields, Hpg.
  replace (if negb (String.eqb query "") then Some query else None)
    with (if String.eqb query "" then None else Some query)
    by (destruct (String.eqb query ""); reflexivity).
  destruct (String.eqb ownerType "org"); simpl;
    (match goal with |- context [client ?c s] =>
       destruct (client c s) as [[[items resp] err] s1] end);
    unfold trace, result; destruct err as [e |], resp as [r |]; simpl;
    (split; [reflexivity |]); (split; [exact Hbound |]);
    (split; [intros r' H1 H2; try discriminate H1; try discriminate H2;
             injection H2 as <-; reflexivity
            | intros e' H; try discriminate H; injection H as <-; reflexivity]).
Qed.

Lemma listProjectItems_forwards_query_and_fields_witness :
  let args : gmap string any :=
    <["project_number" := number 7]>
      (<["query" := text_arg "is:open"]> (<["per_page" := number 500]> ∅)) in
  trace (run (serve board) (listProjectItems plain opaque args "acme" "org") tt)
  = [ListOrganizationProjectItems "acme" 7
       {| ListOptions :=
            {| Pagination := {| PerPage := Some 50; opt_After := None;
                                opt_Before := None |};
               Query := Some "is:open" |};
          opt_Fields := [] |}].
Proof.
  cbv zeta.
  pose proof (listProjectItems_forwards_query_and_fields (serve board) tt plain
                opaque
                (<["project_number" := number 7]>
                   (<["query" := text_arg "is:open"]>
                      (<["per_page" := number 500]> ∅)))
                "acme" "org" "is:open" 7 []
                {| PerPage := Some 50; opt_After := None; opt_Before := None |})
    as H.
  cbv zeta in H.
  destruct (list_items_reply (serve board) "acme" "org" 7 _ tt)
    as [[[items resp] err] s1].
  destruct H as (Htrace & _); [vm_compute; reflexivity .. |].
  exact Htrace.
Defined.

(** ** What the tagging reports *)

(** X19: when neither step of the tagging fails to resolve its option
    and neither update returns a Go error, setPriorityAndSize returns,
    after the calls of the two steps, one note per non-empty argument,
    Priority before Size, and the nil slice when both are empty.  A
    note is written for an update the API refused just as for one it
    applied. *)
Theorem setPriorityAndSize_notes_every_passed_step {S : Type}
    (client : Client S) (s : S) (owner ownerType : string)
    (projectNumber itemID : Z) (priority size : string) :
  let out := run client (setPriorityAndSize owner ownerType projectNumber itemID
                           priority size) s in
  let '(end1, tr1, s1) :=
    field_step client owner ownerType projectNumber itemID "Priority" priority s in
  let '(end2, tr2, s2) :=
    field_step client owner ownerType projectNumber itemID "Size" size s1 in
  step_passed end1 -> step_passed end2 ->
  out = (Returned (noted priority size, None), tr1 ++ tr2, s2) /\
  (priority = "" -> size = "" -> noted priority size = None /\ tr1 ++ tr2 = []).
Proof.
  cbv zeta. rewrite setPriorityAndSize_blocks, run_bind, run_field_block_or_skip.
  pose proof (field_step_not_skipped client s owner ownerType projectNumber itemID
                "Priority" priority) as Hp.
  assert (Hskip1 : String.eqb priority "" = true ->
            field_step client owner ownerType projectNumber itemID "Priority"
              priority s = (StepSkipped, [], s))
    by (intros E; unfold field_step; rewrite E; reflexivity).
  destruct (field_step client owner ownerType projectNumber itemID "Priority"
              priority s) as [[end1 tr1] s1].
  pose proof (field_step_not_skipped client s1 owner ownerType projectNumber itemID
                "Size" size) as Hs.
  assert (Hskip2 : String.eqb size "" = true ->
            field_step client owner ownerType projectNumber itemID "Size"
              size s1 = (StepSkipped, [], s1))
    by (intros E; unfold field_step; rewrite E; reflexivity).
  assert (Hrun2 : forall updates : slice text,
    run client
      (bind (if negb (String.eqb size "")
             then field_block owner ownerType projectNumber itemID
                    "Size: " "set Size: " "Size" size updates
                    [Str "Size="; Str size]
             else Ret (inl updates))
            (fun r : slice text + error =>
               match r with
               | inr e => Ret (None, Some e)
               | inl updates => Ret (updates, None)
               end)) s1
    = let '(e, tr, s2) :=
        field_step client owner ownerType projectNumber itemID "Size" size s1 in
      (match e with
       | ResolutionFailed e => Returned (None, Some [Str "Size: "; Sub e])
       | UpdateErrored e => Returned (None, Some [Str "set Size: "; Sub e])
       | StepPanicked => Panicked
       | StepSkipped => Returned (updates, None)
       | UpdateApplied | UpdateRefused =>
           Returned (append updates [Str "Size="; Str size], None)
       end, tr, s2)).
  { intros updates. rewrite run_bind, run_field_block_or_skip.
    destruct (field_step client owner ownerType projectNumber itemID "Size" size s1)
      as [[e tr] s2].
    destruct e; cbn [run]; rewrite ?app_nil_r; reflexivity. }
  destruct (field_step client owner ownerType projectNumber itemID "Size" size s1)
    as [[end2 tr2] s2].
  intros H1 H2. unfold noted.
  destruct (String.eqb_spec priority "") as [Ep | Ep];
    destruct (String.eqb_spec size "") as [Es | Es].
  - specialize (Hskip1 eq_refl). specialize (Hskip2 eq_refl).
    injection Hskip1 as -> -> ->. injection Hskip2 as -> -> ->.
    unfold slice, error, text in *. rewrite Hrun2.
    split; [reflexivity |]. intros _ _. split; reflexivity.
  - specialize (Hskip1 eq_refl). injection Hskip1 as -> -> ->.
    unfold slice, error, text in *. rewrite Hrun2.
    split; [| intros _ E; contradiction].
    destruct end2; try contradiction; try reflexivity.
    exfalso; apply Hs; [destruct (String.eqb_spec size ""); congruence | reflexivity].
  - specialize (Hskip2 eq_refl). injection Hskip2 as -> -> ->.
    split; [| intros E; contradiction].
    destruct end1; try contradiction;
      unfold slice, error, text in *; rewrite ?Hrun2; try reflexivity.
    exfalso; apply Hp; [destruct (String.eqb_spec priority ""); congruence
                      | reflexivity].
  - split; [| intros E; contradiction].
    destruct end1; try contradiction;
      unfold slice, error, text in *; rewrite ?Hrun2;
      try (exfalso; apply Hp; [destruct (String.eqb_spec priority ""); congruence
                              | reflexivity]);
      destruct end2; try contradiction; try reflexivity;
      (exfalso; apply Hs; [destruct (String.eqb_spec size ""); congruence
                          | reflexivity]).
Qed.

Lemma setPriorityAndSize_notes_every_passed_step_witness :
  let locked :=
    with_update board (None, Some (response 422 "" "Unprocessable Entity"), None) in
  run (serve locked) (setPriorityAndSize "acme" "org" 7 1073 "High" "") tt
  = (Returned (Some [[Str "Priority="; Str "High"]], None),
     [ListOrganizationProjectFields "acme" 7 (per_page 100);
      UpdateOrganizationProjectItem "acme" 7 1073 priority_high], tt).
Proof.
  cbv zeta.
  pose proof (setPriorityAndSize_notes_every_passed_step
                (serve (with_update board
                          (None, Some (response 422 "" "Unprocessable Entity"), None)))
                tt "acme" "org" 7 1073 "High" "") as H.
  cbv zeta in H.
  assert (E1 : field_step
                 (serve (with_update board
                           (None, Some (response 422 "" "Unprocessable Entity"),
                            None)))
                 "acme" "org" 7 1073 "Priority" "High" tt
               = (UpdateRefused,
                  [ListOrganizationProjectFields "acme" 7 (per_page 100);
                   UpdateOrganizationProjectItem "acme" 7 1073 priority_high], tt))
    by (vm_compute; reflexivity).
  rewrite E1 in H.
  assert (E2 : field_step
                 (serve (with_update board
                           (None, Some (response 422 "" "Unprocessable Entity"),
                            None)))
                 "acme" "org" 7 1073 "Size" "" tt
               = (StepSkipped, [], tt))
    by reflexivity.
  rewrite E2 in H.
  destruct (H I I) as [Hout _]. exact Hout.
Defined.
